(** * ws/forms.py: a shallow embedding of the form validators

    The module [ws.forms] is a layer of Django forms.  Its logic lives in
    a handful of [clean_*] validators, in the constructors that set flags
    and widget attributes on the fields, and in two small factories.
    Each of them is embedded below as a function over explicit form
    state: the dictionaries of the source ([cleaned_data], [data],
    widget [attrs]) are finite maps, ordered field collections are
    association lists, and a Python exception is the [Raise] branch of a
    result type.

    Strings are Rocq strings; a character stands for a code point below
    256, and the string methods used by the source ([lower], [endswith],
    [strip]) behave on them as Python's do on that range. *)

From Stdlib Require Import ZArith String Ascii List Bool Lia.
From stdpp Require Import base gmap strings list pretty.

Open Scope string_scope.
Open Scope Z_scope.

(** ** Python strings *)

Module Py.

Definition ord (c : ascii) : N := N_of_ascii c.

(** [str.lower] on one code point below 256: the ASCII capitals and
    the Latin-1 capitals (all of 192..222 but the multiplication sign)
    move up by 32; everything else is left alone. *)
Definition lower_char (c : ascii) : ascii :=
  let n := ord c in
  if ((65 <=? n) && (n <=? 90))%N
     || ((192 <=? n) && (n <=? 222) && negb (n =? 215))%N
  then ascii_of_N (n + 32)
  else c.

Fixpoint lower (s : string) : string :=
  match s with
  | EmptyString => EmptyString
  | String c s' => String (lower_char c) (lower s')
  end.

(** [s.startswith(p)] *)
Fixpoint startswith (s p : string) : bool :=
  match p, s with
  | EmptyString, _ => true
  | String _ _, EmptyString => false
  | String a p', String b s' => if ascii_dec a b then startswith s' p' else false
  end.

(** [s.endswith(suffix)]: some tail of [s] is [suffix]. *)
Fixpoint endswith (s suffix : string) : bool :=
  if decide (s = suffix) then true
  else match s with
       | EmptyString => false
       | String _ s' => endswith s' suffix
       end.

(** [str.isspace] on one code point below 256. *)
Definition isspace (c : ascii) : bool :=
  let n := ord c in
  (((9 <=? n) && (n <=? 13)) || ((28 <=? n) && (n <=? 32))
   || (n =? 133) || (n =? 160))%N.

Fixpoint lstrip (s : string) : string :=
  match s with
  | EmptyString => EmptyString
  | String c s' => if isspace c then lstrip s' else s
  end.

Fixpoint rstrip (s : string) : string :=
  match s with
  | EmptyString => EmptyString
  | String c s' =>
      match rstrip s' with
      | EmptyString => if isspace c then EmptyString else String c EmptyString
      | kept => String c kept
      end
  end.

Definition strip (s : string) : string := rstrip (lstrip s).

(** [", ".join(names)] *)
Fixpoint join (sep : string) (l : list string) : string :=
  match l with
  | [] => ""
  | [x] => x
  | x :: rest => x +:+ sep +:+ join sep rest
  end.

(** [s.count("\n")] *)
Fixpoint count_char (c : ascii) (s : string) : Z :=
  match s with
  | EmptyString => 0
  | String a s' => (if ascii_dec a c then 1 else 0) + count_char c s'
  end.

(** Truth value of a string. *)
Definition nonempty (s : string) : bool :=
  match s with EmptyString => false | _ => true end.

End Py.

(** ** Exceptions and results *)

Inductive Exception :=
| ValidationError (message : string) (code : option string)
| KeyError (key : string)
| ValueError (what : string)
| TypeError (what : string)
| AttributeError (what : string)
| AssertionError.

Inductive Result (A : Type) :=
| Return (a : A)
| Raise (e : Exception).
Arguments Return {A} a.
Arguments Raise {A} e.

#[global] Instance Result_ret : MRet Result := fun A a => Return a.

#[global] Instance Result_bind : MBind Result := fun A B k r =>
  match r with
  | Return a => k a
  | Raise e => Raise e
  end.

Definition returns {A} (r : Result A) : bool :=
  match r with Return _ => true | Raise _ => false end.

(** ** The imported modules

    [ws.enums], [ws.models], [ws.membership], [ws.utils.dates] and the
    package [mitoc_const] are imported by [ws/forms.py]; the forms only
    call into them.  What the forms use of each is an interface here. *)

(** [ws.enums].  [Program_of_value v] is the call [enums.Program(v)],
    which raises [ValueError] when no member has that value ([None]
    here).  Enum members are truthy. *)
Class Enums := {
  Program : Type;
  Program_eq_dec :: EqDecision Program;
  Program_of_value : string -> option Program;
  Program_value : Program -> string;
  Program_label : Program -> string;
  Program_choices : list (string * list (string * string));
  winter_rules_apply : Program -> bool;
  WINTER_SCHOOL : Program;
  Activity : Type;
}.

(** [mitoc_const.affiliations]: the two student codes. *)
Class Affiliations := {
  MIT_UNDERGRAD_CODE : string;
  MIT_GRAD_STUDENT_CODE : string;
}.

(** [ws.utils.dates]: what [local_now()] and [is_currently_iap()] give
    at the moment a form is built. *)
Record Clock := {
  today_iso : string;        (* now.date().isoformat() *)
  naive_iso_now : string;    (* now.replace(tzinfo=None).isoformat(timespec="minutes") *)
  is_currently_iap : bool;
}.

(** ** Model instances, as far as the forms read them *)

Module EmailAddress.
Record t := { email : string; verified : bool }.
End EmailAddress.

Module User.
Record t := { emailaddress_set : list EmailAddress.t }.
End User.

Module Participant.
Record t := {
  pk : Z;
  name : string;
  email : string;
  affiliation : string;
  annual_dues : Z;
}.
End Participant.

Module SignUp.
Record t := { participant : Participant.t; on_trip : bool }.
End SignUp.

Module Trip.
Record t `{Enums} := {
  pk : option Z;                       (* [None] until the trip is saved *)
  notes : string;
  program_enum : Program;
  algorithm : string;
  wimp : option Participant.t;
  leaders : list Participant.t;        (* trip.leaders.all() *)
  signup_set : list SignUp.t;
}.
End Trip.

(** ** Values, fields and forms *)

Section DataModel.
Context `{Enums}.

(** The Python values that pass through form dictionaries. *)
Inductive Value :=
| VNone
| VBool (b : bool)
| VInt (z : Z)
| VStr (s : string)
| VTrip (t : Trip.t)
| VLeaders (q : list Participant.t).

(** Truth value, as [if v:] takes it. *)
Definition truthy (v : Value) : bool :=
  match v with
  | VNone => false
  | VBool b => b
  | VInt z => negb (z =? 0)
  | VStr s => Py.nonempty s
  | VTrip _ => true
  | VLeaders q => match q with [] => false | _ => true end
  end.

(** A choice of a select: a single [(value, label)] pair or a named
    group of them. *)
Inductive Choice :=
| Single (value : Value) (label : string)
| Group (label : string) (options : list (Value * string)).

Inductive QuerySet := Default_queryset | Participant_objects.

Record Widget := {
  widget_class : string;
  attrs : gmap string Value;
  widget_choices : list Choice;
}.

Record Field := {
  field_class : string;
  required : bool;
  label : option string;
  initial : Value;
  help_text : option string;
  choices : list Choice;
  queryset : QuerySet;
  widget : Widget;
}.

Definition make_widget (cls : string) (a : list (string * Value)) : Widget :=
  {| widget_class := cls; attrs := list_to_map a; widget_choices := [] |}.

Definition set_attrs (a : gmap string Value) (f : Field) : Field :=
  let w := widget f in
  {| field_class := field_class f; required := required f; label := label f;
     initial := initial f; help_text := help_text f; choices := choices f;
     queryset := queryset f;
     widget := {| widget_class := widget_class w; attrs := a;
                  widget_choices := widget_choices w |} |}.

(** [field.widget.attrs[k] = v] *)
Definition set_attr (k : string) (v : Value) (f : Field) : Field :=
  set_attrs (<[k := v]> (attrs (widget f))) f.

Definition set_widget (w : Widget) (f : Field) : Field :=
  {| field_class := field_class f; required := required f; label := label f;
     initial := initial f; help_text := help_text f; choices := choices f;
     queryset := queryset f; widget := w |}.

Definition set_widget_choices (c : list Choice) (f : Field) : Field :=
  let w := widget f in
  set_widget {| widget_class := widget_class w; attrs := attrs w;
                widget_choices := c |} f.

Definition set_required (b : bool) (f : Field) : Field :=
  {| field_class := field_class f; required := b; label := label f;
     initial := initial f; help_text := help_text f; choices := choices f;
     queryset := queryset f; widget := widget f |}.

Definition set_initial (v : Value) (f : Field) : Field :=
  {| field_class := field_class f; required := required f; label := label f;
     initial := v; help_text := help_text f; choices := choices f;
     queryset := queryset f; widget := widget f |}.

Definition set_help_text (h : option string) (f : Field) : Field :=
  {| field_class := field_class f; required := required f; label := label f;
     initial := initial f; help_text := h; choices := choices f;
     queryset := queryset f; widget := widget f |}.

Definition set_choices (c : list Choice) (f : Field) : Field :=
  {| field_class := field_class f; required := required f; label := label f;
     initial := initial f; help_text := help_text f; choices := c;
     queryset := queryset f; widget := widget f |}.

Definition set_queryset (q : QuerySet) (f : Field) : Field :=
  {| field_class := field_class f; required := required f; label := label f;
     initial := initial f; help_text := help_text f; choices := choices f;
     queryset := q; widget := widget f |}.

(** The ordered field collection [form.fields]. *)
Definition Fields := list (string * Field).

Fixpoint get_field (name : string) (fs : Fields) : option Field :=
  match fs with
  | [] => None
  | (n, f) :: rest => if decide (n = name) then Some f else get_field name rest
  end.

Fixpoint alter_field (name : string) (g : Field -> Field) (fs : Fields) : Fields :=
  match fs with
  | [] => []
  | (n, f) :: rest =>
      if decide (n = name) then (n, g f) :: rest
      else (n, f) :: alter_field name g rest
  end.

Definition field_names (fs : Fields) : list string := map fst fs.

(** A form: [I] is the type of [form.instance]. *)
Record Form (I : Type) := {
  data : gmap string string;           (* the submitted QueryDict, {} when unbound *)
  instance : I;
  form_initial : gmap string Value;    (* form.initial *)
  fields : Fields;
  cleaned_data : gmap string Value;
  errors : gmap string (list string);
}.
Arguments data {I} _.
Arguments instance {I} _.
Arguments form_initial {I} _.
Arguments fields {I} _.
Arguments cleaned_data {I} _.
Arguments errors {I} _.

Definition with_fields {I} (fs : Fields) (form : Form I) : Form I :=
  {| data := data form; instance := instance form;
     form_initial := form_initial form; fields := fs;
     cleaned_data := cleaned_data form; errors := errors form |}.

Definition with_cleaned_data {I} (cd : gmap string Value) (form : Form I) : Form I :=
  {| data := data form; instance := instance form;
     form_initial := form_initial form; fields := fields form;
     cleaned_data := cd; errors := errors form |}.

Definition with_errors {I} (e : gmap string (list string)) (form : Form I) : Form I :=
  {| data := data form; instance := instance form;
     form_initial := form_initial form; fields := fields form;
     cleaned_data := cleaned_data form; errors := e |}.

(** [form.fields[name].x = ...]: a missing name is a [KeyError]. *)
Definition on_field {I} (name : string) (g : Field -> Field) (form : Form I)
  : Result (Form I) :=
  match get_field name (fields form) with
  | None => Raise (KeyError name)
  | Some _ => Return (with_fields (alter_field name g (fields form)) form)
  end.

(** [form.cleaned_data[key]] *)
Definition cleaned {I} (key : string) (form : Form I) : Result Value :=
  match cleaned_data form !! key with
  | Some v => Return v
  | None => Raise (KeyError key)
  end.

(** [Form.add_error(field, message)] for a named field: a field that
    has no errors yet must be a field of the form ([ValueError]
    otherwise); the message joins the field's error list, and the
    field's entry leaves [cleaned_data]. *)
Definition add_error {I} (field message : string) (form : Form I) : Result (Form I) :=
  match errors form !! field, get_field field (fields form) with
  | None, None => Raise (ValueError "form has no such field")
  | _, _ =>
      Return (with_cleaned_data (delete field (cleaned_data form))
                (with_errors
                   (<[field := (default [] (errors form !! field) ++ [message])%list]>
                      (errors form))
                   form))
  end.

(** *** [_bind_input] *)

(** [str(v)] of a string or an integer. *)
Definition format_value (v : Value) : option string :=
  match v with
  | VStr s => Some s
  | VInt z => Some (pretty z)
  | _ => None
  end.

Definition _bind_input {I} (form : Form I) (field_name : string)
    (initial_arg : Value) (model_name : option string) : Result (Form I) :=
  match get_field field_name (fields form) with
  | None => Raise (KeyError field_name)
  | Some field =>
      let initial := match initial_arg with VNone => initial field | v => v end in
      let initial :=
        match data form !! field_name with
        | Some submitted => VStr submitted
        | None => initial
        end in
      let model_name :=
        match model_name with
        | Some m => if Py.nonempty m then m else field_name
        | None => field_name
        end in
      form ← on_field field_name (set_attr "data-ng-model" (VStr model_name)) form;
      if truthy initial then
        js_expr ← match initial with
                  | VBool b => Return (if b then "true" else "false")
                  | VStr _ | VInt _ =>
                      Return ("'" +:+ default "" (format_value initial) +:+ "'")
                  | _ => Raise (TypeError "Unexpected initial value")
                  end;
        on_field field_name
          (set_attr "data-ng-init" (VStr (model_name +:+ " = " +:+ js_expr))) form
      else Return form
  end.

(** The initial value [_bind_input] settles on. *)
Definition bound_initial {I} (form : Form I) (field_name : string)
    (initial_arg : Value) (field : Field) : Value :=
  match data form !! field_name with
  | Some submitted => VStr submitted
  | None => match initial_arg with VNone => initial field | v => v end
  end.

(** Values [_bind_input] can render. *)
Definition bindable (v : Value) : bool :=
  match v with
  | VTrip _ => false
  | VLeaders (_ :: _) => false
  | _ => true
  end.

(** A function on fields that touches nothing but the widget
    attributes. *)
Definition attrs_only (g : Field -> Field) : Prop :=
  forall f, exists a, g f = set_attrs a f.

(** *** [forms.ModelForm.__init__]

    The fields of a model form are the model's form fields for the
    names in [Meta.fields], in that order, each with the widget that
    [Meta.widgets] gives it, if any.  [formfield] is the model's side
    of it. *)
Record Meta := {
  meta_fields : list string;
  meta_widgets : list (string * Widget);
}.

Fixpoint assoc {A} (k : string) (l : list (string * A)) : option A :=
  match l with
  | [] => None
  | (k', a) :: rest => if decide (k' = k) then Some a else assoc k rest
  end.

Definition ModelForm_init {I} (formfield : string -> Field) (meta : Meta)
    (data : gmap string string) (initial : gmap string Value) (instance : I)
  : Form I :=
  {| data := data; instance := instance; form_initial := initial;
     fields := map (fun n =>
                      (n, match assoc n (meta_widgets meta) with
                          | Some w => set_widget w (formfield n)
                          | None => formfield n
                          end))
                   (meta_fields meta);
     cleaned_data := ∅; errors := ∅ |}.

End DataModel.

Arguments data {_ I} _.
Arguments instance {_ I} _.
Arguments form_initial {_ I} _.
Arguments fields {_ I} _.
Arguments cleaned_data {_ I} _.
Arguments errors {_ I} _.

(** ** The remaining imports, which speak of fields and values *)

(** A model field as [LeaderApplicationForm] and Django's model forms
    inspect it.  [mf_formfield] is [field.formfield()]: it is [None]
    for a field that has no form field, like the automatic primary
    key, which is editable all the same.  [creation_counter] is what
    model fields compare by; the fields of one model have distinct
    counters. *)
Record ModelField `{Enums} := {
  mf_name : string;
  is_TextField : bool;
  editable : bool;
  creation_counter : Z;
  mf_formfield : option Field;
}.

(** A model class: [_meta_fields] is [model._meta.fields], the forward
    fields that are not many-to-many; then [concrete_fields], the
    private fields that are model fields, and [many_to_many] of
    [model._meta]. *)
Record Model `{Enums} := {
  model_name : string;
  _meta_fields : list ModelField;
  _meta_concrete_fields : list ModelField;
  _meta_private_fields : list ModelField;
  _meta_many_to_many : list ModelField;
}.

(** A row of [Participant.AFFILIATION_CHOICES] is a pair
    [(label, option)]: [option] is either a list of [(code, label)]
    pairs, or a plain string, and then the pair reads [(code, label)]. *)
Inductive AffiliationOption :=
| OptionList (options : list (string * string))
| OptionStr (s : string).

(** [ws.models]: what the forms call on the model classes.  The
    [*_formfield] functions give the form field a model derives for one
    of its columns; [Participant_new] is [models.Participant()]. *)
Class Models `{Enums} := {
  can_lead : Participant.t -> Program -> bool;
  AFFILIATION_CHOICES : list (string * AffiliationOption);
  affiliation_to_annual_dues : string -> Z;
  model_from_activity : Activity -> Model;
  accepting_applications : Activity -> bool;
  Participant_new : Participant.t;
  Participant_formfield : string -> Field;
  Trip_formfield : string -> Field;
  SignUp_formfield : string -> Field;
}.

(** [ws.membership] *)
Class Membership `{Enums} := {
  MERCHANT_ID : Value;
  PAYMENT_TYPE : Value;
}.

(** [ws.widgets] *)
Class Widgets `{Enums} := {
  PhoneInput : Widget;
  LeaderSelect : Widget;
  ParticipantSelect : Widget;
  DateTimeLocalInput : Widget;
  MarkdownTextarea : string -> Widget;
}.

(** ** The forms *)

Section Forms.
Context `{Enums} `{!Affiliations} `{!Models} `{!Membership} `{!Widgets}.

Definition newline : string := String (ascii_of_N 10) "".

(** [enums.Program(v)] *)
Definition Program_call (v : Value) : Result Program :=
  match v with
  | VStr s =>
      match Program_of_value s with
      | Some p => Return p
      | None => Raise (ValueError s)
      end
  | _ => Raise (ValueError "not a valid Program")
  end.

(** [v == s] for a string [s] *)
Definition eq_str (v : Value) (s : string) : bool :=
  match v with
  | VStr s' => bool_decide (s' = s)
  | _ => false
  end.

(** *** ParticipantForm *)

Definition ParticipantForm_Meta : Meta :=
  {| meta_fields := ["name"; "email"; "cell_phone"; "affiliation"];
     meta_widgets :=
       [("name", make_widget "TextInput"
                   [("title", VStr "Full name"); ("pattern", VStr "^.* .*$")]);
        ("email", make_widget "Select" []);
        ("cell_phone", PhoneInput)] |}.

Record ParticipantForm := {
  participant_form : Form Participant.t;
  verified_emails : list string;
}.

Definition blank_affiliation (par : Participant.t) : Participant.t :=
  {| Participant.pk := Participant.pk par;
     Participant.name := Participant.name par;
     Participant.email := Participant.email par;
     Participant.affiliation := "";
     Participant.annual_dues := Participant.annual_dues par |}.

(** [ParticipantForm.__init__(user=..., instance=..., data=..., initial=...)] *)
Definition ParticipantForm_init (user : User.t) (instance_arg : option Participant.t)
    (data : gmap string string) (initial : gmap string Value)
  : Result ParticipantForm :=
  let instance_arg :=
    match instance_arg with
    | Some par =>
        if (String.length (Participant.affiliation par) =? 1)%nat
        then Some (blank_affiliation par) else Some par
    | None => None
    end in
  let form := ModelForm_init Participant_formfield ParticipantForm_Meta data initial
                (default Participant_new instance_arg) in
  let verified_emails :=
    map EmailAddress.email
      (filter (fun e => EmailAddress.verified e = true) (User.emailaddress_set user)) in
  form ← on_field "email"
           (set_widget_choices (map (fun email => Single (VStr email) email)
                                  verified_emails)) form;
  let par := instance form in
  form ← _bind_input form "affiliation" (VStr (Participant.affiliation par)) None;
  Return {| participant_form := form; verified_emails := verified_emails |}.

Definition mit_student_codes : list string :=
  [MIT_UNDERGRAD_CODE; MIT_GRAD_STUDENT_CODE].

(** [affiliation in mit_student_codes] *)
Definition is_mit_student_code (affiliation : Value) : bool :=
  match affiliation with
  | VStr s => bool_decide (s ∈ mit_student_codes)
  | _ => false
  end.

Definition lacks_mit_email : Exception :=
  ValidationError "MIT email address required for student affiliation!"
    (Some "lacks_mit_email").

Definition clean_affiliation (self : ParticipantForm) : Result Value :=
  affiliation ← cleaned "affiliation" (participant_form self);
  if negb (is_mit_student_code affiliation) then
    Return affiliation
  else if negb (existsb (fun email => Py.endswith (Py.lower email) "mit.edu")
                  (verified_emails self)) then
    Raise lacks_mit_email
  else Return affiliation.

(** *** TripForm *)

Definition ex_notes : string :=
  " 1. Do you have any dietary restrictions?" +:+ newline +:+
  " 2. What's your experience level?" +:+ newline +:+
  " 3. What are you most excited about?" +:+ newline.

Definition ex_descr : string :=
  Py.join newline
    ["We'll be heading up into the [Whites][whites] for a ~~day~~ weekend of exploring!";
     "";
     "### Why?";
     "Because it's _fun_!";
     "";
     "Prerequisites:";
     " - Enthusiastic attitude";
     " - Prior experience";
     " - **Proper clothing**";
     "";
     "[whites]: https://wikipedia.org/wiki/White_Mountains_(New_Hampshire)"].

Definition TripForm_Meta : Meta :=
  {| meta_fields :=
       ["edit_revision";
        "name"; "program"; "trip_type"; "maximum_participants";
        "difficulty_rating"; "winter_terrain_level"; "leaders"; "wimp";
        "membership_required"; "allow_leader_signups";
        "honor_participant_pairing"; "let_participants_drop";
        "description"; "summary"; "prereqs";
        "trip_date"; "algorithm"; "signups_open_at"; "signups_close_at";
        "notes"];
     meta_widgets :=
       [("leaders", LeaderSelect);
        ("wimp", ParticipantSelect);
        ("description", MarkdownTextarea ex_descr);
        ("notes", MarkdownTextarea ex_notes);
        ("trip_date", make_widget "DateInput" [("type", VStr "date")]);
        ("signups_open_at", DateTimeLocalInput);
        ("signups_close_at", DateTimeLocalInput);
        ("edit_revision", make_widget "HiddenInput" [])] |}.

Definition TripForm := Form Trip.t.

Definition clean_membership_required (self : TripForm) : Result Value :=
  if eq_str (default VNone (cleaned_data self !! "program"))
       (Program_value WINTER_SCHOOL)
  then Return (VBool true)
  else cleaned "membership_required" self.

(** [accepted_signups > new_max], with an integer on the left. *)
Definition int_gt (n : Z) (v : Value) : Result bool :=
  match v with
  | VInt m => Return (m <? n)
  | VBool b => Return ((if b then 1 else 0) <? n)
  | _ => Raise (TypeError "'>' not supported")
  end.

Definition cannot_shrink : Exception :=
  ValidationError
    ("Can't shrink trip past number of signed-up participants. " +:+
     "To remove participants, admin this trip instead.")
    None.

Definition clean_maximum_participants (self : TripForm) : Result Value :=
  let trip := instance self in
  new_max ← cleaned "maximum_participants" self;
  match Trip.pk trip with
  | None => Return new_max
  | Some _ =>
      let accepted_signups :=
        Z.of_nat (length (filter (fun s => SignUp.on_trip s = true)
                            (Trip.signup_set trip))) in
      too_many ← int_gt accepted_signups new_max;
      if (too_many : bool) then Raise cannot_shrink else Return new_max
  end.

(** [if trip.pk:] *)
Definition pk_truthy (pk : option Z) : bool :=
  match pk with
  | Some k => negb (k =? 0)
  | None => false
  end.

(** [leaders.exclude(pk__in=others)] *)
Definition exclude_pks (others leaders : list Participant.t) : list Participant.t :=
  filter (fun par => Participant.pk par ∉ map Participant.pk others) leaders.

Definition lacking_privs (program_enum : Program) (leaders : list Participant.t)
  : list Participant.t :=
  filter (fun par => can_lead par program_enum = false) leaders.

Definition cant_lead_message (program_enum : Program) (lacking : list Participant.t)
  : string :=
  Py.join ", " (map Participant.name lacking)
    +:+ " can't lead " +:+ Program_label program_enum +:+ " trips".

(** [TripForm.clean]: the form after the call ([clean] returns the
    form's own [cleaned_data]). *)
Definition TripForm_clean (self : TripForm) : Result TripForm :=
  match cleaned_data self !! "program", cleaned_data self !! "leaders" with
  | Some program, Some leaders =>
      program_enum ← Program_call program;
      leaders ← match leaders with
                | VLeaders q => Return q
                | _ => Raise (AttributeError "not a queryset of participants")
                end;
      let trip := instance self in
      let leaders :=
        if pk_truthy (Trip.pk trip) then exclude_pks (Trip.leaders trip) leaders
        else leaders in
      let lacking := lacking_privs program_enum leaders in
      match lacking with
      | [] => Return self
      | _ => add_error "leaders" (cant_lead_message program_enum lacking) self
      end
  | _, _ => Return self
  end.

Definition clean_winter_terrain_level (self : TripForm) : Result Value :=
  let program := default VNone (cleaned_data self !! "program") in
  strip_level ← (if truthy program then
                   program_enum ← Program_call program;
                   Return (negb (winter_rules_apply program_enum))
                 else Return false);
  if (strip_level : bool) then Return VNone
  else
    match default (VStr "") (cleaned_data self !! "winter_terrain_level") with
    | VStr level => Return (VStr level)
    | _ => Raise AssertionError
    end.

(** [TripForm._init_wimp] *)
Definition _init_wimp (self : TripForm) : Result TripForm :=
  self ← on_field "wimp" (set_attr "msg" (VStr "'Nobody'")) self;
  self ← on_field "wimp" (set_attr "exclude_self" (VStr "true")) self;
  match Trip.wimp (instance self) with
  | Some wimp =>
      self ← on_field "wimp" (set_attr "selected-id" (VInt (Participant.pk wimp))) self;
      on_field "wimp" (set_attr "selected-name" (VStr (Participant.name wimp))) self
  | None => Return self
  end.

(** The comprehension of [_allowed_program_choices]: the choices of
    one category whose program is allowed. *)
Fixpoint valid_choices (allowed : list Program) (choices : list (string * string))
  : Result (list (Value * string)) :=
  match choices with
  | [] => Return []
  | (value, label) :: rest =>
      program_enum ← Program_call (VStr value);
      rest ← valid_choices allowed rest;
      Return (if bool_decide (program_enum ∈ allowed)
              then (VStr value, label) :: rest else rest)
  end.

Fixpoint program_categories (allowed : list Program)
    (categories : list (string * list (string * string))) : Result (list Choice) :=
  match categories with
  | [] => Return []
  | (category, choices) :: rest =>
      valid ← valid_choices allowed choices;
      rest ← program_categories allowed rest;
      Return (match valid with
              | [] => rest
              | _ => Group category valid :: rest
              end)
  end.

(** [TripForm._allowed_program_choices], collected into a list. *)
Definition _allowed_program_choices (self : TripForm)
    (allowed_program_enums : list Program) : Result (list Choice) :=
  let allowed_program_enums :=
    if bool_decide (Trip.program_enum (instance self) ∈ allowed_program_enums)
    then allowed_program_enums
    else Trip.program_enum (instance self) :: allowed_program_enums in
  program_categories allowed_program_enums Program_choices.

(** [self.fields["winter_terrain_level"].required], as [__init__]
    computes it from the submitted [data]. *)
Definition winter_terrain_level_required (data : gmap string string) : Result bool :=
  match data !! "program" with
  | Some program =>
      if Py.nonempty program then
        program_enum ← Program_call (VStr program);
        Return (winter_rules_apply program_enum)
      else Return true
  | None => Return true
  end.

(** [TripForm.__init__(allowed_programs=..., data=..., initial=...,
    instance=...)], at the time [now]. *)
Definition TripForm_init (now : Clock) (allowed_programs : option (list Program))
    (data : gmap string string) (initial : gmap string Value) (trip : Trip.t)
  : Result TripForm :=
  let self : TripForm := ModelForm_init Trip_formfield TripForm_Meta data initial trip in
  self ← on_field "summary" (set_required false) self;
  self ← match Trip.pk trip with
         | None =>
             self ← on_field "trip_date" (set_attr "min" (VStr (today_iso now))) self;
             self ← on_field "signups_open_at"
                      (set_attr "min" (VStr (naive_iso_now now))) self;
             on_field "signups_close_at"
               (set_attr "min" (VStr (naive_iso_now now))) self
         | Some _ => Return self
         end;
  self ← on_field "leaders" (set_queryset Participant_objects) self;
  self ← on_field "leaders" (set_help_text None) self;
  level_required ← winter_terrain_level_required data;
  self ← on_field "winter_terrain_level" (set_required level_required) self;
  (* initial_program = trip.pk and trip.program_enum; what reaches
     [_bind_input] is [initial_program and initial_program.value] *)
  let initial_program :=
    match Trip.pk trip with
    | None => VNone
    | Some k => if k =? 0 then VInt 0 else VStr (Program_value (Trip.program_enum trip))
    end in
  '(self, initial_program) ←
    match allowed_programs with
    | Some allowed =>
        program_choices ← _allowed_program_choices self allowed;
        self ← on_field "program" (set_choices program_choices) self;
        Return (self,
                if bool_decide (WINTER_SCHOOL ∈ allowed)
                   && is_currently_iap now
                   && negb (pk_truthy (Trip.pk trip))
                then VStr (Program_value WINTER_SCHOOL)
                else initial_program)
    | None => Return (self, initial_program)
    end;
  self ← _init_wimp self;
  self ← on_field "leaders" (set_attr "data-ng-model" (VStr "leaders")) self;
  self ← _bind_input self "program" initial_program None;
  _bind_input self "algorithm" (VStr (Trip.algorithm trip)) None.

(** *** SignUpForm *)

Definition SignUpForm := Form SignUp.t.

Definition SignUpForm_Meta : Meta :=
  {| meta_fields := ["trip"; "notes"];
     meta_widgets := [("notes", make_widget "Textarea" [("rows", VInt 4)])] |}.

Definition please_complete_notes : Exception :=
  ValidationError "Please complete notes to sign up!" None.

Definition clean_notes (self : SignUpForm) : Result string :=
  notes ← cleaned "notes" self;
  signup_notes ← match notes with
                 | VStr s => Return (Py.strip s)
                 | _ => Raise (AttributeError "strip")
                 end;
  match cleaned_data self !! "trip" with
  | None => Return signup_notes
  | Some (VTrip trip) =>
      if Py.nonempty (Trip.notes trip) && negb (Py.nonempty signup_notes)
      then Raise please_complete_notes
      else Return signup_notes
  | Some _ => Raise (AttributeError "notes")
  end.

(** [SignUpForm.__init__]; [initial] is the form's [self.initial]. *)
Definition SignUpForm_init (data : gmap string string) (initial : gmap string Value)
    (signup : SignUp.t) : Result SignUpForm :=
  let self : SignUpForm :=
    ModelForm_init SignUp_formfield SignUpForm_Meta data initial signup in
  match default VNone (form_initial self !! "trip") with
  | VTrip trip =>
      if Py.nonempty (Trip.notes trip) then
        self ← on_field "notes" (set_required true) self;
        self ← on_field "notes" (set_attr "placeholder" (VStr (Trip.notes trip))) self;
        on_field "notes"
          (set_attr "rows"
             (VInt (Z.max 4 (Py.count_char (ascii_of_N 10) (Trip.notes trip) + 1))))
          self
      else Return self
  | v => if truthy v then Raise (AttributeError "notes") else Return self
  end.

(** *** LeaderApplicationForm *)

Definition DynamicActivityForm_exclude : list string :=
  ["archived"; "year"; "participant"; "previous_rating"].

(** The class built inside the factory, and its instance. *)
Record DynamicActivityForm (I : Type) := {
  Meta_exclude : list string;
  Meta_model : Model;
  Meta_widgets : list (string * Widget);
  activity_form : Form I;
}.
Arguments Meta_exclude {I} _.
Arguments Meta_model {I} _.
Arguments Meta_widgets {I} _.
Arguments activity_form {I} _.

(** [sorted(fields)]: model fields compare by creation counter, and
    the sort is stable. *)
Fixpoint insert_field (f : ModelField) (fs : list ModelField) : list ModelField :=
  match fs with
  | [] => [f]
  | g :: rest =>
      if (creation_counter f <=? creation_counter g)%Z then f :: g :: rest
      else g :: insert_field f rest
  end.

Definition sorted_fields (fs : list ModelField) : list ModelField :=
  foldr insert_field [] fs.

(** [sorted(chain(opts.concrete_fields, sortable_private_fields,
    opts.many_to_many))], the model fields Django walks to derive the
    fields of a model form. *)
Definition form_candidates (model : Model) : list ModelField :=
  sorted_fields
    (_meta_concrete_fields model ++ _meta_private_fields model
     ++ _meta_many_to_many model)%list.

(** [f.formfield] called with the widget that [Meta.widgets] names
    for the field, if any. *)
Definition formfield_with (widgets : list (string * Widget)) (f : ModelField)
  : option Field :=
  match assoc (mf_name f) widgets with
  | Some w => set_widget w <$> mf_formfield f
  | None => mf_formfield f
  end.

(** Django's [fields_for_model], for a [Meta] with a model, an
    exclusion list and widgets: it walks the candidates in order,
    skips a field that is not editable or is excluded, and keeps the
    others whose [formfield()] is not [None]. *)
Definition fields_for_model (model : Model) (exclude : list string)
    (widgets : list (string * Widget)) : Fields :=
  flat_map
    (fun f =>
       if negb (editable f) then []
       else if bool_decide (mf_name f ∈ exclude) then []
       else match formfield_with widgets f with
            | Some formfield => [(mf_name f, formfield)]
            | None => []
            end)
    (form_candidates model).

Definition mark_conditional (conditional_field : string) (fs : Fields) : Fields :=
  match get_field conditional_field fs with
  | Some _ => alter_field conditional_field (set_attr "required" (VBool true)) fs
  | None => fs
  end.

Definition LeaderApplicationForm {I} (activity_enum : Activity)
    (data : gmap string string) (initial : gmap string Value) (application : I)
  : DynamicActivityForm I :=
  let exclude := DynamicActivityForm_exclude in
  let model := model_from_activity activity_enum in
  let widgets :=
    flat_map (fun field =>
                if is_TextField field
                then [(mf_name field, make_widget "Textarea" [("rows", VInt 4)])]
                else [])
      (_meta_fields model) in
  let fs := fields_for_model model exclude widgets in
  let fs := fold_left (fun fs conditional_field => mark_conditional conditional_field fs)
              ["mentee_activities"; "mentor_activities"] fs in
  {| Meta_exclude := exclude; Meta_model := model; Meta_widgets := widgets;
     activity_form :=
       {| data := data; instance := application; form_initial := initial;
          fields := fs; cleaned_data := ∅; errors := ∅ |} |}.

Definition DynamicActivityForm_clean {I} (activity_enum : Activity)
    (self : DynamicActivityForm I) : Result (gmap string Value) :=
  if negb (accepting_applications activity_enum)
  then Raise (ValidationError "Not currently accepting applications!" None)
  else Return (cleaned_data (activity_form self)).

(** *** amount_choices and DuesForm *)

Definition include_amount_in_label (value_is_amount : bool)
    (affiliation_code label : string) : Value * string :=
  let amount := affiliation_to_annual_dues affiliation_code in
  let annotated_label := label +:+ " ($" +:+ pretty amount +:+ ")" in
  if value_is_amount then (VInt amount, annotated_label)
  else (VStr affiliation_code, annotated_label).

(** [list(amount_choices(value_is_amount))] *)
Definition amount_choices (value_is_amount : bool) : list Choice :=
  map (fun '(label, option) =>
         match option with
         | OptionList choices =>
             Group label
               (map (fun '(code, l) => include_amount_in_label value_is_amount code l)
                  choices)
         | OptionStr text =>
             let '(value, annotated) :=
               include_amount_in_label value_is_amount label text in
             Single value annotated
         end)
    AFFILIATION_CHOICES.

(** A form field as [forms.Field()] starts out. *)
Definition plain_field (cls : string) (w : Widget) : Field :=
  {| field_class := cls; required := true; label := None; initial := VNone;
     help_text := Some ""; choices := []; queryset := Default_queryset;
     widget := w |}.

Definition set_label (l : string) (f : Field) : Field :=
  {| field_class := field_class f; required := required f; label := Some l;
     initial := initial f; help_text := help_text f; choices := choices f;
     queryset := queryset f; widget := widget f |}.

(** The fields declared in the body of [class DuesForm]. *)
Definition DuesForm_declared_fields : Fields :=
  [("merchant_id",
    set_initial MERCHANT_ID (plain_field "CharField" (make_widget "HiddenInput" [])));
   ("description",
    set_initial (VStr "membership fees.")
      (plain_field "CharField" (make_widget "HiddenInput" [])));
   ("merchantDefinedData1",
    set_initial PAYMENT_TYPE (plain_field "CharField" (make_widget "HiddenInput" [])));
   ("merchantDefinedData2",
    set_choices (amount_choices false)
      (set_label "Affiliation" (plain_field "ChoiceField" (make_widget "Select" []))));
   ("merchantDefinedData3",
    set_label "Email" (plain_field "EmailField" (make_widget "EmailInput" [])));
   ("merchantDefinedData4",
    set_label "Full name"
      (plain_field "CharField"
         (make_widget "TextInput"
            [("placeholder", VStr "Tim Beaver");
             ("title", VStr "Full name");
             ("pattern", VStr "^.* .*$")])));
   ("amount",
    set_choices (amount_choices true)
      (set_help_text (Some "(We're showing this because you have scripts disabled)")
         (set_label "Please confirm your affiliation"
            (plain_field "ChoiceField" (make_widget "Select" [])))))].

Definition DuesForm := Form unit.

(** [DuesForm.__init__(participant=..., data=..., initial=...)] *)
Definition DuesForm_init (participant : option Participant.t)
    (data : gmap string string) (initial : gmap string Value) : Result DuesForm :=
  let self : DuesForm :=
    {| data := data; instance := tt; form_initial := initial;
       fields := DuesForm_declared_fields; cleaned_data := ∅; errors := ∅ |} in
  let email := "merchantDefinedData3" in
  self ← on_field email id self;
  self ← match participant with
         | None =>
             self ← on_field email (set_attr "placeholder" (VStr "tim@mit.edu")) self;
             on_field "amount" (set_initial (VStr "")) self
         | Some _ => Return self
         end;
  self ← match participant with
         | Some par =>
             self ← on_field email (set_initial (VStr (Participant.email par))) self;
             self ← on_field "merchantDefinedData4"
                      (set_initial (VStr (Participant.name par))) self;
             self ← on_field "merchantDefinedData2"
                      (set_initial (VStr (Participant.affiliation par))) self;
             on_field "amount" (set_initial (VInt (Participant.annual_dues par))) self
         | None => Return self
         end;
  self ← _bind_input self "merchantDefinedData2" VNone (Some "affiliation");
  self ← _bind_input self "merchantDefinedData3" VNone (Some "email");
  _bind_input self "amount" VNone None.

End Forms.

Arguments Meta_exclude {_ I} _.
Arguments Meta_model {_ I} _.
Arguments Meta_widgets {_ I} _.
Arguments activity_form {_ I} _.

(** ** Two more forms that bind their inputs *)

Module LotteryInfo.
Record t := {
  car_status : string;
  number_of_passengers : option Z;     (* [None] while not given *)
  paired_with : option Participant.t;
}.
End LotteryInfo.

(** [ws.models], continued: the form fields the models [LotteryInfo]
    and [LeaderRating] derive for their columns. *)
Class RatingModels `{Enums} := {
  LotteryInfo_formfield : string -> Field;
  LeaderRating_formfield : string -> Field;
}.

Section BoundForms.
Context `{Enums} `{!RatingModels}.

(** *** LotteryInfoForm *)

Definition LotteryInfoForm := Form LotteryInfo.t.

Definition LotteryInfoForm_Meta : Meta :=
  {| meta_fields := ["car_status"; "number_of_passengers"];
     meta_widgets :=
       [("number_of_passengers",
         make_widget "NumberInput" [("min", VInt 0); ("max", VInt 13)])] |}.

(** [getattr(self.instance, attr, None)] for the two bound attributes. *)
Definition LotteryInfo_getattr (info : LotteryInfo.t) (attr : string) : Value :=
  if decide (attr = "car_status") then VStr (LotteryInfo.car_status info)
  else if decide (attr = "number_of_passengers") then
    match LotteryInfo.number_of_passengers info with
    | Some n => VInt n
    | None => VNone
    end
  else VNone.

(** [LotteryInfoForm.__init__] *)
Definition LotteryInfoForm_init (data : gmap string string) (initial : gmap string Value)
    (info : LotteryInfo.t) : Result LotteryInfoForm :=
  let self : LotteryInfoForm :=
    ModelForm_init LotteryInfo_formfield LotteryInfoForm_Meta data initial info in
  foldl (fun (acc : Result LotteryInfoForm) attr =>
           self ← acc;
           _bind_input self attr (LotteryInfo_getattr (instance self) attr) None)
    (Return self) ["car_status"; "number_of_passengers"].

(** *** ApplicationLeaderForm *)

Definition ApplicationLeaderForm_Meta : Meta :=
  {| meta_fields := ["rating"; "notes"];
     meta_widgets := [("notes", make_widget "Textarea" [("rows", VInt 1)])] |}.

(** [is_recommendation = forms.BooleanField(required=False, label=...)] *)
Definition is_recommendation_field : Field :=
  {| field_class := "BooleanField"; required := false;
     label := Some "Is a recommendation"; initial := VNone; help_text := Some "";
     choices := []; queryset := Default_queryset;
     widget := make_widget "CheckboxInput" [] |}.

(** [ApplicationLeaderForm.__init__]: the declared field comes after
    the fields of the model. *)
Definition ApplicationLeaderForm_init {I} (data : gmap string string)
    (initial : gmap string Value) (rating : I) : Result (Form I) :=
  let base : Form I :=
    ModelForm_init LeaderRating_formfield ApplicationLeaderForm_Meta data initial rating in
  let self :=
    with_fields (fields base ++ [("is_recommendation", is_recommendation_field)])%list
      base in
  _bind_input self "is_recommendation"
    (default (VBool false) (form_initial self !! "is_recommendation"))
    (Some "is_rec").

End BoundForms.

(** ** Vocabulary of the statements *)

Section Vocabulary.
Context `{Enums} `{!Affiliations} `{!Models} `{!Membership} `{!Widgets}.

(** A form after its fields have been cleaned into [cd]. *)
Definition ParticipantForm_cleaned (cd : gmap string Value) (self : ParticipantForm)
  : ParticipantForm :=
  {| participant_form := with_cleaned_data cd (participant_form self);
     verified_emails := verified_emails self |}.

(** An address at the domain mit.edu itself: in lower case it ends
    with "@mit.edu". *)
Definition is_at_mit_edu (email : string) : bool :=
  Py.endswith (Py.lower email) "@mit.edu".

(** The test [clean_affiliation] applies to an address. *)
Definition ends_with_mit_edu (email : string) : bool :=
  Py.endswith (Py.lower email) "mit.edu".

Definition is_student_affiliation (affiliation : Value) : Prop :=
  affiliation = VStr MIT_UNDERGRAD_CODE \/ affiliation = VStr MIT_GRAD_STUDENT_CODE.

(** The rule for student affiliations with "an @mit.edu address" read
    as an address at mit.edu itself. *)
Definition lacks_at_mit_edu_rule (self : ParticipantForm) (affiliation : Value) : Prop :=
  clean_affiliation self = Raise lacks_mit_email <->
  is_student_affiliation affiliation
  /\ forall email, email ∈ verified_emails self -> is_at_mit_edu email = false.

(** No program is selected: the entry is missing, [None] or empty. *)
Definition no_program_selected (cd : gmap string Value) : Prop :=
  cd !! "program" = None \/ cd !! "program" = Some VNone
  \/ cd !! "program" = Some (VStr "").

(** The submitted terrain level: the string in the cleaned data, or
    the empty string when the entry is missing. *)
Definition submitted_level (cd : gmap string Value) (level : string) : Prop :=
  cd !! "winter_terrain_level" = Some (VStr level)
  \/ (cd !! "winter_terrain_level" = None /\ level = "").

(** [trip.signup_set.filter(on_trip=True).count()] *)
Definition accepted_signups (trip : Trip.t) : Z :=
  Z.of_nat (length (filter (fun s => SignUp.on_trip s = true) (Trip.signup_set trip))).

(** The [required] flag of a named field, if the form has it. *)
Definition required_flag {I} (name : string) (self : Form I) : option bool :=
  required <$> get_field name (fields self).

(** "Required if and only if the submitted program is a winter-rules
    program", with nothing said of a submission without a program. *)
Definition level_required_only_for_winter (data : gmap string string) (self : TripForm)
  : Prop :=
  required_flag "winter_terrain_level" self = Some true <->
  exists program p, data !! "program" = Some program
                    /\ Program_of_value program = Some p
                    /\ winter_rules_apply p = true.

(** The leaders that [clean] checks. *)
Definition checked_leaders (trip : Trip.t) (selected : list Participant.t)
  : list Participant.t :=
  if pk_truthy (Trip.pk trip) then exclude_pks (Trip.leaders trip) selected
  else selected.




(** How one [(code, label)] pair of the affiliation table shows up
    among the choices. *)
Definition annotated (code label : string) : string :=
  label +:+ " ($" +:+ pretty (affiliation_to_annual_dues code) +:+ ")".

Definition choice_value (value_is_amount : bool) (code : string) : Value :=
  if value_is_amount then VInt (affiliation_to_annual_dues code) else VStr code.

Inductive renders (value_is_amount : bool) : string * AffiliationOption -> Choice -> Prop :=
| renders_group label options :
    renders value_is_amount (label, OptionList options)
      (Group label
         (map (fun cl => (choice_value value_is_amount cl.1, annotated cl.1 cl.2))
            options))
| renders_single code label :
    renders value_is_amount (code, OptionStr label)
      (Single (choice_value value_is_amount code) (annotated code label)).

(** A choice without its values: the grouping and the labels. *)
Definition choice_labels (c : Choice) : string + string * list string :=
  match c with
  | Single _ l => inl l
  | Group g options => inr (g, map snd options)
  end.

(** An update of a field after which its initial value can still be
    rendered. *)
Definition keeps_bindable (g : Field -> Field) : Prop :=
  forall f, bindable (initial (g f)) = true \/ initial (g f) = initial f.

(** What holds of a TripForm all along its construction: the fields
    are those of [Meta], and the initial value of [program] can be
    rendered. *)
Definition TripForm_invariant (self : TripForm) : Prop :=
  field_names (fields self) = meta_fields TripForm_Meta
  /\ forall f, get_field "program" (fields self) = Some f ->
               bindable (initial f) = true.

(** Every value listed in [Program.choices()] is the value of a
    program. *)
Definition Program_choices_valid : Prop :=
  Forall (fun category =>
            Forall (fun choice => is_Some (Program_of_value choice.1)) category.2)
    Program_choices.

(** The widget class and the initial value of a named field. *)
Definition widget_and_initial {I} (name : string) (self : Form I)
  : option (string * Value) :=
  (fun f => (widget_class (widget f), initial f)) <$> get_field name (fields self).

Definition DuesForm_field_names : list string :=
  ["merchant_id"; "description"; "merchantDefinedData1"; "merchantDefinedData2";
   "merchantDefinedData3"; "merchantDefinedData4"; "amount"].

(** What holds of a DuesForm all along its construction: the fields
    are the declared ones, the three hidden fields are as declared,
    and the fields bound to the page hold values that can be
    rendered. *)
Definition DuesForm_invariant (self : DuesForm) : Prop :=
  field_names (fields self) = DuesForm_field_names
  /\ (forall k, k ∈ ["merchant_id"; "description"; "merchantDefinedData1"] ->
                get_field k (fields self) = get_field k DuesForm_declared_fields)
  /\ (forall k f, k ∈ ["merchantDefinedData2"; "merchantDefinedData3"; "amount"] ->
                  get_field k (fields self) = Some f ->
                  bindable (initial f) = true).

(** *** What [_bind_input] writes *)

(** The JavaScript expression for an initial value, where there is
    one. *)
Definition js_expr (v : Value) : option string :=
  match v with
  | VBool b => Some (if b then "true" else "false")
  | VStr s => Some ("'" +:+ s +:+ "'")
  | VInt z => Some ("'" +:+ pretty z +:+ "'")
  | _ => None
  end.

(** The name the field is bound under. *)
Definition bound_model_name (field_name : string) (model_name : option string) : string :=
  match model_name with
  | Some m => if Py.nonempty m then m else field_name
  | None => field_name
  end.

(** The widget attributes of a field once it is bound with the value
    [v]. *)
Definition bound_attrs (name : string) (v : Value) (a : gmap string Value)
  : gmap string Value :=
  let a := <["data-ng-model" := VStr name]> a in
  if truthy v then
    match js_expr v with
    | Some js => <["data-ng-init" := VStr (name +:+ " = " +:+ js)]> a
    | None => a
    end
  else a.

(** Two forms that differ at most in the widget attributes of one
    field. *)
Definition same_but_attrs_of {I} (name : string) (form form' : Form I) : Prop :=
  data form' = data form
  /\ instance form' = instance form
  /\ form_initial form' = form_initial form
  /\ cleaned_data form' = cleaned_data form
  /\ errors form' = errors form
  /\ field_names (fields form') = field_names (fields form)
  /\ (forall k, k <> name -> get_field k (fields form') = get_field k (fields form))
  /\ (forall f, get_field name (fields form) = Some f ->
                exists a, get_field name (fields form') = Some (set_attrs a f)).

(** The widget attributes of a named field. *)
Definition attrs_of {I} (name : string) (self : Form I) : option (gmap string Value) :=
  (fun f => attrs (widget f)) <$> get_field name (fields self).

(** Strings of whitespace only, and strings that begin or end with a
    whitespace character. *)
Definition all_space (s : string) : Prop :=
  forall c, In c (list_ascii_of_string s) -> Py.isspace c = true.

Definition starts_with_space (s : string) : bool :=
  match s with
  | EmptyString => false
  | String c _ => Py.isspace c
  end.

Fixpoint ends_with_space (s : string) : bool :=
  match s with
  | EmptyString => false
  | String c EmptyString => Py.isspace c
  | String _ rest => ends_with_space rest
  end.

(** The widget [Meta.widgets] of the factory gives a model field. *)
Definition textarea_for (fs : list ModelField) : list (string * Widget) :=
  flat_map (fun field =>
              if is_TextField field
              then [(mf_name field, make_widget "Textarea" [("rows", VInt 4)])]
              else [])
    fs.

(** [name in Meta.widgets]: the name is that of a TextField among
    [model._meta.fields]. *)
Definition has_textarea (model : Model) (name : string) : bool :=
  bool_decide
    (name ∈ map mf_name (filter (fun f => is_TextField f = true) (_meta_fields model))).

(** A candidate that the model form turns into a form field. *)
Definition derives_field (exclude : list string) (f : ModelField) : Prop :=
  editable f = true /\ (mf_name f ∉ exclude) /\ is_Some (mf_formfield f).

(** The instance the form works on: the given participant, with a
    one-letter affiliation blanked, or a new participant. *)
Definition ParticipantForm_instance (inst : option Participant.t) : Participant.t :=
  match inst with
  | Some par =>
      if (String.length (Participant.affiliation par) =? 1)%nat
      then blank_affiliation par else par
  | None => Participant_new
  end.

End Vocabulary.

(** ** A small environment to run the definitions on *)

Module Sample.

Inductive program := Climbing | Hiking | WinterSchool | WinterNonIap.
Inductive activity := ClimbingActivity | HikingActivity.

#[global] Instance program_eq_dec : EqDecision program.
Proof. solve_decision. Defined.

#[global] Instance enums : Enums := {|
  Program := program;
  Program_of_value v :=
    if decide (v = "climbing") then Some Climbing
    else if decide (v = "hiking") then Some Hiking
    else if decide (v = "winter_school") then Some WinterSchool
    else if decide (v = "winter_non_iap") then Some WinterNonIap
    else None;
  Program_value p :=
    match p with
    | Climbing => "climbing" | Hiking => "hiking"
    | WinterSchool => "winter_school" | WinterNonIap => "winter_non_iap"
    end;
  Program_label p :=
    match p with
    | Climbing => "Climbing" | Hiking => "Hiking"
    | WinterSchool => "Winter School" | WinterNonIap => "Winter (outside IAP)"
    end;
  Program_choices :=
    [("Specific rating required", [("climbing", "Climbing"); ("hiking", "Hiking")]);
     ("Winter", [("winter_school", "Winter School");
                 ("winter_non_iap", "Winter (outside IAP)")])];
  winter_rules_apply p :=
    match p with WinterSchool | WinterNonIap => true | _ => false end;
  WINTER_SCHOOL := WinterSchool;
  Activity := activity;
|}.

#[global] Instance codes : Affiliations :=
  {| MIT_UNDERGRAD_CODE := "MU"; MIT_GRAD_STUDENT_CODE := "MG" |}.

Definition text_field (name : string) : Field :=
  {| field_class := "CharField"; required := true; label := Some name;
     initial := VNone; help_text := Some ""; choices := [];
     queryset := Default_queryset; widget := make_widget "TextInput" [] |}.

(** The applications have an automatic primary key, which is editable
    but has no form field, and the mentor activities as a
    many-to-many field. *)
Definition model_field (name : string) (text : bool) (counter : Z) : ModelField :=
  {| mf_name := name; is_TextField := text; editable := true;
     creation_counter := counter; mf_formfield := Some (text_field name) |}.

Definition application_fields (a : activity) : list ModelField :=
  [{| mf_name := "id"; is_TextField := false; editable := true;
      creation_counter := 0; mf_formfield := None |};
   model_field "participant" false 1;
   model_field "year" false 2;
   model_field "previous_rating" false 3;
   model_field "archived" false 4;
   model_field "desired_rating" false 5;
   model_field "mentee_activities" true 7;
   match a with
   | ClimbingActivity => model_field "outdoor_sport_leading_grade" false 8
   | HikingActivity => model_field "formal_training" true 8
   end].

Definition application_model (a : activity) : Model :=
  {| model_name :=
       match a with
       | ClimbingActivity => "ClimbingLeaderApplication"
       | HikingActivity => "HikingLeaderApplication"
       end;
     _meta_fields := application_fields a;
     _meta_concrete_fields := application_fields a;
     _meta_private_fields := [];
     _meta_many_to_many := [model_field "mentor_activities" false 6] |}.

Definition tim : Participant.t :=
  {| Participant.pk := 1; Participant.name := "Tim Beaver";
     Participant.email := "tim@mit.edu"; Participant.affiliation := "MU";
     Participant.annual_dues := 15 |}.

Definition ada : Participant.t :=
  {| Participant.pk := 2; Participant.name := "Ada Byron";
     Participant.email := "ada@example.com"; Participant.affiliation := "NA";
     Participant.annual_dues := 40 |}.

Definition bob : Participant.t :=
  {| Participant.pk := 3; Participant.name := "Bob Hill";
     Participant.email := "bob@example.com"; Participant.affiliation := "NA";
     Participant.annual_dues := 40 |}.

(** Tim leads everything; Ada leads hikes; Bob leads nothing. *)
#[global] Instance models : Models := {|
  can_lead par p :=
    if decide (Participant.pk par = 1) then true
    else if decide (Participant.pk par = 2)
         then match p with Hiking => true | _ => false end
         else false;
  AFFILIATION_CHOICES :=
    [("Undergraduate student",
      OptionList [("MU", "MIT undergrad"); ("NU", "Non-MIT undergrad")]);
     ("MA", OptionStr "MIT affiliate");
     ("NA", OptionStr "Non-affiliate")];
  affiliation_to_annual_dues code :=
    if decide (code = "MU") then 15
    else if decide (code = "MA") then 30
    else 40;
  model_from_activity := application_model;
  accepting_applications a :=
    match a with ClimbingActivity => true | HikingActivity => false end;
  Participant_new :=
    {| Participant.pk := 0; Participant.name := ""; Participant.email := "";
       Participant.affiliation := ""; Participant.annual_dues := 0 |};
  Participant_formfield := text_field;
  Trip_formfield := text_field;
  SignUp_formfield := text_field;
|}.

#[global] Instance membership : Membership :=
  {| MERCHANT_ID := VStr "merchant"; PAYMENT_TYPE := VStr "membership" |}.

#[global] Instance widgets : Widgets := {|
  PhoneInput := make_widget "PhoneInput" [];
  LeaderSelect := make_widget "LeaderSelect" [];
  ParticipantSelect := make_widget "ParticipantSelect" [];
  DateTimeLocalInput := make_widget "DateTimeLocalInput" [];
  MarkdownTextarea example := make_widget "MarkdownTextarea" [("example", VStr example)];
|}.

Definition noon : Clock :=
  {| today_iso := "2024-01-10"; naive_iso_now := "2024-01-10T12:00";
     is_currently_iap := true |}.

Definition new_trip : Trip.t :=
  {| Trip.pk := None; Trip.notes := ""; Trip.program_enum := Hiking;
     Trip.algorithm := "lottery"; Trip.wimp := None; Trip.leaders := [];
     Trip.signup_set := [] |}.

(** A saved hiking trip led by Bob, with two of three signups accepted. *)
Definition saved_trip : Trip.t :=
  {| Trip.pk := Some 7; Trip.notes := "Bring snacks"; Trip.program_enum := Hiking;
     Trip.algorithm := "fcfs"; Trip.wimp := Some tim; Trip.leaders := [bob];
     Trip.signup_set :=
       [{| SignUp.participant := tim; SignUp.on_trip := true |};
        {| SignUp.participant := ada; SignUp.on_trip := true |};
        {| SignUp.participant := bob; SignUp.on_trip := false |}] |}.


Definition user_with (emails : list string) : User.t :=
  {| User.emailaddress_set :=
       map (fun e => {| EmailAddress.email := e; EmailAddress.verified := true |})
         emails |}.

Definition hiking_and_winter_school : list (@Program enums) := [Hiking; WinterSchool].

(** A TripForm over [trip] whose fields were cleaned into [cd]. *)
Definition trip_form (trip : Trip.t) (cd : gmap string Value) : TripForm :=
  with_cleaned_data cd (ModelForm_init Trip_formfield TripForm_Meta ∅ ∅ trip).

(** A SignUpForm whose fields were cleaned into [cd]. *)
Definition signup_form (cd : gmap string Value) : SignUpForm :=
  with_cleaned_data cd
    (ModelForm_init SignUp_formfield SignUpForm_Meta ∅ ∅
       {| SignUp.participant := ada; SignUp.on_trip := false |}).

#[global] Instance rating_models : RatingModels :=
  {| LotteryInfo_formfield := text_field; LeaderRating_formfield := text_field |}.

(** A driver with room for three passengers. *)
Definition lottery_info : LotteryInfo.t :=
  {| LotteryInfo.car_status := "own"; LotteryInfo.number_of_passengers := Some 3;
     LotteryInfo.paired_with := None |}.

(** A ParticipantForm with the given verified addresses whose fields
    were cleaned into [cd]. *)
Definition participant_form_with (emails : list string) (cd : gmap string Value)
  : ParticipantForm :=
  {| participant_form :=
       with_cleaned_data cd
         (ModelForm_init Participant_formfield ParticipantForm_Meta ∅ ∅ tim);
     verified_emails := emails |}.

Definition climbing_activity : @Activity enums := ClimbingActivity.

End Sample.

(** * Properties *)

(** ** Strings *)

Lemma endswith_refl (s : string) : Py.endswith s s = true.
Proof. destruct s; simpl; try case_decide; congruence. Qed.

(** [endswith] holds exactly when the suffix closes the string. *)
Lemma endswith_iff (s suffix : string) :
  Py.endswith s suffix = true <-> exists p, s = p +:+ suffix.
Proof.
  split.
  - induction s as [|c s IH]; simpl; case_decide; subst; intros Hs.
    + by exists "".
    + discriminate.
    + by exists "".
    + destruct (IH Hs) as [p ->]. by exists (String c p).
  - intros [p ->]. induction p as [|c p IH]; simpl.
    + apply endswith_refl.
    + case_decide; [done | exact IH].
Qed.

Lemma lstrip_empty_iff (s : string) :
  Py.lstrip s = "" <-> forall c, In c (list_ascii_of_string s) -> Py.isspace c = true.
Proof.
  induction s as [|c s IH]; simpl.
  - split; [intros _ ? [] | done].
  - destruct (Py.isspace c) eqn:Hc.
    + rewrite IH. split.
      * intros Hs c' [<- | Hin]; auto.
      * intros Hs c' Hin. apply Hs. by right.
    + split; [discriminate |].
      intros Hs. rewrite Hs in Hc; [discriminate | by left].
Qed.

Lemma rstrip_empty_iff (s : string) :
  Py.rstrip s = "" <-> forall c, In c (list_ascii_of_string s) -> Py.isspace c = true.
Proof.
  induction s as [|c s IH]; simpl.
  - split; [intros _ ? [] | done].
  - destruct (Py.rstrip s) as [|k kept] eqn:Hr.
    + destruct (Py.isspace c) eqn:Hc.
      * split; [| done]. intros _ c' [<- | Hin]; [done |].
        by apply IH.
      * split; [discriminate |].
        intros Hs. rewrite Hs in Hc; [discriminate | by left].
    + split; [discriminate |].
      intros Hs. assert (String k kept = "") as Habs; [| discriminate].
      apply IH. intros c' Hin. apply Hs. by right.
Qed.

Lemma lstrip_suffix (s : string) :
  forall c, In c (list_ascii_of_string (Py.lstrip s)) -> In c (list_ascii_of_string s).
Proof.
  induction s as [|a s IH]; simpl; [done |].
  destruct (Py.isspace a); simpl; auto.
Qed.

(** Stripping leaves nothing exactly when the string is all whitespace. *)
Lemma strip_empty_iff (s : string) :
  Py.strip s = "" <-> forall c, In c (list_ascii_of_string s) -> Py.isspace c = true.
Proof.
  unfold Py.strip. rewrite rstrip_empty_iff. split.
  - intros Hs. apply lstrip_empty_iff.
    destruct (Py.lstrip s) as [|c rest] eqn:Hl; [done |].
    assert (Py.isspace c = true) as Hc by (apply Hs; by left).
    clear Hs. exfalso. revert Hl Hc.
    induction s as [|a s IH]; simpl; [discriminate |].
    destruct (Py.isspace a) eqn:Ha; [exact IH |].
    intros [= -> _]. congruence.
  - intros Hs c Hin. apply Hs. by apply lstrip_suffix.
Qed.

(** ** Results *)

Lemma bind_Return_inv {A B} (r : Result A) (k : A -> Result B) (b : B) :
  (r ≫= k) = Return b -> exists a, r = Return a /\ k a = Return b.
Proof. destruct r as [a|e]; [by exists a | discriminate]. Qed.

Lemma bind_Return {A B} (r : Result A) (k : A -> Result B) (a : A) :
  r = Return a -> (r ≫= k) = k a.
Proof. by intros ->. Qed.

Lemma bind_chain {A B} (r : Result A) (k : A -> Result B)
    (P : A -> Prop) (Q : B -> Prop) :
  (exists a, r = Return a /\ P a) ->
  (forall a, P a -> exists b, k a = Return b /\ Q b) ->
  exists b, (r ≫= k) = Return b /\ Q b.
Proof. intros (a & -> & Ha) Hk. exact (Hk a Ha). Qed.

Ltac bind_inv H :=
  let x := fresh "step" in
  let Hx := fresh "H" x in
  apply bind_Return_inv in H as (x & Hx & H).

(** ** Field collections *)

Section FieldLemmas.
Context `{Enums}.

Lemma get_field_Some_names (name : string) (fs : Fields) (f : Field) :
  get_field name fs = Some f -> name ∈ field_names fs.
Proof.
  induction fs as [|[n f'] fs IH]; simpl; [done |].
  case_decide; subst.
  - intros _. apply list_elem_of_here.
  - intros Hf. apply list_elem_of_further. by apply IH.
Qed.

Lemma names_get_field (name : string) (fs : Fields) :
  name ∈ field_names fs -> is_Some (get_field name fs).
Proof.
  induction fs as [|[n f'] fs IH]; simpl.
  - intros Hin. by apply elem_of_nil in Hin.
  - intros Hin. case_decide; [by eexists |].
    apply elem_of_cons in Hin as [-> | Hin]; [done | by apply IH].
Qed.

Lemma field_names_alter (name : string) (g : Field -> Field) (fs : Fields) :
  field_names (alter_field name g fs) = field_names fs.
Proof.
  induction fs as [|[n f] fs IH]; simpl; [done |].
  case_decide; simpl; [done | by rewrite IH].
Qed.

Lemma get_field_alter (name k : string) (g : Field -> Field) (fs : Fields) :
  get_field k (alter_field name g fs)
  = if decide (name = k) then g <$> get_field k fs else get_field k fs.
Proof.
  induction fs as [|[n f] fs IH]; simpl.
  - by case_decide.
  - destruct (decide (n = name)) as [-> | Hn]; simpl.
    + destruct (decide (name = k)); [done | done].
    + destruct (decide (n = k)) as [-> | Hk]; [| exact IH].
      by rewrite decide_False.
Qed.

Lemma get_field_alter_ne (name k : string) (g : Field -> Field) (fs : Fields) :
  name <> k -> get_field k (alter_field name g fs) = get_field k fs.
Proof. intros Hne. rewrite get_field_alter. by rewrite decide_False. Qed.

Lemma alter_field_compose (name : string) (g1 g2 : Field -> Field) (fs : Fields) :
  alter_field name g2 (alter_field name g1 fs) = alter_field name (g2 ∘ g1) fs.
Proof.
  induction fs as [|[n f] fs IH]; simpl; [done |].
  destruct (decide (n = name)) as [-> | Hn]; simpl.
  - by rewrite decide_True.
  - rewrite decide_False; [| done]. by rewrite IH.
Qed.

(** *** Assignments to one field *)

Lemma fields_with_fields {I} (fs : Fields) (form : Form I) :
  fields (with_fields fs form) = fs.
Proof. reflexivity. Qed.

Lemma on_field_inv {I} (name : string) (g : Field -> Field) (form form' : Form I) :
  on_field name g form = Return form' ->
  form' = with_fields (alter_field name g (fields form)) form.
Proof. unfold on_field. destruct (get_field _ _); congruence. Qed.

Lemma on_field_inv_Some {I} (name : string) (g : Field -> Field) (form form' : Form I) :
  on_field name g form = Return form' -> is_Some (get_field name (fields form)).
Proof. unfold on_field. destruct (get_field _ _); [by eexists | discriminate]. Qed.

Lemma on_field_returns {I} (name : string) (g : Field -> Field) (form : Form I) :
  name ∈ field_names (fields form) ->
  on_field name g form = Return (with_fields (alter_field name g (fields form)) form).
Proof.
  intros Hin. unfold on_field.
  by destruct (names_get_field _ _ Hin) as [f ->].
Qed.

Lemma attrs_only_set_attr k v : attrs_only (set_attr k v).
Proof. intros f. by eexists. Qed.

Lemma attrs_only_compose g1 g2 :
  attrs_only g1 -> attrs_only g2 -> attrs_only (g2 ∘ g1).
Proof.
  intros H1 H2 f. destruct (H1 f) as [a1 E1]. destruct (H2 (g1 f)) as [a2 E2].
  exists a2. simpl. rewrite E2, E1. reflexivity.
Qed.

Lemma attrs_only_id : attrs_only id.
Proof. intros f. exists (attrs (widget f)). by destruct f as [? ? ? ? ? ? ? []]. Qed.

Lemma _bind_input_inv {I} (form form' : Form I) field_name initial_arg model_name :
  _bind_input form field_name initial_arg model_name = Return form' ->
  exists g, attrs_only g
            /\ form' = with_fields (alter_field field_name g (fields form)) form.
Proof.
  unfold _bind_input.
  destruct (get_field field_name (fields form)) as [field|] eqn:Hf; [| discriminate].
  intros Hb. bind_inv Hb. apply on_field_inv in Hstep. subst step.
  set (g1 := set_attr "data-ng-model" _) in *.
  destruct (truthy _).
  - bind_inv Hb. apply on_field_inv in Hb. subst form'. simpl.
    rewrite alter_field_compose.
    eexists. split; [| reflexivity].
    apply attrs_only_compose; apply attrs_only_set_attr.
  - inversion Hb; subst. exists g1. split; [apply attrs_only_set_attr | done].
Qed.

Lemma on_field_is_Return {I} (name : string) (g : Field -> Field) (form : Form I) :
  name ∈ field_names (fields form) -> exists form', on_field name g form = Return form'.
Proof. intros Hin. rewrite (on_field_returns _ _ _ Hin). by eexists. Qed.

Lemma data_ng_init_returns {I} (form : Form I) field_name model_name (v : Value) :
  field_name ∈ field_names (fields form) ->
  bindable v = true ->
  exists form',
    (if truthy v then
       js_expr ← match v with
                 | VBool b => Return (if b then "true" else "false")
                 | VStr _ | VInt _ =>
                     Return ("'" +:+ default "" (format_value v) +:+ "'")
                 | _ => Raise (TypeError "Unexpected initial value")
                 end;
       on_field field_name
         (set_attr "data-ng-init" (VStr (model_name +:+ " = " +:+ js_expr))) form
     else Return form) = Return form'.
Proof.
  intros Hin Hb. destruct (truthy v) eqn:Ht; [| by eexists].
  destruct v as [| b | z | s | t | [|par q]]; try discriminate; simpl.
  all: by apply on_field_is_Return.
Qed.

Lemma _bind_input_returns {I} (form : Form I) field_name initial_arg model_name field :
  get_field field_name (fields form) = Some field ->
  bindable (bound_initial form field_name initial_arg field) = true ->
  exists form', _bind_input form field_name initial_arg model_name = Return form'.
Proof.
  intros Hf Hb. unfold _bind_input. rewrite Hf.
  assert (field_name ∈ field_names (fields form)) as Hin
      by (by eapply get_field_Some_names).
  rewrite (on_field_returns _ _ _ Hin).
  set (form1 := with_fields _ form).
  assert (field_name ∈ field_names (fields form1)) as Hin1.
  { unfold form1. simpl. by rewrite field_names_alter. }
  exact (data_ng_init_returns form1 field_name _ _ Hin1 Hb).
Qed.

Lemma keeps_bindable_attrs_only g : attrs_only g -> keeps_bindable g.
Proof. intros Hg f. right. destruct (Hg f) as [a ->]. done. Qed.

Lemma keeps_bindable_set_initial v : bindable v = true -> keeps_bindable (set_initial v).
Proof. intros Hv f. by left. Qed.

End FieldLemmas.

Ltac in_list :=
  repeat first [apply list_elem_of_here | apply list_elem_of_further].

(** ** ParticipantForm *)

Section ParticipantFormProperties.
Context `{Enums} `{!Affiliations} `{!Models} `{!Membership} `{!Widgets}.

Lemma ModelForm_init_names {I} formfield meta data initial (inst : I) :
  field_names (fields (ModelForm_init formfield meta data initial inst))
  = meta_fields meta.
Proof.
  unfold field_names, ModelForm_init. simpl.
  rewrite map_map. simpl. apply map_id.
Qed.

(** The constructor always succeeds, and keeps the addresses of the
    user that are verified. *)
Lemma ParticipantForm_init_returns user inst post kw :
  exists self,
    ParticipantForm_init user inst post kw = Return self
    /\ verified_emails self
       = map EmailAddress.email
           (filter (fun e => EmailAddress.verified e = true)
              (User.emailaddress_set user)).
Proof.
  unfold ParticipantForm_init.
  set (form0 := ModelForm_init _ _ _ _ _).
  assert (field_names (fields form0) = meta_fields ParticipantForm_Meta) as Hnames
      by apply ModelForm_init_names.
  rewrite on_field_returns by (rewrite Hnames; simpl; in_list).
  set (form1 := with_fields _ form0).
  assert ("affiliation" ∈ field_names (fields form1)) as Hin.
  { unfold form1. rewrite fields_with_fields, field_names_alter, Hnames.
    simpl. in_list. }
  destruct (names_get_field _ _ Hin) as [field Hfield].
  destruct (_bind_input_returns form1 "affiliation"
              (VStr (Participant.affiliation (instance form1))) None field Hfield)
    as [form2 Hform2].
  { unfold bound_initial. by destruct (data form1 !! "affiliation"). }
  unfold mbind, Result_bind. cbn beta iota. rewrite Hform2.
  eexists. split; reflexivity.
Qed.

Lemma ParticipantForm_init_emails user inst post kw self :
  ParticipantForm_init user inst post kw = Return self ->
  verified_emails self
  = map EmailAddress.email
      (filter (fun e => EmailAddress.verified e = true) (User.emailaddress_set user)).
Proof.
  intros Hinit.
  destruct (ParticipantForm_init_returns user inst post kw) as (self' & H' & He).
  congruence.
Qed.

Lemma is_mit_student_code_iff (affiliation : Value) :
  is_mit_student_code affiliation = true <-> is_student_affiliation affiliation.
Proof.
  unfold is_student_affiliation, is_mit_student_code, mit_student_codes.
  destruct affiliation; try (split; [discriminate | intros [|]; discriminate]).
  rewrite bool_decide_eq_true. rewrite !elem_of_cons, elem_of_nil.
  split; [intros [-> | [-> | []]] | intros [[= ->] | [= ->]]]; auto.
Qed.

(** What [clean_affiliation] does, on any form. *)
Lemma clean_affiliation_cases (self : ParticipantForm) (affiliation : Value) :
  cleaned_data (participant_form self) !! "affiliation" = Some affiliation ->
  clean_affiliation self
  = if is_mit_student_code affiliation
       && negb (existsb ends_with_mit_edu (verified_emails self))
    then Raise lacks_mit_email
    else Return affiliation.
Proof.
  intros Hcd. unfold clean_affiliation, cleaned. rewrite Hcd. simpl.
  destruct (is_mit_student_code affiliation); simpl; [| done].
  by destruct (existsb _ _).
Qed.

Lemma existsb_false_iff {A} (p : A -> bool) (l : list A) :
  existsb p l = false <-> forall x, x ∈ l -> p x = false.
Proof.
  induction l as [|a l IH]; simpl.
  - split; [intros _ x Hx; by apply elem_of_nil in Hx | done].
  - rewrite orb_false_iff, IH. split.
    + intros [Ha Hl] x Hx. apply elem_of_cons in Hx as [-> | Hx]; auto.
    + intros Hall. split; [apply Hall; left | intros x Hx; apply Hall; by right].
Qed.

(** C1 (as amended).  For every constructed and submitted
    ParticipantForm, [clean_affiliation] raises the [lacks_mit_email]
    ValidationError exactly when the cleaned affiliation is
    MIT_UNDERGRAD or MIT_GRAD_STUDENT and no verified address of the
    user ends, in lower case, with "mit.edu"; in every other case it
    returns the affiliation unchanged, and for an affiliation outside
    the two codes it does so whatever the list of addresses is. *)
Theorem clean_affiliation_requires_mit_suffix
    user inst post kw (cd : gmap string Value) (affiliation : Value) :
  cd !! "affiliation" = Some affiliation ->
  exists self,
    ParticipantForm_init user inst post kw = Return self
    /\ let submitted := ParticipantForm_cleaned cd self in
       (clean_affiliation submitted = Raise lacks_mit_email <->
        is_student_affiliation affiliation
        /\ forall e, e ∈ User.emailaddress_set user ->
                     EmailAddress.verified e = true ->
                     ends_with_mit_edu (EmailAddress.email e) = false)
       /\ (clean_affiliation submitted <> Raise lacks_mit_email ->
           clean_affiliation submitted = Return affiliation)
       /\ (~ is_student_affiliation affiliation ->
           forall emails,
             clean_affiliation
               {| participant_form := participant_form submitted;
                  verified_emails := emails |}
             = Return affiliation).
Proof.
  intros Hcd.
  destruct (ParticipantForm_init_returns user inst post kw) as (self & Hinit & He).
  exists self. split; [exact Hinit |]. simpl.
  rewrite (clean_affiliation_cases _ affiliation) by exact Hcd.
  simpl. rewrite He. split; [| split].
  - destruct (is_mit_student_code affiliation) eqn:Hcode; simpl.
    + apply is_mit_student_code_iff in Hcode.
      destruct (existsb _ _) eqn:Hex; simpl.
      * split; [discriminate |]. intros [_ Hall]. exfalso.
        apply existsb_exists in Hex as (email & Hin & Hends).
        apply in_map_iff in Hin as (e & <- & Hin).
        apply list_elem_of_In, list_elem_of_filter in Hin as [Hv Hin].
        rewrite (Hall e Hin Hv) in Hends. discriminate.
      * split; [| done]. intros _. split; [done |].
        intros e Hin Hv. rewrite existsb_false_iff in Hex. apply Hex.
        apply list_elem_of_fmap. exists e. split; [done |].
        by apply list_elem_of_filter.
    + split; [discriminate |]. intros [Hst _].
      apply is_mit_student_code_iff in Hst. congruence.
  - destruct (_ && _); [intros Hne; exfalso; by apply Hne | done].
  - intros Hnot emails.
    rewrite (clean_affiliation_cases _ affiliation) by exact Hcd.
    destruct (is_mit_student_code affiliation) eqn:Hcode; [| done].
    exfalso. by apply Hnot, is_mit_student_code_iff.
Qed.

End ParticipantFormProperties.

(** ** TripForm: the field validators *)

Section TripFormValidators.
Context `{Enums} `{!Affiliations} `{!Models} `{!Membership} `{!Widgets}.

(** C8.  When the cleaned program is WINTER_SCHOOL,
    [clean_membership_required] returns True whatever was submitted
    for [membership_required]; for every other program (or none) it
    returns the submitted [membership_required] unchanged. *)
Theorem clean_membership_required_winter_school (self : TripForm) :
  (cleaned_data self !! "program" = Some (VStr (Program_value WINTER_SCHOOL)) ->
   clean_membership_required self = Return (VBool true))
  /\ (forall submitted,
        cleaned_data self !! "program" <> Some (VStr (Program_value WINTER_SCHOOL)) ->
        cleaned_data self !! "membership_required" = Some submitted ->
        clean_membership_required self = Return submitted).
Proof.
  unfold clean_membership_required, cleaned. split.
  - intros ->. simpl. by rewrite bool_decide_true.
  - intros submitted Hne ->.
    destruct (cleaned_data self !! "program") as [[| | | s | |]|]; simpl; try done.
    case_bool_decide; [subst; done | done].
Qed.

Lemma accepted_signups_nonneg (trip : Trip.t) : 0 <= accepted_signups trip.
Proof. unfold accepted_signups. lia. Qed.

(** C2.  On a form bound to a saved trip, submitting an integer
    maximum raises the "Can't shrink trip ..." ValidationError exactly
    when more signups are on the trip than the new maximum allows;
    a maximum equal to (or above) the accepted count is returned; and
    for a trip that is not yet saved whatever was submitted is
    returned unchanged. *)
Theorem clean_maximum_participants_shrink (self : TripForm) (submitted : Value) :
  cleaned_data self !! "maximum_participants" = Some submitted ->
  (Trip.pk (instance self) = None ->
   clean_maximum_participants self = Return submitted)
  /\ (forall new_max,
        submitted = VInt new_max ->
        is_Some (Trip.pk (instance self)) ->
        (clean_maximum_participants self = Raise cannot_shrink
         <-> new_max < accepted_signups (instance self))
        /\ (accepted_signups (instance self) <= new_max ->
            clean_maximum_participants self = Return (VInt new_max))
        /\ (forall e, clean_maximum_participants self = Raise e -> e = cannot_shrink))
  /\ (exists rest,
        cannot_shrink
        = ValidationError
            ("Can't shrink trip past number of signed-up participants." +:+ rest)
            None).
Proof.
  intros Hcd. unfold clean_maximum_participants, cleaned. rewrite Hcd. simpl.
  split; [| split].
  - by intros ->.
  - intros new_max -> [k ->]. simpl.
    fold (accepted_signups (instance self)).
    destruct (new_max <? accepted_signups (instance self)) eqn:Hlt.
    + apply Z.ltb_lt in Hlt. repeat split; try done; try lia. congruence.
    + apply Z.ltb_ge in Hlt. repeat split; try done; try lia.
  - by eexists.
Qed.

Lemma Program_call_str (program : string) (p : Program) :
  Program_of_value program = Some p -> Program_call (VStr program) = Return p.
Proof. unfold Program_call. by intros ->. Qed.

(** C4.  [clean_winter_terrain_level] returns None when a program is
    selected whose winter rules do not apply; when the selected
    program is under winter rules, or no program is selected, it
    returns the submitted terrain level string unchanged, the empty
    string standing in for a missing entry. *)
Theorem clean_winter_terrain_level_strips (self : TripForm) :
  (forall program p,
     cleaned_data self !! "program" = Some (VStr program) ->
     program <> "" ->
     Program_of_value program = Some p ->
     winter_rules_apply p = false ->
     clean_winter_terrain_level self = Return VNone)
  /\ (forall level,
        submitted_level (cleaned_data self) level ->
        (exists program p,
           cleaned_data self !! "program" = Some (VStr program)
           /\ Program_of_value program = Some p
           /\ winter_rules_apply p = true)
        \/ no_program_selected (cleaned_data self) ->
        clean_winter_terrain_level self = Return (VStr level)).
Proof.
  unfold clean_winter_terrain_level. split.
  - intros program p -> Hne Hp Hw.
    destruct program; [done |]. cbn -[Program_call].
    rewrite (Program_call_str _ _ Hp). simpl. by rewrite Hw.
  - intros level Hlevel Hprogram.
    assert (default (VStr "") (cleaned_data self !! "winter_terrain_level")
            = VStr level) as ->.
    { destruct Hlevel as [-> | [-> ->]]; done. }
    destruct Hprogram as [(program & p & -> & Hp & Hw) | [-> | [-> | ->]]];
      [| done | done | done].
    destruct program; [done |]. cbn -[Program_call].
    rewrite (Program_call_str _ _ Hp). simpl. by rewrite Hw.
Qed.

End TripFormValidators.

(** ** TripForm.clean *)

Section TripFormClean.
Context `{Enums} `{!Affiliations} `{!Models} `{!Membership} `{!Widgets}.





(** What [clean] does once the program and the leaders are there. *)
Lemma TripForm_clean_checked (self : TripForm) program p selected :
  cleaned_data self !! "program" = Some program ->
  Program_call program = Return p ->
  cleaned_data self !! "leaders" = Some (VLeaders selected) ->
  TripForm_clean self
  = match lacking_privs p (checked_leaders (instance self) selected) with
    | [] => Return self
    | lacking => add_error "leaders" (cant_lead_message p lacking) self
    end.
Proof.
  intros Hprogram Hp Hleaders. unfold TripForm_clean.
  rewrite Hprogram, Hleaders. cbn -[Program_call]. rewrite Hp.
  unfold mbind, Result_bind, checked_leaders.
  by destruct (lacking_privs _ _).
Qed.



(** At the primary key 0 the test [if trip.pk:] takes the saved trip
    for a new one, and the leaders already on it are checked. *)
Lemma checked_leaders_pk_zero (trip : Trip.t) selected :
  Trip.pk trip = Some 0 -> checked_leaders trip selected = selected.
Proof. unfold checked_leaders. by intros ->. Qed.

End TripFormClean.

(** ** TripForm.__init__ *)

Section TripFormInit.
Context `{Enums} `{!Affiliations} `{!Models} `{!Membership} `{!Widgets}.

Lemma on_field_other {I} (name : string) (g : Field -> Field) (form form' : Form I) :
  on_field name g form = Return form' ->
  forall k, name <> k -> get_field k (fields form') = get_field k (fields form).
Proof.
  intros Hon k Hne. apply on_field_inv in Hon. subst form'.
  rewrite fields_with_fields. by apply get_field_alter_ne.
Qed.

Lemma on_field_same {I} (name : string) (g : Field -> Field) (form form' : Form I) :
  on_field name g form = Return form' ->
  exists f, get_field name (fields form) = Some f
            /\ get_field name (fields form') = Some (g f).
Proof.
  intros Hon. destruct (on_field_inv_Some _ _ _ _ Hon) as [f Hf].
  apply on_field_inv in Hon. subst form'. exists f. split; [done |].
  rewrite fields_with_fields, get_field_alter, decide_True by done.
  by rewrite Hf.
Qed.

Lemma on_field_names {I} (name : string) (g : Field -> Field) (form form' : Form I) :
  on_field name g form = Return form' ->
  field_names (fields form') = field_names (fields form).
Proof.
  intros Hon. apply on_field_inv in Hon. subst form'.
  rewrite fields_with_fields. apply field_names_alter.
Qed.

Lemma _bind_input_other {I} (form form' : Form I) name initial_arg model_name :
  _bind_input form name initial_arg model_name = Return form' ->
  forall k, name <> k -> get_field k (fields form') = get_field k (fields form).
Proof.
  intros Hb k Hne. apply _bind_input_inv in Hb as (g & _ & ->).
  rewrite fields_with_fields. by apply get_field_alter_ne.
Qed.

Lemma _bind_input_names {I} (form form' : Form I) name initial_arg model_name :
  _bind_input form name initial_arg model_name = Return form' ->
  field_names (fields form') = field_names (fields form).
Proof.
  intros Hb. apply _bind_input_inv in Hb as (g & _ & ->).
  rewrite fields_with_fields. apply field_names_alter.
Qed.

Lemma _init_wimp_inv (self self' : TripForm) :
  _init_wimp self = Return self' ->
  exists g, self' = with_fields (alter_field "wimp" g (fields self)) self.
Proof.
  unfold _init_wimp. intros Hw. do 2 bind_inv Hw.
  apply on_field_inv in Hstep, Hstep0. subst step step0.
  destruct (Trip.wimp _) as [wimp|].
  - bind_inv Hw. apply on_field_inv in Hstep, Hw. subst step self'. simpl.
    rewrite !alter_field_compose. by eexists.
  - inversion Hw; subst. simpl. rewrite alter_field_compose. by eexists.
Qed.

Lemma _init_wimp_other (self self' : TripForm) :
  _init_wimp self = Return self' ->
  forall k, "wimp" <> k -> get_field k (fields self') = get_field k (fields self).
Proof.
  intros Hw k Hne. apply _init_wimp_inv in Hw as [g ->].
  rewrite fields_with_fields. by apply get_field_alter_ne.
Qed.

Lemma _init_wimp_names (self self' : TripForm) :
  _init_wimp self = Return self' ->
  field_names (fields self') = field_names (fields self).
Proof.
  intros Hw. apply _init_wimp_inv in Hw as [g ->].
  rewrite fields_with_fields. apply field_names_alter.
Qed.

(** The steps of [__init__], one hypothesis each. *)
Ltac init_steps H :=
  repeat match type of H with
         | (_ ≫= _) = Return _ => bind_inv H
         | (let '(_, _) := ?x in _) = Return _ => destruct x
         end.

Ltac forget_other k :=
  repeat match goal with
         | Hs : on_field ?n _ ?f = Return ?f' |- context [get_field k (fields ?f')] =>
             rewrite (on_field_other _ _ _ _ Hs k) by discriminate
         | Hs : _bind_input ?f ?n _ _ = Return ?f' |- context [get_field k (fields ?f')] =>
             rewrite (_bind_input_other _ _ _ _ _ Hs k) by discriminate
         | Hs : _init_wimp ?f = Return ?f' |- context [get_field k (fields ?f')] =>
             rewrite (_init_wimp_other _ _ Hs k) by discriminate
         | Hs : Return ?f = Return ?f' |- _ => injection Hs as <-
         | Hs : Return (?f, _) = Return (?f', _) |- _ => injection Hs as <- <-
         end.

Ltac forget_names :=
  repeat match goal with
         | Hs : on_field ?n _ ?f = Return ?f' |- context [field_names (fields ?f')] =>
             rewrite (on_field_names _ _ _ _ Hs)
         | Hs : _bind_input ?f ?n _ _ = Return ?f' |- context [field_names (fields ?f')] =>
             rewrite (_bind_input_names _ _ _ _ _ Hs)
         | Hs : _init_wimp ?f = Return ?f' |- context [field_names (fields ?f')] =>
             rewrite (_init_wimp_names _ _ Hs)
         | Hs : Return ?f = Return ?f' |- _ => injection Hs as <-
         | Hs : Return (?f, _) = Return (?f', _) |- _ => injection Hs as <- <-
         end.

(** A constructed TripForm has the fields of [Meta], and the
    [required] flag of the terrain level is the one computed from the
    submitted data. *)
Lemma TripForm_init_inv now allowed post kw trip (self : TripForm) :
  TripForm_init now allowed post kw trip = Return self ->
  field_names (fields self) = meta_fields TripForm_Meta
  /\ exists level_required,
       winter_terrain_level_required post = Return level_required
       /\ required_flag "winter_terrain_level" self = Some level_required.
Proof.
  intros Hinit. unfold TripForm_init in Hinit.
  set (self0 := ModelForm_init _ _ _ _ _ : TripForm) in Hinit.
  assert (field_names (fields self0) = meta_fields TripForm_Meta) as Hnames
      by apply ModelForm_init_names.
  clearbody self0.
  bind_inv Hinit. bind_inv Hinit. bind_inv Hinit. bind_inv Hinit.
  bind_inv Hinit. bind_inv Hinit. bind_inv Hinit.
  destruct step5 as [self6 initial_program].
  bind_inv Hinit. bind_inv Hinit. bind_inv Hinit.
  rename Hstep4 into Hlevel, step3 into level_required.
  destruct (on_field_same _ _ _ _ Hlevel) as (f & _ & Hset).
  assert (field_names (fields self6) = field_names (fields step4)
          /\ get_field "winter_terrain_level" (fields self6)
             = get_field "winter_terrain_level" (fields step4)) as [Hn6 Hg6].
  { destruct allowed as [allowed|].
    - init_steps Hstep5. split; [forget_names | forget_other "winter_terrain_level"];
        done.
    - injection Hstep5 as <- _. done. }
  assert (field_names (fields step0) = field_names (fields step)
          /\ get_field "winter_terrain_level" (fields step0)
             = get_field "winter_terrain_level" (fields step)) as [Hn0 Hg0].
  { destruct (Trip.pk trip).
    - injection Hstep0 as <-. done.
    - init_steps Hstep0. split; [forget_names | forget_other "winter_terrain_level"];
        done. }
  split.
  - forget_names. rewrite Hn6. forget_names. rewrite Hn0. forget_names. done.
  - exists level_required. split; [done |].
    unfold required_flag. forget_other "winter_terrain_level".
    rewrite Hg6, Hset. done.
Qed.

(** A constructed TripForm has a [leaders] field. *)
Lemma TripForm_init_has_leaders now allowed post kw trip (self : TripForm) :
  TripForm_init now allowed post kw trip = Return self ->
  "leaders" ∈ field_names (fields self).
Proof.
  intros Hinit. destruct (TripForm_init_inv _ _ _ _ _ _ Hinit) as [-> _].
  simpl. in_list.
Qed.

End TripFormInit.

Section TripFormInitReturns.
Context `{Enums} `{!Affiliations} `{!Models} `{!Membership} `{!Widgets}.

Lemma TripForm_invariant_alter (self : TripForm) name g :
  TripForm_invariant self -> keeps_bindable g ->
  TripForm_invariant (with_fields (alter_field name g (fields self)) self).
Proof.
  intros [Hnames Hprogram] Hg. split.
  - by rewrite fields_with_fields, field_names_alter.
  - intros f. rewrite fields_with_fields, get_field_alter.
    case_decide; [| by apply Hprogram]. subst name.
    destruct (get_field "program" (fields self)) as [f0|]; [| done].
    intros [= <-]. destruct (Hg f0) as [? | ->]; [done | by apply Hprogram].
Qed.

Lemma TripForm_on_field (self : TripForm) name g :
  TripForm_invariant self ->
  name ∈ meta_fields TripForm_Meta ->
  keeps_bindable g ->
  exists self', on_field name g self = Return self' /\ TripForm_invariant self'.
Proof.
  intros Hinv Hname Hg. eexists. split.
  - apply on_field_returns. by destruct Hinv as [-> _].
  - by apply TripForm_invariant_alter.
Qed.

Lemma TripForm_bind_input (self : TripForm) name initial_arg :
  TripForm_invariant self ->
  name ∈ meta_fields TripForm_Meta ->
  bindable initial_arg = true ->
  (initial_arg = VNone -> name = "program") ->
  exists self', _bind_input self name initial_arg None = Return self'
                /\ TripForm_invariant self'.
Proof.
  intros Hinv Hname Harg Hnone.
  assert (name ∈ field_names (fields self)) as Hin by (by destruct Hinv as [-> _]).
  destruct (names_get_field _ _ Hin) as [f Hf].
  destruct (_bind_input_returns self name initial_arg None f Hf) as [self' Hself'].
  { unfold bound_initial. destruct (data self !! name); [done |].
    destruct initial_arg; try done.
    destruct Hinv as [_ Hprogram]. apply Hprogram. by rewrite <- Hnone. }
  exists self'. split; [done |].
  apply _bind_input_inv in Hself' as (g & Hg & ->).
  apply TripForm_invariant_alter; [done | by apply keeps_bindable_attrs_only].
Qed.

Lemma valid_choices_returns allowed (choices : list (string * string)) :
  Forall (fun choice => is_Some (Program_of_value choice.1)) choices ->
  exists valid, valid_choices allowed choices = Return valid.
Proof.
  induction 1 as [|[value label] rest [p Hp] _ [valid IH]]; simpl; [by eexists |].
  simpl in Hp. rewrite Hp. simpl. rewrite IH. simpl. by eexists.
Qed.

Lemma program_categories_returns allowed categories :
  Forall (fun category =>
            Forall (fun choice => is_Some (Program_of_value choice.1)) category.2)
    categories ->
  exists result, program_categories allowed categories = Return result.
Proof.
  induction 1 as [|[category choices] rest Hvalid _ [result IH]]; simpl; [by eexists |].
  destruct (valid_choices_returns allowed choices Hvalid) as [valid ->].
  simpl. rewrite IH. simpl. by eexists.
Qed.

Ltac trip_step :=
  apply TripForm_on_field;
  [ assumption | simpl; in_list
  | first [ apply keeps_bindable_attrs_only, attrs_only_set_attr
          | intros ?; right; reflexivity ] ].

(** Construction succeeds whenever the submitted program, if any, is a
    program of the enum, the listed program choices are, and the model
    gives [program] an initial value that can be rendered. *)
Lemma TripForm_init_returns now allowed post kw trip :
  (exists level_required, winter_terrain_level_required post = Return level_required) ->
  (allowed = None \/ Program_choices_valid) ->
  bindable (initial (Trip_formfield "program")) = true ->
  exists self, TripForm_init now allowed post kw trip = Return self
               /\ TripForm_invariant self.
Proof.
  intros [level_required Hlevel] Hallowed Hprogram.
  unfold TripForm_init. cbv zeta.
  assert (TripForm_invariant
            (ModelForm_init Trip_formfield TripForm_Meta post kw trip)) as Hinv.
  { split; [apply ModelForm_init_names |]. simpl. by intros f [= <-]. }
  apply (bind_chain _ _ TripForm_invariant); [trip_step |].
  clear Hinv. intros self1 Hinv1.
  apply (bind_chain _ _ TripForm_invariant).
  { destruct (Trip.pk trip); [by eexists |].
    apply (bind_chain _ _ TripForm_invariant); [trip_step |].
    intros self2 Hinv2.
    apply (bind_chain _ _ TripForm_invariant); [trip_step |].
    intros self3 Hinv3. trip_step. }
  clear Hinv1. intros self4 Hinv4.
  apply (bind_chain _ _ TripForm_invariant); [trip_step |].
  clear Hinv4. intros self5 Hinv5.
  apply (bind_chain _ _ TripForm_invariant); [trip_step |].
  clear Hinv5. intros self6 Hinv6.
  rewrite Hlevel. unfold mbind at 1, Result_bind at 1. cbn beta iota.
  apply (bind_chain _ _ TripForm_invariant); [trip_step |].
  clear Hinv6. intros self7 Hinv7.
  apply (bind_chain _ _
           (fun r : TripForm * Value =>
              TripForm_invariant r.1 /\ bindable r.2 = true)).
  { assert (bindable
              match Trip.pk trip with
              | Some k =>
                  if k =? 0 then VInt 0
                  else VStr (Program_value (Trip.program_enum trip))
              | None => VNone
              end = true) as Hinitial.
    { destruct (Trip.pk trip) as [k|]; [by destruct (k =? 0) | done]. }
    destruct allowed as [allowed|]; [| by eexists].
    destruct Hallowed as [? | Hvalid]; [done |].
    unfold _allowed_program_choices.
    destruct (program_categories_returns
                (if bool_decide (Trip.program_enum (instance self7) ∈ allowed)
                 then allowed
                 else Trip.program_enum (instance self7) :: allowed)
                Program_choices Hvalid) as [program_choices ->].
    unfold mbind at 1, Result_bind at 1. cbn beta iota.
    apply (bind_chain _ _ TripForm_invariant); [trip_step |].
    intros self8 Hinv8. eexists. split; [reflexivity |]. simpl.
    split; [done |]. by destruct (_ && _). }
  clear Hinv7. intros [self9 initial_program] [Hinv9 Hinitial]. simpl in Hinv9, Hinitial.
  apply (bind_chain _ _ TripForm_invariant).
  { unfold _init_wimp.
    apply (bind_chain _ _ TripForm_invariant); [trip_step |].
    intros self10 Hinv10.
    apply (bind_chain _ _ TripForm_invariant); [trip_step |].
    intros self11 Hinv11.
    destruct (Trip.wimp (instance self11)); [| by eexists].
    apply (bind_chain _ _ TripForm_invariant); [trip_step |].
    intros self12 Hinv12. trip_step. }
  clear Hinv9. intros self13 Hinv13.
  apply (bind_chain _ _ TripForm_invariant); [trip_step |].
  clear Hinv13. intros self14 Hinv14.
  apply (bind_chain _ _ TripForm_invariant).
  { apply TripForm_bind_input; [done | simpl; in_list | done | done]. }
  clear Hinv14. intros self15 Hinv15.
  apply TripForm_bind_input; [done | simpl; in_list | done | discriminate].
Qed.

End TripFormInitReturns.

Section TripFormRequired.
Context `{Enums} `{!Affiliations} `{!Models} `{!Membership} `{!Widgets}.

(** C5 (as amended).  On every constructed TripForm: when a
    non-empty program is submitted, it is a program of the enum and
    the [required] flag of [winter_terrain_level] is true exactly
    when winter rules apply to it; when no program is submitted (the
    form is unbound, or the entry is missing or empty) the flag is
    true. *)
Theorem winter_terrain_level_required_flag now allowed post kw trip (self : TripForm) :
  TripForm_init now allowed post kw trip = Return self ->
  (forall program,
     post !! "program" = Some program -> program <> "" ->
     exists p, Program_of_value program = Some p
               /\ required_flag "winter_terrain_level" self
                  = Some (winter_rules_apply p))
  /\ (post !! "program" = None \/ post !! "program" = Some "" ->
      required_flag "winter_terrain_level" self = Some true).
Proof.
  intros Hinit.
  destruct (TripForm_init_inv _ _ _ _ _ _ Hinit) as (_ & b & Hb & Hflag).
  unfold winter_terrain_level_required in Hb. split.
  - intros program Hprogram Hne. rewrite Hprogram in Hb.
    destruct program; [done |]. cbn -[Program_call] in Hb.
    bind_inv Hb. injection Hb as <-.
    unfold Program_call in Hstep.
    destruct (Program_of_value _) as [p|]; [| discriminate].
    injection Hstep as <-. by exists p.
  - intros [Hnone | Hempty].
    + rewrite Hnone in Hb. injection Hb as <-. done.
    + rewrite Hempty in Hb. injection Hb as <-. done.
Qed.

End TripFormRequired.

(** ** SignUpForm *)

Section SignUpFormProperties.
Context `{Enums} `{!Affiliations} `{!Models} `{!Membership} `{!Widgets}.

Lemma nonempty_false_iff (s : string) : Py.nonempty s = false <-> s = "".
Proof. destruct s; simpl; split; congruence. Qed.

(** C3.  When the cleaned data holds a trip with non-empty notes,
    [clean_notes] raises "Please complete notes to sign up!" exactly
    when the submitted notes are empty once stripped of whitespace;
    in every other case (no trip in the cleaned data, a trip without
    notes, or notes that are not blank) it returns the stripped
    notes. *)
Theorem clean_notes_required_by_trip (self : SignUpForm) (notes : string) :
  cleaned_data self !! "notes" = Some (VStr notes) ->
  (forall trip,
     cleaned_data self !! "trip" = Some (VTrip trip) ->
     Trip.notes trip <> "" ->
     (clean_notes self = Raise please_complete_notes <-> Py.strip notes = "")
     /\ (Py.strip notes <> "" -> clean_notes self = Return (Py.strip notes)))
  /\ (cleaned_data self !! "trip" = None ->
      clean_notes self = Return (Py.strip notes))
  /\ (forall trip,
        cleaned_data self !! "trip" = Some (VTrip trip) ->
        Trip.notes trip = "" ->
        clean_notes self = Return (Py.strip notes)).
Proof.
  intros Hnotes. unfold clean_notes, cleaned. rewrite Hnotes. simpl.
  split; [| split].
  - intros trip -> Hne.
    destruct (Py.nonempty (Trip.notes trip)) eqn:Ht; cycle 1.
    { by apply nonempty_false_iff in Ht. }
    destruct (Py.nonempty (Py.strip notes)) eqn:Hs; simpl.
    + assert (Py.strip notes <> "") as Hne'.
      { intros Heq. rewrite Heq in Hs. discriminate. }
      split; [| done]. split; [discriminate | done].
    + apply nonempty_false_iff in Hs. split; [done | congruence].
  - by intros ->.
  - intros trip -> Hempty. rewrite Hempty. done.
Qed.

End SignUpFormProperties.

(** ** LeaderApplicationForm *)

Section LeaderApplicationFormProperties.
Context `{Enums} `{!Affiliations} `{!Models} `{!Membership} `{!Widgets}.

Lemma field_names_mark_conditional name (fs : Fields) :
  field_names (mark_conditional name fs) = field_names fs.
Proof.
  unfold mark_conditional. destruct (get_field name fs); [| done].
  apply field_names_alter.
Qed.

Lemma formfield_with_is_Some widgets (f : ModelField) :
  is_Some (formfield_with widgets f) <-> is_Some (mf_formfield f).
Proof.
  unfold formfield_with. destruct (assoc (mf_name f) widgets); [| done].
  by rewrite fmap_is_Some.
Qed.

Lemma fields_for_model_names (model : Model) exclude widgets :
  field_names (fields_for_model model exclude widgets)
  = filter (fun n => n ∉ exclude)
      (map mf_name
         (filter (fun f => editable f = true /\ is_Some (mf_formfield f))
            (form_candidates model))).
Proof.
  unfold fields_for_model, field_names.
  induction (form_candidates model) as [|f fs IH]; simpl; [done |].
  rewrite map_app, IH. clear IH.
  pose proof (formfield_with_is_Some widgets f) as Hsome.
  rewrite (filter_cons _ f fs).
  destruct (decide (editable f = true /\ is_Some (mf_formfield f))) as [[He Hs] | Hnot].
  - rewrite He. apply Hsome in Hs as [ff Hff]. rewrite Hff. simpl.
    rewrite filter_cons. case_bool_decide; simpl.
    + by rewrite decide_False by auto.
    + by rewrite decide_True by auto.
  - destruct (editable f) eqn:He; simpl; [| done].
    case_bool_decide; [done |].
    destruct (formfield_with widgets f) eqn:Hff; [| done].
    exfalso. apply Hnot. split; [done |]. apply Hsome. by eexists.
Qed.

(** C6.  For every activity, the form the factory returns has the
    model [LeaderApplication.model_from_activity(activity_enum)], its
    fields are the editable fields of that model that have a form
    field, in the order a model form walks them, without [archived],
    [year], [participant] and [previous_rating], and none of these
    four is a field of the form. *)
Theorem LeaderApplicationForm_model_and_exclusions {I}
    (activity_enum : Activity) post kw (application : I) :
  let form := LeaderApplicationForm activity_enum post kw application in
  Meta_model form = model_from_activity activity_enum
  /\ Meta_exclude form = ["archived"; "year"; "participant"; "previous_rating"]
  /\ field_names (fields (activity_form form))
     = filter (fun n => n ∉ Meta_exclude form)
         (map mf_name
            (filter (fun f => editable f = true /\ is_Some (mf_formfield f))
               (form_candidates (model_from_activity activity_enum))))
  /\ (forall n, n ∈ ["archived"; "year"; "participant"; "previous_rating"] ->
                n ∉ field_names (fields (activity_form form))).
Proof.
  simpl. split; [done |]. split; [done |].
  rewrite !field_names_mark_conditional, fields_for_model_names.
  split; [done |].
  intros n Hn Hin. apply list_elem_of_filter in Hin as [Hnot _]. by apply Hnot.
Qed.

End LeaderApplicationFormProperties.

(** ** amount_choices and DuesForm *)

Section DuesProperties.
Context `{Enums} `{!Affiliations} `{!Models} `{!Membership} `{!Widgets}.

Lemma amount_choices_renders (value_is_amount : bool) :
  Forall2 (renders value_is_amount) AFFILIATION_CHOICES (amount_choices value_is_amount).
Proof.
  unfold amount_choices.
  induction AFFILIATION_CHOICES as [|[label [options|text]] rows IH]; simpl.
  - constructor.
  - constructor; [| exact IH].
    replace (map _ options)
      with (map (fun cl => (choice_value value_is_amount cl.1, annotated cl.1 cl.2))
              options).
    + constructor.
    + apply map_ext. intros [code l]. unfold include_amount_in_label.
      by destruct value_is_amount.
  - constructor; [| exact IH].
    unfold include_amount_in_label. destruct value_is_amount; constructor.
Qed.

Lemma renders_labels row c c' :
  renders false row c -> renders true row c' -> choice_labels c = choice_labels c'.
Proof.
  intros Hc Hc'. destruct Hc; inversion Hc'; subst; simpl; [| done].
  by rewrite !map_map.
Qed.

(** C10.  Both modes of [amount_choices] walk the affiliation table
    row by row: a grouped row yields a group of the same name, a
    single row a single choice, every label is "label ($amount)" with
    the annual dues of the affiliation code as amount, and the value
    is the affiliation code when [value_is_amount] is False and that
    amount when it is True.  Grouping and labels are therefore the
    same in the two modes. *)
Theorem amount_choices_modes :
  Forall2 (renders false) AFFILIATION_CHOICES (amount_choices false)
  /\ Forall2 (renders true) AFFILIATION_CHOICES (amount_choices true)
  /\ map choice_labels (amount_choices false) = map choice_labels (amount_choices true).
Proof.
  split; [apply amount_choices_renders |]. split; [apply amount_choices_renders |].
  pose proof (amount_choices_renders false) as Hf.
  pose proof (amount_choices_renders true) as Ht.
  revert Hf Ht. generalize (amount_choices false) (amount_choices true).
  induction AFFILIATION_CHOICES as [|row rows IH]; intros cs cs' Hf Ht.
  - inversion Hf. inversion Ht. done.
  - inversion Hf as [|? c ? cs0 Hc Hcs]; subst.
    inversion Ht as [|? c' ? cs0' Hc' Hcs']; subst. simpl.
    f_equal; [by eapply renders_labels | by apply IH].
Qed.

(** *** DuesForm *)

Lemma DuesForm_invariant_alter (self : DuesForm) name g :
  DuesForm_invariant self ->
  name ∈ ["merchantDefinedData2"; "merchantDefinedData3";
          "merchantDefinedData4"; "amount"] ->
  keeps_bindable g ->
  DuesForm_invariant (with_fields (alter_field name g (fields self)) self).
Proof.
  intros (Hnames & Hhidden & Hbind) Hname Hg.
  unfold DuesForm_invariant. rewrite fields_with_fields, field_names_alter.
  split; [done |]. split.
  - intros k Hk. rewrite get_field_alter_ne; [by apply Hhidden |].
    intros ->. rewrite !elem_of_cons in Hname. rewrite !elem_of_cons in Hk.
    rewrite elem_of_nil in Hname. rewrite elem_of_nil in Hk.
    destruct Hname as [-> | [-> | [-> | [-> | []]]]];
      destruct Hk as [? | [? | [? | []]]]; discriminate.
  - intros k f Hk. rewrite get_field_alter. case_decide; [| by apply Hbind].
    subst k. destruct (get_field name (fields self)) as [f0|] eqn:Hf0; [| done].
    intros [= <-]. destruct (Hg f0) as [? | ->]; [done |]. by eapply Hbind.
Qed.

Lemma bound_names_declared name :
  name ∈ ["merchantDefinedData2"; "merchantDefinedData3";
          "merchantDefinedData4"; "amount"] ->
  name ∈ DuesForm_field_names.
Proof.
  intros Hname. rewrite !elem_of_cons in Hname. rewrite elem_of_nil in Hname.
  unfold DuesForm_field_names.
  destruct Hname as [-> | [-> | [-> | [-> | []]]]]; in_list.
Qed.

Lemma rendered_names_bound name :
  name ∈ ["merchantDefinedData2"; "merchantDefinedData3"; "amount"] ->
  name ∈ ["merchantDefinedData2"; "merchantDefinedData3";
          "merchantDefinedData4"; "amount"].
Proof.
  intros Hname. rewrite !elem_of_cons in Hname. rewrite elem_of_nil in Hname.
  destruct Hname as [-> | [-> | [-> | []]]]; in_list.
Qed.

Lemma DuesForm_on_field (self : DuesForm) name g :
  DuesForm_invariant self ->
  name ∈ ["merchantDefinedData2"; "merchantDefinedData3";
          "merchantDefinedData4"; "amount"] ->
  keeps_bindable g ->
  exists self', on_field name g self = Return self' /\ DuesForm_invariant self'.
Proof.
  intros Hinv Hname Hg. eexists. split.
  - apply on_field_returns. destruct Hinv as [-> _].
    by apply bound_names_declared.
  - by apply DuesForm_invariant_alter.
Qed.

Lemma DuesForm_bind_input (self : DuesForm) name model_name :
  DuesForm_invariant self ->
  name ∈ ["merchantDefinedData2"; "merchantDefinedData3"; "amount"] ->
  exists self', _bind_input self name VNone model_name = Return self'
                /\ DuesForm_invariant self'.
Proof.
  intros Hinv Hname.
  assert (name ∈ field_names (fields self)) as Hin.
  { destruct Hinv as [-> _]. by apply bound_names_declared, rendered_names_bound. }
  destruct (names_get_field _ _ Hin) as [f Hf].
  destruct (_bind_input_returns self name VNone model_name f Hf) as [self' Hself'].
  { unfold bound_initial. destruct (data self !! name); [done |].
    destruct Hinv as (_ & _ & Hbind). by eapply Hbind. }
  exists self'. split; [done |].
  apply _bind_input_inv in Hself' as (g & Hg & ->).
  apply DuesForm_invariant_alter; [done | | by apply keeps_bindable_attrs_only].
  by apply rendered_names_bound.
Qed.

Lemma DuesForm_declared_invariant post kw :
  DuesForm_invariant
    {| data := post; instance := tt; form_initial := kw;
       fields := DuesForm_declared_fields; cleaned_data := ∅; errors := ∅ |}.
Proof.
  split; [done |]. split; [done |].
  intros k f Hk. rewrite !elem_of_cons in Hk. rewrite elem_of_nil in Hk.
  destruct Hk as [-> | [-> | [-> | []]]]; simpl; intros [= <-]; done.
Qed.

Ltac dues_step :=
  first
    [ apply DuesForm_on_field;
      [ assumption | in_list
      | first [ apply keeps_bindable_set_initial; reflexivity
              | apply keeps_bindable_attrs_only;
                first [apply attrs_only_id | apply attrs_only_set_attr] ] ]
    | apply DuesForm_bind_input; [assumption | in_list] ].

(** The constructor always succeeds and keeps the invariant. *)
Lemma DuesForm_init_invariant participant post kw :
  exists self, DuesForm_init participant post kw = Return self
               /\ DuesForm_invariant self.
Proof.
  unfold DuesForm_init. cbv zeta.
  pose proof (DuesForm_declared_invariant post kw) as Hinv.
  apply (bind_chain _ _ DuesForm_invariant); [dues_step |].
  clear Hinv. intros self1 Hinv1.
  apply (bind_chain _ _ DuesForm_invariant).
  { destruct participant; [by eexists |].
    apply (bind_chain _ _ DuesForm_invariant); [dues_step |].
    intros self2 Hinv2. dues_step. }
  clear Hinv1. intros self3 Hinv3.
  apply (bind_chain _ _ DuesForm_invariant).
  { destruct participant as [par|]; [| by eexists].
    apply (bind_chain _ _ DuesForm_invariant); [dues_step |].
    intros self4 Hinv4.
    apply (bind_chain _ _ DuesForm_invariant); [dues_step |].
    intros self5 Hinv5.
    apply (bind_chain _ _ DuesForm_invariant); [dues_step |].
    intros self6 Hinv6. dues_step. }
  clear Hinv3. intros self7 Hinv7.
  apply (bind_chain _ _ DuesForm_invariant); [dues_step |].
  intros self8 Hinv8.
  apply (bind_chain _ _ DuesForm_invariant); [dues_step |].
  intros self9 Hinv9. dues_step.
Qed.

(** C7.  Whatever the participant argument is (a participant or
    none) and whatever was submitted, DuesForm is constructed, its
    fields are exactly [merchant_id], [description],
    [merchantDefinedData1] to [merchantDefinedData4] and [amount], in
    this order, and the hidden fields [merchant_id], [description]
    and [merchantDefinedData1] start from MERCHANT_ID,
    'membership fees.' and PAYMENT_TYPE. *)
Theorem DuesForm_fixed_fields participant post kw :
  exists self,
    DuesForm_init participant post kw = Return self
    /\ field_names (fields self)
       = ["merchant_id"; "description"; "merchantDefinedData1";
          "merchantDefinedData2"; "merchantDefinedData3"; "merchantDefinedData4";
          "amount"]
    /\ widget_and_initial "merchant_id" self = Some ("HiddenInput", MERCHANT_ID)
    /\ widget_and_initial "description" self
       = Some ("HiddenInput", VStr "membership fees.")
    /\ widget_and_initial "merchantDefinedData1" self
       = Some ("HiddenInput", PAYMENT_TYPE).
Proof.
  destruct (DuesForm_init_invariant participant post kw)
    as (self & Hinit & Hnames & Hhidden & _).
  exists self. split; [done |]. split; [done |].
  unfold widget_and_initial.
  rewrite !Hhidden by in_list. done.
Qed.

End DuesProperties.

(** * Concrete runs *)

(** ** ParticipantForm *)

(** An undergraduate whose only verified address is at a subdomain of
    mit.edu passes [clean_affiliation], although the address is not at
    mit.edu itself. *)
Lemma lacks_at_mit_edu_rule_fails_on_subdomain :
  ~ (forall self,
       ParticipantForm_init (Sample.user_with ["tim@alum.mit.edu"]) None ∅ ∅
       = Return self ->
       lacks_at_mit_edu_rule
         (ParticipantForm_cleaned {[ "affiliation" := VStr "MU" ]} self)
         (VStr "MU")).
Proof.
  intros Hrule.
  destruct (ParticipantForm_init_returns
              (Sample.user_with ["tim@alum.mit.edu"]) None ∅ ∅)
    as (self & Hinit & Hemails).
  destruct (Hrule self Hinit) as [_ Hraise].
  assert (clean_affiliation
            (ParticipantForm_cleaned {[ "affiliation" := VStr "MU" ]} self)
          = Return (VStr "MU")) as Hclean.
  { rewrite (clean_affiliation_cases _ (VStr "MU")) by reflexivity.
    simpl. rewrite Hemails. reflexivity. }
  rewrite Hclean in Hraise.
  assert (@Return Value (VStr "MU") = Raise lacks_mit_email) as Habs; [| discriminate].
  apply Hraise. split; [by left |].
  simpl. rewrite Hemails. intros email Hin.
  apply list_elem_of_singleton in Hin as ->. reflexivity.
Qed.

Lemma clean_affiliation_requires_mit_suffix_witness :
  exists self,
    ParticipantForm_init (Sample.user_with ["Tim@Example.com"]) (Some Sample.tim) ∅ ∅
    = Return self
    /\ let submitted := ParticipantForm_cleaned {[ "affiliation" := VStr "MG" ]} self in
       (clean_affiliation submitted = Raise lacks_mit_email <->
        is_student_affiliation (VStr "MG")
        /\ forall e, e ∈ User.emailaddress_set (Sample.user_with ["Tim@Example.com"]) ->
                     EmailAddress.verified e = true ->
                     ends_with_mit_edu (EmailAddress.email e) = false)
       /\ (clean_affiliation submitted <> Raise lacks_mit_email ->
           clean_affiliation submitted = Return (VStr "MG"))
       /\ (~ is_student_affiliation (VStr "MG") ->
           forall emails,
             clean_affiliation
               {| participant_form := participant_form submitted;
                  verified_emails := emails |}
             = Return (VStr "MG")).
Proof.
  apply (clean_affiliation_requires_mit_suffix
           (Sample.user_with ["Tim@Example.com"]) (Some Sample.tim) ∅ ∅
           {[ "affiliation" := VStr "MG" ]} (VStr "MG")).
  reflexivity.
Defined.

(** ** TripForm *)

Lemma clean_membership_required_winter_school_witness :
  clean_membership_required
    (Sample.trip_form Sample.new_trip
       {[ "program" := VStr "winter_school"; "membership_required" := VBool false ]})
  = Return (VBool true)
  /\ clean_membership_required
       (Sample.trip_form Sample.new_trip
          {[ "program" := VStr "hiking"; "membership_required" := VBool false ]})
     = Return (VBool false).
Proof.
  split.
  - destruct (clean_membership_required_winter_school
                (Sample.trip_form Sample.new_trip
                   {[ "program" := VStr "winter_school";
                      "membership_required" := VBool false ]}))
      as [Hwinter _].
    apply Hwinter. reflexivity.
  - destruct (clean_membership_required_winter_school
                (Sample.trip_form Sample.new_trip
                   {[ "program" := VStr "hiking";
                      "membership_required" := VBool false ]}))
      as [_ Hother].
    apply Hother.
    + vm_compute. discriminate.
    + reflexivity.
Defined.

(** Shrinking the saved trip, which has two accepted signups, to two
    places succeeds; shrinking it to one does not. *)
Lemma clean_maximum_participants_shrink_witness :
  clean_maximum_participants
    (Sample.trip_form Sample.saved_trip {[ "maximum_participants" := VInt 2 ]})
  = Return (VInt 2)
  /\ clean_maximum_participants
       (Sample.trip_form Sample.saved_trip {[ "maximum_participants" := VInt 1 ]})
     = Raise cannot_shrink.
Proof.
  split.
  - destruct (clean_maximum_participants_shrink
                (Sample.trip_form Sample.saved_trip
                   {[ "maximum_participants" := VInt 2 ]})
                (VInt 2)) as (_ & Hsaved & _); [reflexivity |].
    destruct (Hsaved 2 eq_refl) as (_ & Hfits & _); [by eexists |].
    apply Hfits. vm_compute. discriminate.
  - destruct (clean_maximum_participants_shrink
                (Sample.trip_form Sample.saved_trip
                   {[ "maximum_participants" := VInt 1 ]})
                (VInt 1)) as (_ & Hsaved & _); [reflexivity |].
    destruct (Hsaved 1 eq_refl) as (Hraises & _); [by eexists |].
    apply Hraises. vm_compute. reflexivity.
Defined.

Lemma clean_winter_terrain_level_strips_witness :
  clean_winter_terrain_level
    (Sample.trip_form Sample.new_trip
       {[ "program" := VStr "hiking"; "winter_terrain_level" := VStr "B" ]})
  = Return VNone
  /\ clean_winter_terrain_level
       (Sample.trip_form Sample.new_trip
          {[ "program" := VStr "winter_school"; "winter_terrain_level" := VStr "B" ]})
     = Return (VStr "B")
  /\ clean_winter_terrain_level (Sample.trip_form Sample.new_trip ∅)
     = Return (VStr "").
Proof.
  split; [| split].
  - destruct (clean_winter_terrain_level_strips
                (Sample.trip_form Sample.new_trip
                   {[ "program" := VStr "hiking";
                      "winter_terrain_level" := VStr "B" ]}))
      as [Hstrip _].
    apply (Hstrip "hiking" Sample.Hiking);
      [reflexivity | discriminate | reflexivity | reflexivity].
  - destruct (clean_winter_terrain_level_strips
                (Sample.trip_form Sample.new_trip
                   {[ "program" := VStr "winter_school";
                      "winter_terrain_level" := VStr "B" ]}))
      as [_ Hkeep].
    apply Hkeep.
    + left. reflexivity.
    + left. exists "winter_school", Sample.WinterSchool.
      split; [reflexivity | split; reflexivity].
  - destruct (clean_winter_terrain_level_strips (Sample.trip_form Sample.new_trip ∅))
      as [_ Hkeep].
    apply Hkeep.
    + right. split; reflexivity.
    + right. left. reflexivity.
Defined.



(** A form built without submitted data has the terrain level
    required, although no winter-rules program was submitted. *)
Lemma level_required_only_for_winter_fails_unbound :
  ~ (forall self,
       TripForm_init Sample.noon None ∅ ∅ Sample.new_trip = Return self ->
       level_required_only_for_winter ∅ self).
Proof.
  intros Hrule.
  destruct (TripForm_init_returns Sample.noon None ∅ ∅ Sample.new_trip)
    as (self & Hinit & _); [by exists true | by left | reflexivity |].
  specialize (Hrule self Hinit).
  destruct (TripForm_init_inv _ _ _ _ _ _ Hinit) as (_ & b & Hb & Hflag).
  injection Hb as <-.
  destruct Hrule as [Hforward _].
  destruct (Hforward Hflag) as (program & p & Hlookup & _).
  by rewrite lookup_empty in Hlookup.
Qed.

Lemma winter_terrain_level_required_flag_witness :
  exists self,
    TripForm_init Sample.noon (Some Sample.hiking_and_winter_school)
      {[ "program" := "hiking" ]} ∅ Sample.saved_trip
    = Return self
    /\ required_flag "winter_terrain_level" self = Some false.
Proof.
  destruct (TripForm_init_returns Sample.noon (Some Sample.hiking_and_winter_school)
              {[ "program" := "hiking" ]} ∅ Sample.saved_trip)
    as (self & Hinit & _).
  { exists false. vm_compute. reflexivity. }
  { right. repeat constructor; by eexists. }
  { reflexivity. }
  exists self. split; [exact Hinit |].
  destruct (winter_terrain_level_required_flag _ _ _ _ _ _ Hinit) as [Hsubmitted _].
  destruct (Hsubmitted "hiking") as (p & Hp & Hflag); [reflexivity | discriminate |].
  vm_compute in Hp. injection Hp as <-. exact Hflag.
Defined.

(** ** SignUpForm *)

(** The saved trip asks for notes: blank notes are refused, and notes
    with text come back stripped. *)
Lemma clean_notes_required_by_trip_witness :
  clean_notes
    (Sample.signup_form {[ "trip" := VTrip Sample.saved_trip; "notes" := VStr "   " ]})
  = Raise please_complete_notes
  /\ clean_notes
       (Sample.signup_form
          {[ "trip" := VTrip Sample.saved_trip; "notes" := VStr " vegan " ]})
     = Return "vegan".
Proof.
  split.
  - destruct (clean_notes_required_by_trip
                (Sample.signup_form
                   {[ "trip" := VTrip Sample.saved_trip; "notes" := VStr "   " ]})
                "   ") as (Hasked & _); [reflexivity |].
    destruct (Hasked Sample.saved_trip) as (Hblank & _);
      [reflexivity | discriminate |].
    apply Hblank. reflexivity.
  - destruct (clean_notes_required_by_trip
                (Sample.signup_form
                   {[ "trip" := VTrip Sample.saved_trip; "notes" := VStr " vegan " ]})
                " vegan ") as (Hasked & _); [reflexivity |].
    destruct (Hasked Sample.saved_trip) as (_ & Htext);
      [reflexivity | discriminate |].
    apply Htext. discriminate.
Defined.

(** * Further properties of the forms *)

(** ** _bind_input *)

Section BindInputProperties.
Context `{Enums}.

Lemma alter_field_at (name : string) (g g' : Field -> Field) (fs : Fields) (f : Field) :
  get_field name fs = Some f -> g f = g' f ->
  alter_field name g fs = alter_field name g' fs.
Proof.
  intros Hf Hg. induction fs as [|[n f0] fs IH]; simpl in *; [done |].
  case_decide; [| by rewrite IH]. injection Hf as ->. by rewrite Hg.
Qed.

Lemma get_field_alter_same (name : string) (g : Field -> Field) (fs : Fields) (f : Field) :
  get_field name fs = Some f -> get_field name (alter_field name g fs) = Some (g f).
Proof. intros Hf. rewrite get_field_alter, decide_True by done. by rewrite Hf. Qed.

(** The field a successful [_bind_input] leaves behind. *)
Lemma _bind_input_field {I} (form form' : Form I) name initial_arg model_name f :
  get_field name (fields form) = Some f ->
  _bind_input form name initial_arg model_name = Return form' ->
  form' = with_fields
            (alter_field name
               (set_attrs (bound_attrs (bound_model_name name model_name)
                             (bound_initial form name initial_arg f)
                             (attrs (widget f))))
               (fields form))
            form.
Proof.
  intros Hf. unfold _bind_input. rewrite Hf.
  fold (bound_model_name name model_name).
  change (match data form !! name with
          | Some submitted => VStr submitted
          | None => match initial_arg with VNone => initial f | v => v end
          end) with (bound_initial form name initial_arg f).
  set (m := bound_model_name name model_name).
  set (v := bound_initial form name initial_arg f).
  intros Hb. bind_inv Hb. apply on_field_inv in Hstep. subst step.
  unfold bound_attrs. fold m.
  destruct (truthy v) eqn:Ht.
  - bind_inv Hb. apply on_field_inv in Hb. subst form'.
    rewrite fields_with_fields, alter_field_compose.
    unfold with_fields at 1. simpl. unfold with_fields. f_equal.
    apply (alter_field_at _ _ _ _ f Hf).
    destruct v; simpl in Hstep; try discriminate; injection Hstep as <-; reflexivity.
  - injection Hb as <-. f_equal. by apply (alter_field_at _ _ _ _ f Hf).
Qed.

Lemma _bind_input_KeyError {I} (form : Form I) name initial_arg model_name :
  get_field name (fields form) = None ->
  _bind_input form name initial_arg model_name = Raise (KeyError name).
Proof. intros Hf. unfold _bind_input. by rewrite Hf. Qed.

Lemma _bind_input_TypeError {I} (form : Form I) name initial_arg model_name f :
  get_field name (fields form) = Some f ->
  bindable (bound_initial form name initial_arg f) = false ->
  _bind_input form name initial_arg model_name
  = Raise (TypeError "Unexpected initial value").
Proof.
  intros Hf Hb. unfold _bind_input. rewrite Hf.
  change (match data form !! name with
          | Some submitted => VStr submitted
          | None => match initial_arg with VNone => initial f | v => v end
          end) with (bound_initial form name initial_arg f).
  rewrite on_field_returns by (by eapply get_field_Some_names).
  destruct (bound_initial form name initial_arg f) as [| | | | t | [|par q]];
    try discriminate; reflexivity.
Qed.

(** X1.  [_bind_input] raises [KeyError] when the form has no field
    of that name, raises [TypeError] when the value it settles on (the
    submitted one, else the argument, else the field's initial value)
    is a truthy object that is neither a boolean, a string nor an
    integer, and returns in every other case. *)
Theorem _bind_input_outcome {I} (form : Form I) name initial_arg model_name :
  (get_field name (fields form) = None ->
   _bind_input form name initial_arg model_name = Raise (KeyError name))
  /\ (forall f,
        get_field name (fields form) = Some f ->
        bindable (bound_initial form name initial_arg f) = false ->
        _bind_input form name initial_arg model_name
        = Raise (TypeError "Unexpected initial value"))
  /\ (forall f,
        get_field name (fields form) = Some f ->
        bindable (bound_initial form name initial_arg f) = true ->
        exists form', _bind_input form name initial_arg model_name = Return form').
Proof.
  split; [apply _bind_input_KeyError |]. split.
  - intros f. apply _bind_input_TypeError.
  - intros f. apply _bind_input_returns.
Qed.

(** What a successful [_bind_input] leaves alone. *)
Lemma _bind_input_same_but_attrs {I} (form form' : Form I) name initial_arg model_name :
  _bind_input form name initial_arg model_name = Return form' ->
  same_but_attrs_of name form form'
  /\ (forall key, key <> "data-ng-model" -> key <> "data-ng-init" ->
                  (attrs_of name form' ≫= lookup key)
                  = (attrs_of name form ≫= lookup key)).
Proof.
  intros Hb.
  destruct (get_field name (fields form)) as [f|] eqn:Hf; cycle 1.
  { rewrite (_bind_input_KeyError form name initial_arg model_name Hf) in Hb.
    discriminate. }
  rewrite (_bind_input_field form form' name initial_arg model_name f Hf Hb).
  split.
  - repeat split; try reflexivity.
    + rewrite fields_with_fields. apply field_names_alter.
    + intros k Hk. rewrite fields_with_fields. by apply get_field_alter_ne.
    + intros f0 Hf0. rewrite fields_with_fields.
      rewrite (get_field_alter_same _ _ _ _ Hf0). by eexists.
  - intros key Hm Hi. unfold attrs_of.
    rewrite fields_with_fields, (get_field_alter_same _ _ _ _ Hf), Hf. simpl.
    unfold bound_attrs.
    destruct (truthy _); [destruct (js_expr _) |];
      rewrite ?lookup_insert_ne by done; reflexivity.
Qed.

(** X2.  A successful [_bind_input] changes nothing of the form but
    the widget attributes of the named field, and of these only
    [data-ng-model] and [data-ng-init]: the other fields, the order of
    the fields, the field's flags, initial value and choices, and the
    form's data are as before. *)
Theorem _bind_input_frame {I} (form form' : Form I) name initial_arg model_name :
  _bind_input form name initial_arg model_name = Return form' ->
  same_but_attrs_of name form form'
  /\ (forall key, key <> "data-ng-model" -> key <> "data-ng-init" ->
                  (attrs_of name form' ≫= lookup key)
                  = (attrs_of name form ≫= lookup key)).
Proof. apply _bind_input_same_but_attrs. Qed.

(** What a successful [_bind_input] writes. *)
Lemma _bind_input_attrs {I} (form form' : Form I) name initial_arg model_name f :
  get_field name (fields form) = Some f ->
  _bind_input form name initial_arg model_name = Return form' ->
  let m := bound_model_name name model_name in
  (attrs_of name form' ≫= lookup "data-ng-model") = Some (VStr m)
  /\ (forall submitted,
        data form !! name = Some submitted -> submitted <> "" ->
        (attrs_of name form' ≫= lookup "data-ng-init")
        = Some (VStr (m +:+ " = '" +:+ submitted +:+ "'")))
  /\ (forall z,
        data form !! name = None -> initial_arg = VInt z -> z <> 0 ->
        (attrs_of name form' ≫= lookup "data-ng-init")
        = Some (VStr (m +:+ " = '" +:+ pretty z +:+ "'")))
  /\ (truthy (bound_initial form name initial_arg f) = false ->
      (attrs_of name form' ≫= lookup "data-ng-init")
      = attrs (widget f) !! "data-ng-init").
Proof.
  intros Hf Hb m.
  rewrite (_bind_input_field form form' name initial_arg model_name f Hf Hb).
  unfold attrs_of. rewrite fields_with_fields, (get_field_alter_same _ _ _ _ Hf).
  simpl. fold m. unfold bound_attrs. split; [| split; [| split]].
  - destruct (truthy _); [destruct (js_expr _) |];
      rewrite ?lookup_insert_ne by done; apply lookup_insert_eq.
  - intros submitted Hs Hne. unfold bound_initial. rewrite Hs.
    destruct submitted; [done |]. simpl. apply lookup_insert_eq.
  - intros z Hs -> Hz. unfold bound_initial. rewrite Hs. simpl.
    destruct (z =? 0) eqn:Hz0; [apply Z.eqb_eq in Hz0; done |].
    simpl. apply lookup_insert_eq.
  - intros ->. by rewrite lookup_insert_ne.
Qed.

(** X3.  After a successful [_bind_input] the field carries
    [data-ng-model] with the model name (the field's own name when
    none is given).  A non-empty submitted value is what
    [data-ng-init] announces, quoted, whatever the other sources say;
    a non-zero integer is announced as a quoted decimal; and when the
    value settled on is falsy (None, False, 0 or the empty string)
    [data-ng-init] is left as it was. *)
Theorem _bind_input_renders {I} (form form' : Form I) name initial_arg model_name f :
  get_field name (fields form) = Some f ->
  _bind_input form name initial_arg model_name = Return form' ->
  let m := bound_model_name name model_name in
  (attrs_of name form' ≫= lookup "data-ng-model") = Some (VStr m)
  /\ (forall submitted,
        data form !! name = Some submitted -> submitted <> "" ->
        (attrs_of name form' ≫= lookup "data-ng-init")
        = Some (VStr (m +:+ " = '" +:+ submitted +:+ "'")))
  /\ (forall z,
        data form !! name = None -> initial_arg = VInt z -> z <> 0 ->
        (attrs_of name form' ≫= lookup "data-ng-init")
        = Some (VStr (m +:+ " = '" +:+ pretty z +:+ "'")))
  /\ (truthy (bound_initial form name initial_arg f) = false ->
      (attrs_of name form' ≫= lookup "data-ng-init")
      = attrs (widget f) !! "data-ng-init").
Proof. apply _bind_input_attrs. Qed.

End BindInputProperties.

(** ** ParticipantForm, continued *)

Section ParticipantFormMore.
Context `{Enums} `{!Affiliations} `{!Models} `{!Membership} `{!Widgets}.

Lemma ParticipantForm_init_steps user inst post kw self :
  ParticipantForm_init user inst post kw = Return self ->
  exists form1,
    on_field "email"
      (set_widget_choices
         (map (fun email => Single (VStr email) email) (verified_emails self)))
      (ModelForm_init Participant_formfield ParticipantForm_Meta post kw
         (ParticipantForm_instance inst))
    = Return form1
    /\ _bind_input form1 "affiliation"
         (VStr (Participant.affiliation (ParticipantForm_instance inst))) None
       = Return (participant_form self).
Proof.
  intros Hinit.
  pose proof (ParticipantForm_init_emails _ _ _ _ _ Hinit) as Hemails.
  unfold ParticipantForm_init in Hinit. cbv zeta in Hinit.
  replace (default Participant_new _) with (ParticipantForm_instance inst) in Hinit
    by (destruct inst as [par|]; [simpl; by destruct (_ =? _)%nat | done]).
  bind_inv Hinit. bind_inv Hinit. injection Hinit as <-. simpl in *.
  exists step. split; [exact Hstep |].
  apply on_field_inv in Hstep as Hform1.
  rewrite Hform1 in Hstep0 at 2. exact Hstep0.
Qed.

(** X4.  The email select of a constructed ParticipantForm offers
    exactly the user's verified addresses, each as its own label, in
    the order of the user's address set, and these are the addresses
    the form keeps for [clean_affiliation]; an address is offered if
    and only if the user has verified it. *)
Theorem ParticipantForm_email_choices user inst post kw self :
  ParticipantForm_init user inst post kw = Return self ->
  ((fun f => widget_choices (widget f))
     <$> get_field "email" (fields (participant_form self)))
  = Some (map (fun e => Single (VStr (EmailAddress.email e)) (EmailAddress.email e))
            (filter (fun e => EmailAddress.verified e = true)
               (User.emailaddress_set user)))
  /\ verified_emails self
     = map EmailAddress.email
         (filter (fun e => EmailAddress.verified e = true)
            (User.emailaddress_set user))
  /\ (forall address,
        address ∈ verified_emails self
        <-> exists e, e ∈ User.emailaddress_set user
                      /\ EmailAddress.verified e = true
                      /\ EmailAddress.email e = address).
Proof.
  intros Hinit.
  pose proof (ParticipantForm_init_emails _ _ _ _ _ Hinit) as Hemails.
  destruct (ParticipantForm_init_steps _ _ _ _ _ Hinit) as (form1 & Hemail & Hbind).
  split; [| split; [exact Hemails |]].
  - rewrite (_bind_input_other _ _ _ _ _ Hbind "email") by discriminate.
    destruct (on_field_same _ _ _ _ Hemail) as (f & _ & ->).
    rewrite Hemails, map_map. reflexivity.
  - intros address. rewrite Hemails.
    rewrite list_elem_of_fmap. split.
    + intros (e & -> & He). apply list_elem_of_filter in He as [Hv He].
      by exists e.
    + intros (e & He & Hv & <-). exists e. split; [done |].
      by apply list_elem_of_filter.
Qed.

(** X5.  A participant whose stored affiliation is a single letter (an
    old code) is treated as having none: the form's instance has the
    empty affiliation, and on an unbound form nothing is announced to
    the page for it.  Any non-empty affiliation of another length is
    kept and announced as [affiliation = 'code']. *)
Theorem ParticipantForm_old_affiliation user par post kw self :
  ParticipantForm_init user (Some par) post kw = Return self ->
  post !! "affiliation" = None ->
  (String.length (Participant.affiliation par) = 1%nat ->
   instance (participant_form self) = blank_affiliation par
   /\ (attrs_of "affiliation" (participant_form self) ≫= lookup "data-ng-init")
      = attrs (widget (Participant_formfield "affiliation")) !! "data-ng-init")
  /\ (String.length (Participant.affiliation par) <> 1%nat ->
      Participant.affiliation par <> "" ->
      instance (participant_form self) = par
      /\ (attrs_of "affiliation" (participant_form self) ≫= lookup "data-ng-init")
         = Some (VStr ("affiliation = '" +:+ Participant.affiliation par +:+ "'"))).
Proof.
  intros Hinit Hpost.
  destruct (ParticipantForm_init_steps _ _ _ _ _ Hinit) as (form1 & Hemail & Hbind).
  assert (get_field "affiliation" (fields form1)
          = Some (Participant_formfield "affiliation")) as Hfield.
  { by rewrite (on_field_other _ _ _ _ Hemail "affiliation") by discriminate. }
  assert (data form1 = post) as Hdata.
  { apply on_field_inv in Hemail. by subst form1. }
  assert (instance (participant_form self) = ParticipantForm_instance (Some par))
    as Hinstance.
  { destruct (_bind_input_same_but_attrs _ _ _ _ _ Hbind) as [(_ & -> & _) _].
    apply on_field_inv in Hemail. by subst form1. }
  destruct (_bind_input_attrs _ _ _ _ _ _ Hfield Hbind) as (_ & _ & _ & Hfalsy).
  split.
  - intros Hlen. rewrite Hinstance. simpl.
    apply Nat.eqb_eq in Hlen as Hlen'. rewrite Hlen'. split; [done |].
    apply Hfalsy. unfold bound_initial. rewrite Hdata, Hpost. simpl.
    by rewrite Hlen'.
  - intros Hlen Hne. rewrite Hinstance. simpl.
    apply Nat.eqb_neq in Hlen as Hlen'. rewrite Hlen'. split; [done |].
    rewrite (_bind_input_field _ _ _ _ _ _ Hfield Hbind).
    unfold attrs_of. rewrite fields_with_fields, (get_field_alter_same _ _ _ _ Hfield).
    simpl. unfold bound_attrs, bound_initial. rewrite Hdata, Hpost. simpl.
    rewrite Hlen'. simpl.
    destruct (Participant.affiliation par) eqn:Haff; [done |]. simpl.
    apply lookup_insert_eq.
Qed.

(** ** clean_affiliation, continued *)

Lemma endswith_app_suffix (s middle suffix : string) :
  Py.endswith s (middle +:+ suffix) = true -> Py.endswith s suffix = true.
Proof.
  rewrite !endswith_iff. intros [p ->]. exists (p +:+ middle).
  induction p as [|c p IH]; [done | exact (f_equal (String c) IH)].
Qed.

(** An address at mit.edu itself passes the test the validator
    applies. *)
Lemma is_at_mit_edu_ends_with email :
  is_at_mit_edu email = true -> ends_with_mit_edu email = true.
Proof. apply (endswith_app_suffix _ "@" "mit.edu"). Qed.

(** X6.  A verified address at mit.edu is enough: whatever the cleaned
    affiliation is, a form that holds such an address gets the
    affiliation back and never the [lacks_mit_email] error. *)
Theorem clean_affiliation_at_mit_edu_suffices (self : ParticipantForm) affiliation email :
  cleaned_data (participant_form self) !! "affiliation" = Some affiliation ->
  email ∈ verified_emails self ->
  is_at_mit_edu email = true ->
  clean_affiliation self = Return affiliation.
Proof.
  intros Hcd Hin Hat. rewrite (clean_affiliation_cases _ affiliation Hcd).
  assert (existsb ends_with_mit_edu (verified_emails self) = true) as ->.
  { apply existsb_exists. exists email. split.
    - by apply list_elem_of_In.
    - by apply is_at_mit_edu_ends_with. }
  by rewrite andb_false_r.
Qed.

(** X7.  The letter case of the verified addresses does not matter:
    two forms with the same cleaned data whose address lists agree
    once lower-cased give the same result. *)
Theorem clean_affiliation_ignores_case (form : Form Participant.t) emails emails' :
  map Py.lower emails = map Py.lower emails' ->
  clean_affiliation {| participant_form := form; verified_emails := emails |}
  = clean_affiliation {| participant_form := form; verified_emails := emails' |}.
Proof.
  intros Hlower.
  assert (forall l, existsb (fun email => Py.endswith (Py.lower email) "mit.edu") l
                    = existsb (fun lowered => Py.endswith lowered "mit.edu")
                        (map Py.lower l)) as Hmap.
  { induction l as [|e l IH]; simpl; [done | by rewrite IH]. }
  unfold clean_affiliation. simpl. by rewrite !Hmap, Hlower.
Qed.

End ParticipantFormMore.

(** ** TripForm, continued *)

Lemma get_field_alter_eq `{Enums} (name : string) (g : Field -> Field) (fs : Fields) :
  get_field name (alter_field name g fs) = g <$> get_field name fs.
Proof. rewrite get_field_alter. by rewrite decide_True. Qed.

(** Every monadic step of a constructor as a hypothesis of its own. *)
Ltac bind_steps H :=
  repeat match type of H with
         | (_ ≫= _) = Return _ => bind_inv H
         | (let '(_, _) := ?x in _) = Return _ => destruct x
         end.

(** Each step that is an assignment to a field, as an equation on the
    form it yields. *)
Ltac expose_steps :=
  repeat match goal with
         | Hs : on_field _ _ _ = Return _ |- _ => apply on_field_inv in Hs
         | Hs : _init_wimp _ = Return _ |- _ =>
             let g := fresh "wimp_attrs" in apply _init_wimp_inv in Hs as [g Hs]
         | Hs : _bind_input _ _ _ _ = Return _ |- _ =>
             let g := fresh "bound" in
             let Hg := fresh "H" g in
             apply _bind_input_inv in Hs as (g & Hg & Hs)
         | Hs : Return _ = Return _ |- _ => injection Hs as Hs
         | Hs : Return (_, _) = Return (_, _) |- _ => injection Hs as Hs ?
         end.

Section TripFormMore.
Context `{Enums} `{!Affiliations} `{!Models} `{!Membership} `{!Widgets}.

(** X8.  When [clean] finds selected leaders who may not lead, the
    form gets one more error on [leaders] that names them, in the order
    they were selected, and the [leaders] entry leaves the cleaned
    data; every other cleaned entry, every other error list and the
    fields are as before. *)
Theorem TripForm_clean_error_effect (self : TripForm) program p selected :
  cleaned_data self !! "program" = Some program ->
  Program_call program = Return p ->
  cleaned_data self !! "leaders" = Some (VLeaders selected) ->
  "leaders" ∈ field_names (fields self) ->
  lacking_privs p (checked_leaders (instance self) selected) <> [] ->
  exists self',
    TripForm_clean self = Return self'
    /\ cleaned_data self' = delete "leaders" (cleaned_data self)
    /\ cleaned_data self' !! "program" = Some program
    /\ errors self' !! "leaders"
       = Some (default [] (errors self !! "leaders")
               ++ [Py.join ", "
                     (map Participant.name
                        (lacking_privs p (checked_leaders (instance self) selected)))
                   +:+ " can't lead " +:+ Program_label p +:+ " trips"])%list
    /\ (forall k, k <> "leaders" -> errors self' !! k = errors self !! k)
    /\ fields self' = fields self
    /\ instance self' = instance self.
Proof.
  intros Hprogram Hp Hleaders Hfield Hlacking.
  rewrite (TripForm_clean_checked self program p selected Hprogram Hp Hleaders).
  destruct (lacking_privs p (checked_leaders (instance self) selected))
    as [|par rest] eqn:Hlack; [done |].
  unfold add_error. destruct (names_get_field _ _ Hfield) as [f ->].
  exists (with_cleaned_data (delete "leaders" (cleaned_data self))
            (with_errors
               (<["leaders" := (default [] (errors self !! "leaders")
                                ++ [cant_lead_message p (par :: rest)])%list]>
                  (errors self))
               self)).
  split; [by destruct (errors self !! "leaders") |]. simpl.
  split; [done |]. split; [by rewrite lookup_delete_ne |].
  split; [apply lookup_insert_eq |]. split; [| done].
  intros k Hk. by rewrite lookup_insert_ne.
Qed.

(** *** _allowed_program_choices *)

Lemma valid_choices_spec allowed (choices : list (string * string)) valid :
  valid_choices allowed choices = Return valid ->
  forall v label,
    (v, label) ∈ valid
    <-> exists value p,
          v = VStr value /\ (value, label) ∈ choices
          /\ Program_of_value value = Some p /\ p ∈ allowed.
Proof.
  revert valid. induction choices as [|[value0 label0] rest IH]; simpl; intros valid Hv.
  - injection Hv as <-. intros v label. split.
    + intros Hin. by apply elem_of_nil in Hin.
    + intros (? & ? & _ & Hin & _). by apply elem_of_nil in Hin.
  - unfold Program_call in Hv.
    destruct (Program_of_value value0) as [p0|] eqn:Hp0; [| discriminate].
    simpl in Hv. bind_inv Hv. injection Hv as <-.
    specialize (IH step Hstep). intros v label.
    case_bool_decide as Hallowed.
    + rewrite elem_of_cons, IH. split.
      * intros [[= -> ->] | (value & p & -> & Hin & Hp & Ha)].
        -- exists value0, p0. repeat split; try done. left.
        -- exists value, p. repeat split; try done. by right.
      * intros (value & p & -> & Hin & Hp & Ha).
        apply elem_of_cons in Hin as [[= -> ->] | Hin]; [by left |].
        right. by exists value, p.
    + rewrite IH. split.
      * intros (value & p & -> & Hin & Hp & Ha).
        exists value, p. repeat split; try done. by right.
      * intros (value & p & -> & Hin & Hp & Ha).
        apply elem_of_cons in Hin as [[= -> ->] | Hin].
        -- exfalso. apply Hallowed. congruence.
        -- by exists value, p.
Qed.

Lemma program_categories_spec allowed categories result :
  program_categories allowed categories = Return result ->
  (forall c, c ∈ result ->
             exists category choices valid,
               c = Group category valid /\ valid <> []
               /\ (category, choices) ∈ categories
               /\ valid_choices allowed choices = Return valid)
  /\ (forall category choices,
        (category, choices) ∈ categories ->
        exists valid, valid_choices allowed choices = Return valid
                      /\ (valid <> [] -> Group category valid ∈ result)).
Proof.
  revert result.
  induction categories as [|[category0 choices0] rest IH]; simpl; intros result Hr.
  - injection Hr as <-. split.
    + intros c Hc. by apply elem_of_nil in Hc.
    + intros ? ? Hin. by apply elem_of_nil in Hin.
  - bind_inv Hr. bind_inv Hr. injection Hr as <-.
    destruct (IH step0 Hstep0) as [IHsound IHcomplete]. split.
    + intros c Hc.
      assert (c ∈ step0
              \/ (c = Group category0 step /\ step <> [])) as [Hin | [-> Hne]].
      { destruct step; [by left |].
        apply elem_of_cons in Hc as [-> | Hc]; [by right | by left]. }
      * destruct (IHsound c Hin) as (category & choices & valid & -> & ? & ? & ?).
        exists category, choices, valid. repeat split; try done. by right.
      * exists category0, choices0, step. repeat split; try done. left.
    + intros category choices Hin.
      apply elem_of_cons in Hin as [[= -> ->] | Hin].
      * exists step. split; [done |]. intros Hne.
        destruct step; [done | left].
      * destruct (IHcomplete category choices Hin) as (valid & Hvalid & Hgroup).
        exists valid. split; [done |]. intros Hne.
        destruct step; [by apply Hgroup | right; by apply Hgroup].
Qed.

(** X9.  The program choices a TripForm offers are groups of
    [Program.choices()], none of them empty: every offered group
    carries the name of a listed category, and its options are
    exactly the choices listed in that category whose program is
    among the allowed ones or is the program the trip already has.
    Every listed choice with such a program is offered under its
    category. *)
Theorem _allowed_program_choices_offered (self : TripForm) allowed offered :
  _allowed_program_choices self allowed = Return offered ->
  (forall c, c ∈ offered ->
             exists category choices options,
               c = Group category options /\ options <> []
               /\ (category, choices) ∈ Program_choices
               /\ forall v label,
                    (v, label) ∈ options
                    <-> exists value p,
                          v = VStr value /\ (value, label) ∈ choices
                          /\ Program_of_value value = Some p
                          /\ (p ∈ allowed
                              \/ p = Trip.program_enum (instance self)))
  /\ (forall category choices value label p,
        (category, choices) ∈ Program_choices ->
        (value, label) ∈ choices ->
        Program_of_value value = Some p ->
        p ∈ allowed \/ p = Trip.program_enum (instance self) ->
        exists options, Group category options ∈ offered
                        /\ (VStr value, label) ∈ options).
Proof.
  unfold _allowed_program_choices.
  set (allowed' := if bool_decide (Trip.program_enum (instance self) ∈ allowed)
                   then allowed
                   else Trip.program_enum (instance self) :: allowed).
  assert (forall p, p ∈ allowed'
                    <-> p ∈ allowed \/ p = Trip.program_enum (instance self)) as Hallowed.
  { intros p. unfold allowed'. case_bool_decide as Hin.
    - split; [by left | by intros [? | ->]].
    - rewrite elem_of_cons. tauto. }
  intros Hoffered.
  destruct (program_categories_spec _ _ _ Hoffered) as [Hsound Hcomplete].
  split.
  - intros c Hc.
    destruct (Hsound c Hc) as (category & choices & valid & -> & Hne & Hlisted & Hv).
    exists category, choices, valid. repeat split; try done.
    + intros Hin.
      apply (valid_choices_spec _ _ _ Hv) in Hin as (value & p & -> & Hin & Hp & Ha).
      exists value, p. repeat split; try done. by apply Hallowed.
    + intros (value & p & -> & Hin & Hp & Ha).
      apply (valid_choices_spec _ _ _ Hv). exists value, p.
      repeat split; try done. by apply Hallowed.
  - intros category choices value label p Hlisted Hin Hp Ha.
    destruct (Hcomplete category choices Hlisted) as (valid & Hv & Hgroup).
    assert ((VStr value, label) ∈ valid) as Hvalid.
    { apply (valid_choices_spec _ _ _ Hv). exists value, p.
      repeat split; try done. by apply Hallowed. }
    exists valid. split; [| done]. apply Hgroup.
    intros ->. by apply elem_of_nil in Hvalid.
Qed.

End TripFormMore.

(** ** TripForm.__init__, continued *)

Ltac expose_fields :=
  repeat match goal with
         | Hs : on_field _ _ _ = Return _ |- _ => apply on_field_inv in Hs
         | Hs : _init_wimp _ = Return _ |- _ =>
             let g := fresh "wimp_attrs" in apply _init_wimp_inv in Hs as [g Hs]
         | Hs : Return _ = Return _ |- _ => injection Hs as Hs
         | Hs : Return (_, _) = Return (_, _) |- _ => injection Hs as Hs ?
         end.

Ltac split_branches :=
  repeat match goal with
         | Hs : match ?x with Some _ => _ | None => _ end = Return _ |- _ =>
             destruct x eqn:?; bind_steps Hs
         end.

Section TripFormInitMore.
Context `{Enums} `{!Affiliations} `{!Models} `{!Membership} `{!Widgets}.

(** X11.  Construction leaves every field other than [summary],
    [leaders], [winter_terrain_level], [program], [wimp], [algorithm]
    and the three date fields exactly as the model form built it, and
    [summary] is never required. *)
Theorem TripForm_init_frame now allowed post kw trip (self : TripForm) :
  TripForm_init now allowed post kw trip = Return self ->
  required_flag "summary" self = Some false
  /\ (forall k,
        k ∉ ["summary"; "leaders"; "winter_terrain_level"; "program"; "wimp";
             "algorithm"; "trip_date"; "signups_open_at"; "signups_close_at"] ->
        get_field k (fields self)
        = get_field k (fields (ModelForm_init Trip_formfield TripForm_Meta
                                 post kw trip))).
Proof.
  intros Hinit. unfold TripForm_init in Hinit. cbv zeta in Hinit.
  set (self0 := ModelForm_init _ _ _ _ _ : TripForm) in *.
  bind_steps Hinit. split_branches. all: expose_steps; subst.
  all: split.
  all: try (unfold required_flag; cbn [fields with_fields];
            repeat rewrite get_field_alter_ne by discriminate;
            rewrite get_field_alter_eq; reflexivity).
  all: intros k Hk; cbn [fields with_fields];
    repeat (rewrite get_field_alter_ne; [| intros <-; apply Hk; in_list]);
    reflexivity.
Qed.

End TripFormInitMore.

Section TripFormDates.
Context `{Enums} `{!Affiliations} `{!Models} `{!Membership} `{!Widgets}.

Lemma attrs_after_set_attr (fs : Fields) (k key : string) (v : Value) :
  k ∈ field_names fs ->
  (((fun f => attrs (widget f)) <$> get_field k (alter_field k (set_attr key v) fs))
     ≫= lookup key) = Some v.
Proof.
  intros Hin. destruct (names_get_field _ _ Hin) as [f Hf].
  rewrite (get_field_alter_same _ _ _ _ Hf). simpl. apply lookup_insert_eq.
Qed.

(** X10.  A form for a trip that is not yet saved asks for dates in
    the future: [trip_date] gets the minimum of today and the two
    signup times the minimum of the current minute.  On a form for a
    saved trip the three fields are as the model form built them. *)
Theorem TripForm_init_minimum_dates now allowed post kw trip (self : TripForm) :
  TripForm_init now allowed post kw trip = Return self ->
  (Trip.pk trip = None ->
   (attrs_of "trip_date" self ≫= lookup "min") = Some (VStr (today_iso now))
   /\ (attrs_of "signups_open_at" self ≫= lookup "min") = Some (VStr (naive_iso_now now))
   /\ (attrs_of "signups_close_at" self ≫= lookup "min")
      = Some (VStr (naive_iso_now now)))
  /\ (is_Some (Trip.pk trip) ->
      forall k, k ∈ ["trip_date"; "signups_open_at"; "signups_close_at"] ->
                get_field k (fields self)
                = get_field k (fields (ModelForm_init Trip_formfield TripForm_Meta
                                         post kw trip))).
Proof.
  intros Hinit. unfold TripForm_init in Hinit. cbv zeta in Hinit.
  set (self0 := ModelForm_init _ _ _ _ _ : TripForm) in *.
  assert (field_names (fields self0) = meta_fields TripForm_Meta) as Hnames
      by apply ModelForm_init_names.
  clearbody self0.
  bind_steps Hinit. split_branches. all: expose_steps; subst.
  all: split; [intros Hpk | intros [? Hpk]]; try discriminate.
  all: unfold attrs_of; cbn [fields with_fields].
  all: try (intros k Hk; rewrite !elem_of_cons in Hk; rewrite elem_of_nil in Hk;
    destruct Hk as [-> | [-> | [-> | []]]];
    repeat rewrite get_field_alter_ne by discriminate; reflexivity).
  all: repeat split; repeat rewrite get_field_alter_ne by discriminate;
    apply attrs_after_set_attr; rewrite ?field_names_alter, Hnames; simpl; in_list.
Qed.
End TripFormDates.

Section TripFormProgramBinding.
Context `{Enums} `{!Affiliations} `{!Models} `{!Membership} `{!Widgets}.

Lemma _bind_input_Some {I} (form form' : Form I) name initial_arg model_name :
  _bind_input form name initial_arg model_name = Return form' ->
  is_Some (get_field name (fields form)).
Proof.
  intros Hb. destruct (get_field name (fields form)) eqn:Hf; [by eexists |].
  rewrite (_bind_input_KeyError form name initial_arg model_name Hf) in Hb.
  discriminate.
Qed.

Lemma on_field_data {I} (name : string) (g : Field -> Field) (form form' : Form I) :
  on_field name g form = Return form' -> data form' = data form.
Proof. intros Hon. apply on_field_inv in Hon. by subst. Qed.

Lemma _init_wimp_data (self self' : TripForm) :
  _init_wimp self = Return self' -> data self' = data self.
Proof. intros Hw. apply _init_wimp_inv in Hw as [g ->]. done. Qed.

(** What a constructed TripForm announces for [program] when nothing
    was submitted for it, given the value [__init__] settles on. *)
Lemma program_announced (s s' self : TripForm) (value algorithm : string) :
  data s !! "program" = None ->
  value <> "" ->
  _bind_input s "program" (VStr value) None = Return s' ->
  _bind_input s' "algorithm" (VStr algorithm) None = Return self ->
  (attrs_of "program" self ≫= lookup "data-ng-init")
  = Some (VStr ("program = '" +:+ value +:+ "'")).
Proof.
  intros Hdata Hvalue Hprogram Halgorithm. unfold attrs_of.
  rewrite (_bind_input_other _ _ _ _ _ Halgorithm "program") by discriminate.
  destruct (_bind_input_Some _ _ _ _ _ Hprogram) as [f Hf].
  rewrite (_bind_input_field _ _ _ _ _ _ Hf Hprogram).
  rewrite fields_with_fields, (get_field_alter_same _ _ _ _ Hf). simpl.
  unfold bound_attrs, bound_initial. rewrite Hdata.
  destruct value; [done |]. simpl. apply lookup_insert_eq.
Qed.

Ltac data_back :=
  repeat match goal with
         | Hs : on_field _ _ ?a = Return ?b |- context [data ?b] =>
             rewrite (on_field_data _ _ _ _ Hs)
         | Hs : _init_wimp ?a = Return ?b |- context [data ?b] =>
             rewrite (_init_wimp_data _ _ Hs)
         | Hs : Return ?a = Return ?b |- context [data ?b] =>
             injection Hs as <-
         end.

(** X12.  With nothing submitted for [program], a form for a saved
    trip (primary key not 0) announces the trip's own program to the
    page, and a form for a new trip, built during IAP with
    WINTER_SCHOOL among the allowed programs, announces the Winter
    School program. *)
Theorem TripForm_init_program_default now allowed post kw trip (self : TripForm) :
  TripForm_init now allowed post kw trip = Return self ->
  post !! "program" = None ->
  (forall k,
     Trip.pk trip = Some k -> k <> 0 ->
     Program_value (Trip.program_enum trip) <> "" ->
     (attrs_of "program" self ≫= lookup "data-ng-init")
     = Some (VStr ("program = '" +:+ Program_value (Trip.program_enum trip) +:+ "'")))
  /\ (forall programs,
        allowed = Some programs -> WINTER_SCHOOL ∈ programs ->
        is_currently_iap now = true ->
        Trip.pk trip = None ->
        Program_value WINTER_SCHOOL <> "" ->
        (attrs_of "program" self ≫= lookup "data-ng-init")
        = Some (VStr ("program = '" +:+ Program_value WINTER_SCHOOL +:+ "'"))).
Proof.
  intros Hinit Hpost. unfold TripForm_init in Hinit. cbv zeta in Hinit.
  set (self0 := ModelForm_init _ _ _ _ _ : TripForm) in *.
  assert (data self0 = post) as Hdata0 by reflexivity.
  clearbody self0.
  bind_steps Hinit. split_branches.
  all: repeat match goal with
              | Hs : Return (_, _) = Return (_, _) |- _ => injection Hs as <- <-
              | Hs : Return _ = Return _ |- _ => injection Hs as <-
              end.
  all: match goal with
       | Hp : _bind_input ?s "program" _ None = Return _ |- _ =>
           assert (data s !! "program" = None) as Hdata
               by (data_back; by rewrite Hdata0)
       end.
  all: split;
    [ intros k Hk Hk0 Hvalue | intros programs Hallowed Hws Hiap Hpk Hvalue ];
    try discriminate.
  all: try (injection Hk as <-; apply Z.eqb_neq in Hk0).
  all: try (injection Hallowed as <-).
  all: match goal with
       | Hp : _bind_input ?s "program" ?v None = Return ?s',
         Ha : _bind_input ?s' "algorithm" _ None = Return _ |- _ =>
           eapply (program_announced s s'); [exact Hdata | exact Hvalue | | exact Ha];
           try rewrite Hk0 in Hp;
           try rewrite (bool_decide_eq_true_2 _ Hws), Hiap in Hp;
           simpl in Hp; try rewrite Hk0 in Hp; try rewrite andb_false_r in Hp;
           exact Hp
       end.
Qed.

End TripFormProgramBinding.

(** ** SignUpForm, continued *)

Section SignUpFormMore.
Context `{Enums} `{!Affiliations} `{!Models} `{!Membership} `{!Widgets}.

(** X13.  When the form's initial data holds a trip with notes, the
    [notes] field of a SignUpForm becomes required, shows the trip's
    notes as placeholder, and is as many rows high as the trip's notes
    have lines, but never fewer than four.  Without a trip, or with a
    trip without notes, the form is the plain model form; and an
    initial [trip] that is a non-zero integer (a primary key instead
    of the trip) makes construction fail with [AttributeError]. *)
Theorem SignUpForm_init_notes post kw signup :
  (forall trip,
     kw !! "trip" = Some (VTrip trip) -> Trip.notes trip <> "" ->
     exists self,
       SignUpForm_init post kw signup = Return self
       /\ required_flag "notes" self = Some true
       /\ (attrs_of "notes" self ≫= lookup "placeholder") = Some (VStr (Trip.notes trip))
       /\ exists rows,
            (attrs_of "notes" self ≫= lookup "rows") = Some (VInt rows)
            /\ rows = Z.max 4 (Py.count_char (ascii_of_N 10) (Trip.notes trip) + 1)
            /\ 4 <= rows)
  /\ (kw !! "trip" = None
      \/ (exists trip, kw !! "trip" = Some (VTrip trip) /\ Trip.notes trip = "") ->
      SignUpForm_init post kw signup
      = Return (ModelForm_init SignUp_formfield SignUpForm_Meta post kw signup))
  /\ (forall k,
        kw !! "trip" = Some (VInt k) -> k <> 0 ->
        exists what, SignUpForm_init post kw signup = Raise (AttributeError what)).
Proof.
  unfold SignUpForm_init. cbv zeta. simpl form_initial. split; [| split].
  - intros trip -> Hnotes. simpl.
    destruct (Trip.notes trip) as [|c rest] eqn:Hn; [done |]. simpl Py.nonempty. cbv iota.
    eexists. split; [reflexivity |]. split; [reflexivity |]. split.
    + unfold attrs_of. simpl. rewrite lookup_insert_ne by done. apply lookup_insert_eq.
    + eexists. split; [| split; [reflexivity | lia]].
      unfold attrs_of. simpl. apply lookup_insert_eq.
  - intros [-> | (trip & -> & Hnotes)]; simpl; [done |]. by rewrite Hnotes.
  - intros k -> Hk. simpl. apply Z.eqb_neq in Hk. rewrite Hk. simpl. by eexists.
Qed.

End SignUpFormMore.

(** ** clean_notes, continued *)

Lemma lstrip_split (s : string) :
  exists pre, s = pre +:+ Py.lstrip s /\ all_space pre.
Proof.
  induction s as [|c s (pre & IH & Hpre)]; simpl.
  - exists "". split; [done | intros ? []].
  - destruct (Py.isspace c) eqn:Hc.
    + exists (String c pre). split; [exact (f_equal (String c) IH) |].
      intros c' [<- | Hin]; [done | by apply Hpre].
    + exists "". split; [done | intros ? []].
Qed.

Lemma lstrip_starts (s : string) : starts_with_space (Py.lstrip s) = false.
Proof.
  induction s as [|c s IH]; simpl; [done |].
  destruct (Py.isspace c) eqn:Hc; [exact IH | exact Hc].
Qed.

Lemma rstrip_split (s : string) :
  exists post, s = Py.rstrip s +:+ post /\ all_space post.
Proof.
  induction s as [|c s (post & IH & Hpost)]; simpl.
  - exists "". split; [done | intros ? []].
  - destruct (Py.rstrip s) as [|k kept] eqn:Hr.
    + change (s = post) in IH. subst post. destruct (Py.isspace c) eqn:Hc.
      * exists (String c s). split; [done |].
        intros c' [<- | Hin]; [done | by apply Hpost].
      * exists s. split; [done | exact Hpost].
    + exists post. split; [exact (f_equal (String c) IH) | exact Hpost].
Qed.

Lemma rstrip_ends (s : string) : ends_with_space (Py.rstrip s) = false.
Proof.
  induction s as [|c s IH]; simpl; [done |].
  destruct (Py.rstrip s) as [|k kept] eqn:Hr.
  - destruct (Py.isspace c) eqn:Hc; [done | exact Hc].
  - exact IH.
Qed.

Lemma rstrip_starts (s : string) :
  starts_with_space s = false -> starts_with_space (Py.rstrip s) = false.
Proof.
  destruct s as [|c s]; simpl; [done |]. intros Hc.
  destruct (Py.rstrip s); [by rewrite Hc | exact Hc].
Qed.

(** [strip] removes whitespace at both ends and nothing else. *)
Lemma strip_split (s : string) :
  exists pre post,
    s = pre +:+ Py.strip s +:+ post
    /\ all_space pre /\ all_space post
    /\ starts_with_space (Py.strip s) = false
    /\ ends_with_space (Py.strip s) = false.
Proof.
  destruct (lstrip_split s) as (pre & Hs & Hpre).
  destruct (rstrip_split (Py.lstrip s)) as (post & Hl & Hpost).
  exists pre, post. unfold Py.strip. split; [| split; [done | split; [done | split]]].
  - by rewrite <- Hl.
  - apply rstrip_starts, lstrip_starts.
  - apply rstrip_ends.
Qed.

Section SignUpNotes.
Context `{Enums} `{!Affiliations} `{!Models} `{!Membership} `{!Widgets}.

(** X14.  Whatever [clean_notes] returns is the submitted text without
    the whitespace around it: the submitted notes are the returned
    notes between two runs of whitespace, and the returned notes
    neither begin nor end with a whitespace character. *)
Theorem clean_notes_trimmed (self : SignUpForm) (notes result : string) :
  cleaned_data self !! "notes" = Some (VStr notes) ->
  clean_notes self = Return result ->
  exists pre post,
    notes = pre +:+ result +:+ post
    /\ all_space pre /\ all_space post
    /\ starts_with_space result = false
    /\ ends_with_space result = false.
Proof.
  intros Hnotes Hclean.
  assert (result = Py.strip notes) as ->.
  { unfold clean_notes, cleaned in Hclean. rewrite Hnotes in Hclean. simpl in Hclean.
    destruct (cleaned_data self !! "trip") as [[| | | | trip |]|];
      try discriminate; [| congruence].
    destruct (_ && _); [discriminate | congruence]. }
  apply strip_split.
Qed.

End SignUpNotes.

(** ** LotteryInfoForm and ApplicationLeaderForm *)

Section BoundFormsProperties.
Context `{Enums} `{!RatingModels}.

Lemma _bind_input_data {I} (form form' : Form I) name initial_arg model_name :
  _bind_input form name initial_arg model_name = Return form' ->
  data form' = data form.
Proof. intros Hb. by destruct (_bind_input_same_but_attrs _ _ _ _ _ Hb) as [(-> & _) _]. Qed.

(** X15.  The number of passengers of a saved LotteryInfo is announced
    to the page as a quoted decimal when nothing else was submitted,
    except that the number 0 is not announced at all; the bounds 0 and
    13 stay on the input either way. *)
Theorem LotteryInfoForm_init_passengers post kw info (self : LotteryInfoForm) n :
  LotteryInfoForm_init post kw info = Return self ->
  post !! "number_of_passengers" = None ->
  LotteryInfo.number_of_passengers info = Some n ->
  (attrs_of "number_of_passengers" self ≫= lookup "min") = Some (VInt 0)
  /\ (attrs_of "number_of_passengers" self ≫= lookup "max") = Some (VInt 13)
  /\ (attrs_of "number_of_passengers" self ≫= lookup "data-ng-model")
     = Some (VStr "number_of_passengers")
  /\ (attrs_of "number_of_passengers" self ≫= lookup "data-ng-init")
     = if n =? 0 then None
       else Some (VStr ("number_of_passengers = '" +:+ pretty n +:+ "'")).
Proof.
  intros Hinit Hpost Hn. unfold LotteryInfoForm_init in Hinit. cbv zeta in Hinit.
  simpl foldl in Hinit.
  set (self0 := ModelForm_init _ _ _ _ _ : LotteryInfoForm) in *.
  bind_steps Hinit. rename Hstep into Hcar, step into step1.
  assert (get_field "number_of_passengers" (fields step1)
          = Some (set_widget (make_widget "NumberInput" [("min", VInt 0); ("max", VInt 13)])
                    (LotteryInfo_formfield "number_of_passengers"))) as Hf.
  { by rewrite (_bind_input_other _ _ _ _ _ Hcar "number_of_passengers") by discriminate. }
  assert (data step1 = post) as Hdata by (by rewrite (_bind_input_data _ _ _ _ _ Hcar)).
  assert (instance step1 = info) as Hinfo.
  { by destruct (_bind_input_same_but_attrs _ _ _ _ _ Hcar) as [(_ & -> & _) _]. }
  rewrite (_bind_input_field _ _ _ _ _ _ Hf Hinit).
  unfold attrs_of. rewrite fields_with_fields, (get_field_alter_same _ _ _ _ Hf).
  simpl. unfold bound_attrs, bound_initial. rewrite Hdata, Hpost, Hinfo.
  unfold LotteryInfo_getattr. simpl. rewrite Hn. simpl.
  destruct (n =? 0) eqn:Hn0; simpl; repeat split.
  all: repeat first [ rewrite lookup_insert_eq
                    | rewrite lookup_insert_ne by done
                    | rewrite lookup_empty ]; done.
Qed.

(** X16.  ApplicationLeaderForm has the fields [rating], [notes] and
    [is_recommendation], in this order, and binds the last one under
    the name [is_rec].  With nothing submitted for it, the page is
    told [is_rec = true] when the initial data marks a recommendation,
    and nothing when the initial data has no such entry or has False;
    the field itself is never required. *)
Theorem ApplicationLeaderForm_init_is_rec {I} post kw (rating : I) (self : Form I) :
  ApplicationLeaderForm_init post kw rating = Return self ->
  field_names (fields self) = ["rating"; "notes"; "is_recommendation"]
  /\ required_flag "is_recommendation" self = Some false
  /\ (attrs_of "is_recommendation" self ≫= lookup "data-ng-model") = Some (VStr "is_rec")
  /\ (post !! "is_recommendation" = None ->
      (kw !! "is_recommendation" = Some (VBool true) ->
       attrs_of "is_recommendation" self
       = Some {[ "data-ng-model" := VStr "is_rec";
                 "data-ng-init" := VStr "is_rec = true" ]})
      /\ (kw !! "is_recommendation" = None
          \/ kw !! "is_recommendation" = Some (VBool false) ->
          attrs_of "is_recommendation" self = Some {[ "data-ng-model" := VStr "is_rec" ]})).
Proof.
  intros Hinit. unfold ApplicationLeaderForm_init in Hinit. cbv zeta in Hinit.
  set (self0 := with_fields _ _) in *.
  assert (get_field "is_recommendation" (fields self0) = Some is_recommendation_field)
    as Hf by reflexivity.
  rewrite (_bind_input_field _ _ _ _ _ _ Hf Hinit).
  unfold attrs_of, required_flag.
  rewrite fields_with_fields, field_names_alter, (get_field_alter_same _ _ _ _ Hf).
  split; [reflexivity |]. split; [reflexivity |]. simpl. split.
  - unfold bound_attrs. destruct (truthy _); [destruct (js_expr _) |];
      rewrite ?lookup_insert_ne by done; apply lookup_insert_eq.
  - intros Hpost. unfold bound_attrs, bound_initial.
    change (data self0) with post. change (form_initial self0) with kw.
    rewrite Hpost. split.
    + intros ->. reflexivity.
    + intros [-> | ->]; simpl; reflexivity.
Qed.

End BoundFormsProperties.

(** ** DuesForm, continued *)

Section DuesFormMore.
Context `{Enums} `{!Affiliations} `{!Models} `{!Membership} `{!Widgets}.

(** Binding an input keeps whatever of a field does not depend on the
    widget attributes. *)
Lemma _bind_input_keeps {I A} (proj : Field -> A) (form form' : Form I)
    name initial_arg model_name :
  (forall a f, proj (set_attrs a f) = proj f) ->
  _bind_input form name initial_arg model_name = Return form' ->
  forall k, proj <$> get_field k (fields form') = proj <$> get_field k (fields form).
Proof.
  intros Hproj Hb k.
  destruct (_bind_input_same_but_attrs _ _ _ _ _ Hb) as [(_ & _ & _ & _ & _ & _ & Hother & Hsame) _].
  destruct (decide (k = name)) as [-> | Hk]; [| by rewrite Hother].
  destruct (get_field name (fields form)) as [f|] eqn:Hf.
  - destruct (Hsame f eq_refl) as [a ->]. simpl. by rewrite Hproj.
  - rewrite (_bind_input_KeyError _ _ _ _ Hf) in Hb. discriminate.
Qed.

Ltac unwind :=
  repeat match goal with
         | Heq : ?x = with_fields _ _ |- context [?x] => rewrite Heq
         end.

Lemma _bind_input_form_data {I} (form form' : Form I) name initial_arg model_name :
  _bind_input form name initial_arg model_name = Return form' ->
  data form' = data form.
Proof. intros Hb. by destruct (_bind_input_same_but_attrs _ _ _ _ _ Hb) as [(-> & _) _]. Qed.

(** What the page is told about [amount], from the field as it is
    before the last binding. *)
Lemma amount_announced (s self : DuesForm) f :
  get_field "amount" (fields s) = Some f ->
  data s !! "amount" = None ->
  _bind_input s "amount" VNone None = Return self ->
  attrs_of "amount" self
  = Some (bound_attrs "amount" (initial f) (attrs (widget f))).
Proof.
  intros Hf Hdata Hb.
  rewrite (_bind_input_field _ _ _ _ _ _ Hf Hb).
  unfold attrs_of. rewrite fields_with_fields, (get_field_alter_same _ _ _ _ Hf).
  simpl. unfold bound_initial. by rewrite Hdata.
Qed.

(** X17.  For a known participant DuesForm starts from the
    participant's email, name, affiliation and annual dues; the
    affiliation select offers the affiliation codes and the amount
    select the amounts; and with nothing submitted the page is told
    the dues as [amount = 'dues'], unless the dues are 0. *)
Theorem DuesForm_init_participant par post kw (self : DuesForm) :
  DuesForm_init (Some par) post kw = Return self ->
  initial <$> get_field "merchantDefinedData3" (fields self)
  = Some (VStr (Participant.email par))
  /\ initial <$> get_field "merchantDefinedData4" (fields self)
     = Some (VStr (Participant.name par))
  /\ initial <$> get_field "merchantDefinedData2" (fields self)
     = Some (VStr (Participant.affiliation par))
  /\ initial <$> get_field "amount" (fields self)
     = Some (VInt (Participant.annual_dues par))
  /\ choices <$> get_field "merchantDefinedData2" (fields self)
     = Some (amount_choices false)
  /\ choices <$> get_field "amount" (fields self) = Some (amount_choices true)
  /\ (post !! "amount" = None ->
      (attrs_of "amount" self ≫= lookup "data-ng-init")
      = if Participant.annual_dues par =? 0 then None
        else Some (VStr ("amount = '" +:+ pretty (Participant.annual_dues par) +:+ "'"))).
Proof.
  intros Hinit. unfold DuesForm_init in Hinit. cbv beta iota zeta in Hinit.
  bind_steps Hinit.
  repeat match goal with
         | Hs : (_ ≫= _) = Return _ |- _ => bind_inv Hs
         end.
  expose_fields.
  repeat match goal with
         | Heq : ?a = ?b |- _ => is_var a; is_var b; subst b
         end.
  match goal with
  | H2 : _bind_input ?a "merchantDefinedData2" _ _ = Return ?b,
    H3 : _bind_input ?b "merchantDefinedData3" _ _ = Return ?c |- _ =>
      rename H2 into Hbind2, H3 into Hbind3, Hinit into Hbind_amount;
      rename c into bound, a into s
  end.
  assert (forall {A} (proj : Field -> A),
             (forall a f, proj (set_attrs a f) = proj f) ->
             forall k, proj <$> get_field k (fields self) = proj <$> get_field k (fields s))
    as Hkeeps.
  { intros A proj Hproj k.
    rewrite (_bind_input_keeps proj _ _ _ _ _ Hproj Hbind_amount),
      (_bind_input_keeps proj _ _ _ _ _ Hproj Hbind3),
      (_bind_input_keeps proj _ _ _ _ _ Hproj Hbind2). done. }
  rewrite !(Hkeeps _ initial) by done. rewrite !(Hkeeps _ choices) by done.
  repeat (split; [unwind; reflexivity |]).
  intros Hpost.
  assert (get_field "amount" (fields bound)
          = Some (set_initial (VInt (Participant.annual_dues par))
                    (set_choices (amount_choices true)
                       (set_help_text
                          (Some "(We're showing this because you have scripts disabled)")
                          (set_label "Please confirm your affiliation"
                             (plain_field "ChoiceField" (make_widget "Select" [])))))))
    as Hf.
  { rewrite (_bind_input_other _ _ _ _ _ Hbind3 "amount") by discriminate.
    rewrite (_bind_input_other _ _ _ _ _ Hbind2 "amount") by discriminate.
    unwind. reflexivity. }
  assert (data bound !! "amount" = None) as Hdata.
  { rewrite (_bind_input_form_data _ _ _ _ _ Hbind3),
      (_bind_input_form_data _ _ _ _ _ Hbind2). unwind. exact Hpost. }
  rewrite (amount_announced _ _ _ Hf Hdata Hbind_amount). simpl.
  unfold bound_attrs. simpl.
  destruct (Participant.annual_dues par =? 0); simpl.
  - rewrite lookup_insert_ne by done. done.
  - apply lookup_insert_eq.
Qed.

(** X18.  Without a participant DuesForm starts blank: the amount is
    initially the empty string, so that with nothing submitted no
    amount is announced to the page, the email input shows the
    placeholder tim@mit.edu, and email, name and affiliation have no
    initial value. *)
Theorem DuesForm_init_anonymous post kw (self : DuesForm) :
  DuesForm_init None post kw = Return self ->
  initial <$> get_field "amount" (fields self) = Some (VStr "")
  /\ (attrs_of "merchantDefinedData3" self ≫= lookup "placeholder")
     = Some (VStr "tim@mit.edu")
  /\ initial <$> get_field "merchantDefinedData2" (fields self) = Some VNone
  /\ initial <$> get_field "merchantDefinedData3" (fields self) = Some VNone
  /\ initial <$> get_field "merchantDefinedData4" (fields self) = Some VNone
  /\ (post !! "amount" = None ->
      attrs_of "amount" self = Some {[ "data-ng-model" := VStr "amount" ]}).
Proof.
  intros Hinit. unfold DuesForm_init in Hinit. cbv beta iota zeta in Hinit.
  bind_steps Hinit.
  repeat match goal with
         | Hs : (_ ≫= _) = Return _ |- _ => bind_inv Hs
         end.
  expose_fields.
  repeat match goal with
         | Heq : ?a = ?b |- _ => is_var a; is_var b; subst b
         end.
  match goal with
  | H2 : _bind_input ?a "merchantDefinedData2" _ _ = Return ?b,
    H3 : _bind_input ?b "merchantDefinedData3" _ _ = Return ?c |- _ =>
      rename H2 into Hbind2, H3 into Hbind3, Hinit into Hbind_amount;
      rename c into bound, a into s
  end.
  assert (forall {A} (proj : Field -> A),
             (forall a f, proj (set_attrs a f) = proj f) ->
             forall k, proj <$> get_field k (fields self) = proj <$> get_field k (fields s))
    as Hkeeps.
  { intros A proj Hproj k.
    rewrite (_bind_input_keeps proj _ _ _ _ _ Hproj Hbind_amount),
      (_bind_input_keeps proj _ _ _ _ _ Hproj Hbind3),
      (_bind_input_keeps proj _ _ _ _ _ Hproj Hbind2). done. }
  rewrite !(Hkeeps _ initial) by done.
  split; [unwind; reflexivity |]. split.
  { destruct (_bind_input_same_but_attrs _ _ _ _ _ Hbind_amount) as [(_ & _ & _ & _ & _ & _ & Hother & _) _].
    unfold attrs_of. rewrite Hother by discriminate.
    destruct (_bind_input_same_but_attrs _ _ _ _ _ Hbind3) as [_ Hkeys].
    unfold attrs_of in Hkeys. rewrite Hkeys by discriminate.
    rewrite (_bind_input_other _ _ _ _ _ Hbind2 "merchantDefinedData3") by discriminate.
    unwind. reflexivity. }
  repeat (split; [unwind; reflexivity |]).
  intros Hpost.
  assert (get_field "amount" (fields bound)
          = Some (set_initial (VStr "")
                    (set_choices (amount_choices true)
                       (set_help_text
                          (Some "(We're showing this because you have scripts disabled)")
                          (set_label "Please confirm your affiliation"
                             (plain_field "ChoiceField" (make_widget "Select" [])))))))
    as Hf.
  { rewrite (_bind_input_other _ _ _ _ _ Hbind3 "amount") by discriminate.
    rewrite (_bind_input_other _ _ _ _ _ Hbind2 "amount") by discriminate.
    unwind. reflexivity. }
  assert (data bound !! "amount" = None) as Hdata.
  { rewrite (_bind_input_form_data _ _ _ _ _ Hbind3),
      (_bind_input_form_data _ _ _ _ _ Hbind2). unwind. exact Hpost. }
  rewrite (amount_announced _ _ _ Hf Hdata Hbind_amount). reflexivity.
Qed.

End DuesFormMore.

(** ** LeaderApplicationForm, continued *)

Section LeaderApplicationFormMore.
Context `{Enums} `{!Affiliations} `{!Models} `{!Membership} `{!Widgets}.


Lemma assoc_textarea (fs : list ModelField) name :
  assoc name (textarea_for fs)
  = if bool_decide
         (name ∈ map mf_name (filter (fun f => is_TextField f = true) fs))
    then Some (make_widget "Textarea" [("rows", VInt 4)]) else None.
Proof.
  induction fs as [|f fs IH]; cbn [textarea_for flat_map assoc].
  - case_bool_decide as Hin; [| done]. by apply elem_of_nil in Hin.
  - fold (textarea_for fs). rewrite filter_cons.
    destruct (is_TextField f) eqn:Ht.
    + rewrite decide_True by done. cbn [app assoc map].
      destruct (decide (mf_name f = name)) as [Hname | Hname].
      * rewrite bool_decide_true; [done |]. subst name. left.
      * rewrite IH.
        rewrite (bool_decide_ext _ (name ∈ mf_name f :: map mf_name
                   (filter (fun f => is_TextField f = true) fs))); [done |].
        rewrite elem_of_cons. split; [by right |]. by intros [-> | ?].
    + rewrite decide_False by done. exact IH.
Qed.

Lemma insert_field_Permutation (f : ModelField) fs :
  insert_field f fs ≡ₚ f :: fs.
Proof.
  induction fs as [|g fs IH]; simpl; [done |].
  destruct (_ <=? _)%Z; [done |].
  rewrite IH. apply Permutation_swap.
Qed.

Lemma sorted_fields_Permutation (fs : list ModelField) : sorted_fields fs ≡ₚ fs.
Proof.
  unfold sorted_fields. induction fs as [|f fs IH]; simpl; [done |].
  by rewrite insert_field_Permutation, IH.
Qed.

Lemma elem_of_form_candidates (model : Model) mf :
  mf ∈ form_candidates model
  <-> mf ∈ _meta_concrete_fields model \/ mf ∈ _meta_private_fields model
      \/ mf ∈ _meta_many_to_many model.
Proof.
  unfold form_candidates. rewrite sorted_fields_Permutation.
  by rewrite !elem_of_app.
Qed.

Lemma get_field_fields_for_model (model : Model) exclude widgets mf formfield :
  NoDup (map mf_name (form_candidates model)) -> mf ∈ form_candidates model ->
  editable mf = true -> mf_name mf ∉ exclude ->
  formfield_with widgets mf = Some formfield ->
  get_field (mf_name mf) (fields_for_model model exclude widgets) = Some formfield.
Proof.
  unfold fields_for_model.
  induction (form_candidates model) as [|f fs IH]; simpl; intros Hnd Hin He Hex Hff.
  - by apply elem_of_nil in Hin.
  - apply NoDup_cons in Hnd as [Hf Hnd].
    apply elem_of_cons in Hin as [-> | Hin].
    + rewrite He, Hff. rewrite bool_decide_false by done. simpl.
      by rewrite decide_True.
    + assert (mf_name f <> mf_name mf) as Hne.
      { intros Heq. apply Hf. rewrite Heq. by apply list_elem_of_fmap_2. }
      destruct (negb (editable f)); simpl; [by apply IH |].
      case_bool_decide; simpl; [by apply IH |].
      destruct (formfield_with widgets f); simpl;
        [rewrite decide_False by done |]; by apply IH.
Qed.

Lemma get_field_mark_conditional name k (fs : Fields) :
  get_field k (mark_conditional name fs)
  = if decide (name = k) then set_attr "required" (VBool true) <$> get_field k fs
    else get_field k fs.
Proof.
  unfold mark_conditional. destruct (get_field name fs) as [f|] eqn:Hf.
  - apply get_field_alter.
  - case_decide; [subst; by rewrite Hf | done].
Qed.

(** X19.  In the form the factory builds, with the names of the
    model's fields distinct, the form fields are exactly the fields a
    model form walks (the concrete fields, the private model fields
    and the many-to-many fields) that are editable, not excluded and
    have a form field: the automatic primary key, whose
    [formfield()] is [None], is no form field.  Each of them shows up
    with the [required] flag the model gives it: the conditionally
    shown [mentee_activities] and [mentor_activities] get the widget
    attribute [required] for the browser, but the fields themselves
    are not made required.  A field named like a TextField of
    [model._meta.fields] is edited in a four-row Textarea; the other
    fields keep the model's widget. *)
Theorem LeaderApplicationForm_fields {I} (activity_enum : Activity) post kw
    (application : I) :
  let model := model_from_activity activity_enum in
  let form := LeaderApplicationForm activity_enum post kw application in
  NoDup (map mf_name (form_candidates model)) ->
  (forall name,
      name ∈ field_names (fields (activity_form form))
      <-> exists mf,
            (mf ∈ _meta_concrete_fields model \/ mf ∈ _meta_private_fields model
             \/ mf ∈ _meta_many_to_many model)
            /\ mf_name mf = name
            /\ derives_field ["archived"; "year"; "participant"; "previous_rating"] mf)
  /\ (forall mf formfield,
        mf ∈ _meta_concrete_fields model \/ mf ∈ _meta_private_fields model
        \/ mf ∈ _meta_many_to_many model ->
        editable mf = true ->
        mf_name mf ∉ ["archived"; "year"; "participant"; "previous_rating"] ->
        mf_formfield mf = Some formfield ->
        exists f,
          get_field (mf_name mf) (fields (activity_form form)) = Some f
          /\ required f = required formfield
          /\ widget_class (widget f)
             = (if has_textarea model (mf_name mf) then "Textarea"
                else widget_class (widget formfield))
          /\ (has_textarea model (mf_name mf) = true ->
              attrs (widget f) !! "rows" = Some (VInt 4))
          /\ (mf_name mf ∈ ["mentee_activities"; "mentor_activities"] ->
              attrs (widget f) !! "required" = Some (VBool true))
          /\ (mf_name mf ∉ ["mentee_activities"; "mentor_activities"] ->
              attrs (widget f) !! "required"
              = (if has_textarea model (mf_name mf) then None
                 else attrs (widget formfield) !! "required"))).
Proof.
  intros model form Hnd. subst form. unfold LeaderApplicationForm.
  fold model. cbn [activity_form fields fold_left].
  fold (textarea_for (_meta_fields model)). split.
  - intros name.
    rewrite !field_names_mark_conditional, fields_for_model_names.
    rewrite list_elem_of_filter, list_elem_of_fmap. unfold derives_field. split.
    + intros [Hex (mf & -> & Hin)]. apply list_elem_of_filter in Hin as [[He Hs] Hin].
      exists mf. split; [by apply elem_of_form_candidates |]. done.
    + intros (mf & Hin & <- & He & Hex & Hs). split; [done |].
      exists mf. split; [done |]. apply list_elem_of_filter.
      split; [done |]. by apply elem_of_form_candidates.
  - intros mf formfield Hin He Hex Hff.
    apply elem_of_form_candidates in Hin.
    rewrite !get_field_mark_conditional.
    assert (get_field (mf_name mf)
              (fields_for_model model DynamicActivityForm_exclude
                 (textarea_for (_meta_fields model)))
            = Some (if has_textarea model (mf_name mf)
                    then set_widget (make_widget "Textarea" [("rows", VInt 4)])
                           formfield
                    else formfield)) as ->.
    { apply (get_field_fields_for_model model DynamicActivityForm_exclude
               (textarea_for (_meta_fields model)) mf _ Hnd Hin He Hex).
      unfold formfield_with. rewrite assoc_textarea, Hff.
      unfold has_textarea. by case_bool_decide. }
    destruct (decide ("mentor_activities" = mf_name mf)) as [Hmentor | Hmentor];
      destruct (decide ("mentee_activities" = mf_name mf)) as [Hmentee | Hmentee];
      try congruence.
    all: eexists; split; [reflexivity |].
    all: destruct (has_textarea model (mf_name mf)); simpl.
    all: repeat split; try done.
    all: try (intros _; apply lookup_insert_eq).
    all: try (intros Hcond; exfalso; apply Hcond; rewrite <- ?Hmentor, <- ?Hmentee;
              in_list).
    all: try (intros Hcond; rewrite !elem_of_cons in Hcond; rewrite elem_of_nil in Hcond;
              destruct Hcond as [? | [? | []]]; congruence).
Qed.

End LeaderApplicationFormMore.

(** ** TripForm.__init__ and a submitted program that is none *)

Section TripFormInvalidProgram.
Context `{Enums} `{!Affiliations} `{!Models} `{!Membership} `{!Widgets}.

Lemma bind_chain_Raise {A B} (r : Result A) (k : A -> Result B)
    (P : A -> Prop) (e : Exception) :
  (exists a, r = Return a /\ P a) ->
  (forall a, P a -> k a = Raise e) ->
  (r ≫= k) = Raise e.
Proof. intros (a & -> & Ha) Hk. exact (Hk a Ha). Qed.

Lemma on_field_keeps_names {I} (names : list string) (form : Form I) name g :
  field_names (fields form) = names ->
  name ∈ names ->
  exists form', on_field name g form = Return form'
                /\ field_names (fields form') = names.
Proof.
  intros Hnames Hin. eexists. split.
  - apply on_field_returns. by rewrite Hnames.
  - by rewrite fields_with_fields, field_names_alter.
Qed.

(** X20.  The submitted program is read before it is validated: a
    non-empty submitted value that is not the value of any program
    makes the construction of a TripForm raise [ValueError], whatever
    the trip and the allowed programs are. *)
Theorem TripForm_init_invalid_program now allowed post kw trip program :
  post !! "program" = Some program ->
  program <> "" ->
  Program_of_value program = None ->
  TripForm_init now allowed post kw trip = Raise (ValueError program).
Proof.
  intros Hpost Hne Hinvalid.
  assert (winter_terrain_level_required post = Raise (ValueError program)) as Hlevel.
  { unfold winter_terrain_level_required. rewrite Hpost.
    destruct program; [done |]. cbn -[Program_of_value]. by rewrite Hinvalid. }
  unfold TripForm_init. cbv zeta.
  set (named := fun s : TripForm => field_names (fields s) = meta_fields TripForm_Meta).
  assert (named (ModelForm_init Trip_formfield TripForm_Meta post kw trip)) as Hnames
      by apply ModelForm_init_names.
  apply (bind_chain_Raise _ _ named);
    [by apply on_field_keeps_names; [| simpl; in_list] |].
  clear Hnames. intros self1 Hnames1.
  apply (bind_chain_Raise _ _ named).
  { destruct (Trip.pk trip); [by eexists |].
    apply (bind_chain _ _ named);
      [by apply on_field_keeps_names; [| simpl; in_list] |].
    intros self2 Hnames2.
    apply (bind_chain _ _ named);
      [by apply on_field_keeps_names; [| simpl; in_list] |].
    intros self3 Hnames3.
    by apply on_field_keeps_names; [| simpl; in_list]. }
  clear Hnames1. intros self4 Hnames4.
  apply (bind_chain_Raise _ _ named);
    [by apply on_field_keeps_names; [| simpl; in_list] |].
  clear Hnames4. intros self5 Hnames5.
  apply (bind_chain_Raise _ _ named);
    [by apply on_field_keeps_names; [| simpl; in_list] |].
  intros self6 _. by rewrite Hlevel.
Qed.

End TripFormInvalidProgram.

(** ** Construction of the two bound forms *)

Section BoundFormsReturn.
Context `{Enums} `{!RatingModels}.

Lemma bindable_LotteryInfo_getattr info attr :
  bindable (LotteryInfo_getattr info attr) = true.
Proof.
  unfold LotteryInfo_getattr. repeat case_decide; try done.
  by destruct (LotteryInfo.number_of_passengers info).
Qed.

Lemma bound_initial_bindable {I} (form : Form I) name v f :
  bindable v = true -> bindable (initial f) = true ->
  bindable (bound_initial form name v f) = true.
Proof.
  intros Hv Hf. unfold bound_initial. destruct (data form !! name); [done |].
  by destruct v.
Qed.

(** Construction succeeds when the two model fields start from values
    that can be rendered. *)
Lemma LotteryInfoForm_init_returns post kw info :
  bindable (initial (LotteryInfo_formfield "car_status")) = true ->
  bindable (initial (LotteryInfo_formfield "number_of_passengers")) = true ->
  exists self, LotteryInfoForm_init post kw info = Return self.
Proof.
  intros Hcar Hpassengers. unfold LotteryInfoForm_init. cbv zeta. simpl foldl.
  set (self0 := ModelForm_init _ _ _ _ _ : LotteryInfoForm).
  destruct (_bind_input_returns self0 "car_status"
              (LotteryInfo_getattr info "car_status") None
              (LotteryInfo_formfield "car_status") eq_refl) as [step Hstep].
  { by apply bound_initial_bindable; [apply bindable_LotteryInfo_getattr |]. }
  rewrite Hstep. unfold mbind, Result_bind. cbn beta iota.
  eapply _bind_input_returns.
  - by rewrite (_bind_input_other _ _ _ _ _ Hstep "number_of_passengers") by discriminate.
  - by apply bound_initial_bindable; [apply bindable_LotteryInfo_getattr |].
Qed.

(** Construction succeeds when the initial data holds nothing for
    [is_recommendation] that cannot be rendered. *)
Lemma ApplicationLeaderForm_init_returns {I} post kw (rating : I) :
  (forall v, kw !! "is_recommendation" = Some v -> bindable v = true) ->
  exists self, ApplicationLeaderForm_init post kw rating = Return self.
Proof.
  intros Hkw. unfold ApplicationLeaderForm_init. cbv zeta.
  eapply _bind_input_returns; [reflexivity |].
  unfold bound_initial. destruct (data _ !! _); [done |].
  change (form_initial _) with kw.
  destruct (kw !! "is_recommendation") as [v|] eqn:Hv; [| done].
  simpl. specialize (Hkw v eq_refl). by destruct v.
Qed.

End BoundFormsReturn.

(** * Concrete runs, continued *)

(** ** _bind_input *)

(** A SignUpForm has no field [rows]; its [notes] field can be bound. *)
Lemma _bind_input_outcome_witness :
  _bind_input (Sample.signup_form ∅) "rows" (VInt 3) None = Raise (KeyError "rows")
  /\ _bind_input (Sample.signup_form ∅) "notes" (VTrip Sample.saved_trip) None
     = Raise (TypeError "Unexpected initial value")
  /\ exists form', _bind_input (Sample.signup_form ∅) "notes" (VInt 3) None = Return form'.
Proof.
  destruct (_bind_input_outcome (Sample.signup_form ∅) "rows" (VInt 3) None)
    as (Hmissing & _ & _).
  destruct (_bind_input_outcome (Sample.signup_form ∅) "notes"
              (VTrip Sample.saved_trip) None) as (_ & Hobject & _).
  destruct (_bind_input_outcome (Sample.signup_form ∅) "notes" (VInt 3) None)
    as (_ & _ & Hreturns).
  split; [apply Hmissing; reflexivity |].
  split; [eapply Hobject; reflexivity |].
  eapply Hreturns; reflexivity.
Defined.

Lemma _bind_input_frame_witness :
  exists form',
    _bind_input (Sample.signup_form ∅) "notes" (VInt 3) (Some "n") = Return form'
    /\ get_field "trip" (fields form') = get_field "trip" (fields (Sample.signup_form ∅))
    /\ (attrs_of "notes" form' ≫= lookup "rows") = Some (VInt 4).
Proof.
  destruct (_bind_input_returns (Sample.signup_form ∅) "notes" (VInt 3) (Some "n")
              (set_widget (make_widget "Textarea" [("rows", VInt 4)])
                 (Sample.text_field "notes")))
    as [form' Hbind]; [reflexivity | reflexivity |].
  exists form'. split; [exact Hbind |].
  destruct (_bind_input_frame _ _ _ _ _ Hbind)
    as [(_ & _ & _ & _ & _ & _ & Hother & _) Hkeys].
  split; [apply Hother; discriminate |].
  rewrite (Hkeys "rows") by discriminate. reflexivity.
Defined.

Lemma _bind_input_renders_witness :
  exists form',
    _bind_input (Sample.signup_form ∅) "notes" (VInt 3) (Some "n") = Return form'
    /\ (attrs_of "notes" form' ≫= lookup "data-ng-model") = Some (VStr "n")
    /\ (attrs_of "notes" form' ≫= lookup "data-ng-init") = Some (VStr "n = '3'").
Proof.
  destruct (_bind_input_returns (Sample.signup_form ∅) "notes" (VInt 3) (Some "n")
              (set_widget (make_widget "Textarea" [("rows", VInt 4)])
                 (Sample.text_field "notes")))
    as [form' Hbind]; [reflexivity | reflexivity |].
  exists form'. split; [exact Hbind |].
  destruct (_bind_input_renders (Sample.signup_form ∅) form' "notes" (VInt 3) (Some "n")
              _ eq_refl Hbind) as (Hmodel & _ & Hint & _).
  split; [exact Hmodel |].
  apply (Hint 3); [reflexivity | reflexivity | discriminate].
Defined.

(** ** ParticipantForm *)

Lemma ParticipantForm_email_choices_witness :
  exists self,
    ParticipantForm_init
      {| User.emailaddress_set :=
           [{| EmailAddress.email := "tim@mit.edu"; EmailAddress.verified := true |};
            {| EmailAddress.email := "tim@example.com"; EmailAddress.verified := false |}]
      |} None ∅ ∅ = Return self
    /\ ((fun f => widget_choices (widget f))
          <$> get_field "email" (fields (participant_form self)))
       = Some [Single (VStr "tim@mit.edu") "tim@mit.edu"].
Proof.
  set (user := {| User.emailaddress_set := _ |}).
  destruct (ParticipantForm_init_returns user None ∅ ∅) as (self & Hinit & Hemails).
  exists self. split; [exact Hinit |].
  destruct (ParticipantForm_email_choices user None ∅ ∅ self Hinit) as [Hchoices _].
  rewrite Hchoices. reflexivity.
Defined.

Lemma ParticipantForm_old_affiliation_witness :
  exists self,
    ParticipantForm_init (Sample.user_with []) (Some Sample.tim) ∅ ∅ = Return self
    /\ (attrs_of "affiliation" (participant_form self) ≫= lookup "data-ng-init")
       = Some (VStr "affiliation = 'MU'").
Proof.
  destruct (ParticipantForm_init_returns (Sample.user_with []) (Some Sample.tim) ∅ ∅)
    as (self & Hinit & _).
  exists self. split; [exact Hinit |].
  destruct (ParticipantForm_old_affiliation _ _ _ _ _ Hinit) as [_ Hkept];
    [reflexivity |].
  destruct Hkept as [_ Hinit_attr]; [discriminate | discriminate |].
  exact Hinit_attr.
Defined.

Lemma clean_affiliation_at_mit_edu_suffices_witness :
  clean_affiliation
    (Sample.participant_form_with ["Tim@MIT.EDU"] {[ "affiliation" := VStr "MU" ]})
  = Return (VStr "MU").
Proof.
  apply (clean_affiliation_at_mit_edu_suffices
           (Sample.participant_form_with ["Tim@MIT.EDU"] {[ "affiliation" := VStr "MU" ]})
           (VStr "MU") "Tim@MIT.EDU").
  - reflexivity.
  - apply list_elem_of_here.
  - reflexivity.
Defined.

Lemma clean_affiliation_ignores_case_witness :
  clean_affiliation
    (Sample.participant_form_with ["Tim@MIT.EDU"] {[ "affiliation" := VStr "MU" ]})
  = clean_affiliation
      (Sample.participant_form_with ["tim@mit.edu"] {[ "affiliation" := VStr "MU" ]}).
Proof.
  apply (clean_affiliation_ignores_case _ ["Tim@MIT.EDU"] ["tim@mit.edu"]).
  reflexivity.
Defined.

(** ** TripForm *)

Lemma TripForm_clean_error_effect_witness :
  exists self',
    TripForm_clean
      (Sample.trip_form Sample.saved_trip
         {[ "program" := VStr "climbing";
            "leaders" := VLeaders [Sample.bob; Sample.ada] ]})
    = Return self'
    /\ cleaned_data self' !! "leaders" = None
    /\ cleaned_data self' !! "program" = Some (VStr "climbing").
Proof.
  set (self := Sample.trip_form Sample.saved_trip
                 {[ "program" := VStr "climbing";
                    "leaders" := VLeaders [Sample.bob; Sample.ada] ]}).
  destruct (TripForm_clean_error_effect self (VStr "climbing") Sample.Climbing
              [Sample.bob; Sample.ada])
    as (self' & Hclean & Hcleaned & Hprogram & _).
  - reflexivity.
  - reflexivity.
  - reflexivity.
  - vm_compute. in_list.
  - vm_compute. discriminate.
  - exists self'. split; [exact Hclean |]. split; [| exact Hprogram].
    rewrite Hcleaned. apply lookup_delete_eq.
Defined.

(** For a new hiking trip and no allowed program at all, hiking is
    still on offer. *)
Lemma _allowed_program_choices_offered_witness :
  exists offered options,
    _allowed_program_choices (Sample.trip_form Sample.new_trip ∅) [] = Return offered
    /\ Group "Specific rating required" options ∈ offered
    /\ (VStr "hiking", "Hiking") ∈ options.
Proof.
  assert (exists offered,
             _allowed_program_choices (Sample.trip_form Sample.new_trip ∅) []
             = Return offered) as [offered Hoffered]
      by (eexists; vm_compute; reflexivity).
  destruct (_allowed_program_choices_offered _ _ _ Hoffered) as (_ & Hlisted).
  destruct (Hlisted "Specific rating required"
              [("climbing", "Climbing"); ("hiking", "Hiking")]
              "hiking" "Hiking" Sample.Hiking) as (options & Hgroup & Hin).
  - apply list_elem_of_here.
  - in_list.
  - reflexivity.
  - right. reflexivity.
  - by exists offered, options.
Defined.

Lemma TripForm_init_minimum_dates_witness :
  exists self,
    TripForm_init Sample.noon None ∅ ∅ Sample.new_trip = Return self
    /\ (attrs_of "trip_date" self ≫= lookup "min") = Some (VStr "2024-01-10")
    /\ (attrs_of "signups_open_at" self ≫= lookup "min") = Some (VStr "2024-01-10T12:00").
Proof.
  destruct (TripForm_init_returns Sample.noon None ∅ ∅ Sample.new_trip)
    as (self & Hinit & _); [by exists true | by left | reflexivity |].
  exists self. split; [exact Hinit |].
  destruct (TripForm_init_minimum_dates _ _ _ _ _ _ Hinit) as [Hnew _].
  destruct (Hnew eq_refl) as (Hdate & Hopen & _). by split.
Defined.

Lemma TripForm_init_frame_witness :
  exists self,
    TripForm_init Sample.noon None ∅ ∅ Sample.new_trip = Return self
    /\ required_flag "summary" self = Some false
    /\ get_field "name" (fields self) = Some (Sample.text_field "name").
Proof.
  destruct (TripForm_init_returns Sample.noon None ∅ ∅ Sample.new_trip)
    as (self & Hinit & _); [by exists true | by left | reflexivity |].
  exists self. split; [exact Hinit |].
  destruct (TripForm_init_frame _ _ _ _ _ _ Hinit) as [Hsummary Hother].
  split; [exact Hsummary |].
  rewrite Hother; [reflexivity |].
  rewrite !not_elem_of_cons. repeat split; try discriminate. apply not_elem_of_nil.
Defined.

Lemma TripForm_init_program_default_witness :
  exists self,
    TripForm_init Sample.noon (Some Sample.hiking_and_winter_school) ∅ ∅ Sample.new_trip
    = Return self
    /\ (attrs_of "program" self ≫= lookup "data-ng-init")
       = Some (VStr "program = 'winter_school'").
Proof.
  destruct (TripForm_init_returns Sample.noon (Some Sample.hiking_and_winter_school)
              ∅ ∅ Sample.new_trip) as (self & Hinit & _).
  { by exists true. }
  { right. repeat constructor; by eexists. }
  { reflexivity. }
  exists self. split; [exact Hinit |].
  destruct (TripForm_init_program_default _ _ _ _ _ _ Hinit) as [_ Hiap];
    [reflexivity |].
  apply (Hiap Sample.hiking_and_winter_school);
    [reflexivity | in_list | reflexivity | reflexivity | discriminate].
Defined.

Lemma TripForm_init_invalid_program_witness :
  TripForm_init Sample.noon None {[ "program" := "skiing" ]} ∅ Sample.new_trip
  = Raise (ValueError "skiing").
Proof.
  apply TripForm_init_invalid_program; [reflexivity | discriminate | reflexivity].
Defined.

(** ** SignUpForm *)

(** The notes of the saved trip are one line long: four rows. *)
Lemma SignUpForm_init_notes_witness :
  exists self,
    SignUpForm_init ∅ {[ "trip" := VTrip Sample.saved_trip ]}
      {| SignUp.participant := Sample.ada; SignUp.on_trip := false |}
    = Return self
    /\ required_flag "notes" self = Some true
    /\ (attrs_of "notes" self ≫= lookup "rows") = Some (VInt 4).
Proof.
  destruct (SignUpForm_init_notes ∅ {[ "trip" := VTrip Sample.saved_trip ]}
              {| SignUp.participant := Sample.ada; SignUp.on_trip := false |})
    as (Hnotes & _ & _).
  destruct (Hnotes Sample.saved_trip) as (self & Hinit & Hrequired & _ & rows & Hrows & -> & _);
    [reflexivity | discriminate |].
  exists self. split; [exact Hinit |]. split; [exact Hrequired | exact Hrows].
Defined.

Lemma clean_notes_trimmed_witness :
  exists pre post,
    " vegan " = pre +:+ "vegan" +:+ post
    /\ all_space pre /\ all_space post
    /\ starts_with_space "vegan" = false /\ ends_with_space "vegan" = false.
Proof.
  apply (clean_notes_trimmed
           (Sample.signup_form
              {[ "trip" := VTrip Sample.saved_trip; "notes" := VStr " vegan " ]})
           " vegan " "vegan"); reflexivity.
Defined.

(** ** LotteryInfoForm and ApplicationLeaderForm *)

Lemma LotteryInfoForm_init_passengers_witness :
  exists self,
    LotteryInfoForm_init ∅ ∅ Sample.lottery_info = Return self
    /\ (attrs_of "number_of_passengers" self ≫= lookup "data-ng-init")
       = Some (VStr "number_of_passengers = '3'")
    /\ (attrs_of "number_of_passengers" self ≫= lookup "max") = Some (VInt 13).
Proof.
  destruct (LotteryInfoForm_init_returns ∅ ∅ Sample.lottery_info) as [self Hinit];
    [reflexivity | reflexivity |].
  exists self. split; [exact Hinit |].
  destruct (LotteryInfoForm_init_passengers ∅ ∅ Sample.lottery_info self 3 Hinit)
    as (_ & Hmax & _ & Hannounced); [reflexivity | reflexivity |].
  split; [exact Hannounced | exact Hmax].
Defined.

Lemma ApplicationLeaderForm_init_is_rec_witness :
  exists self : Form unit,
    ApplicationLeaderForm_init ∅ {[ "is_recommendation" := VBool true ]} tt = Return self
    /\ field_names (fields self) = ["rating"; "notes"; "is_recommendation"]
    /\ (attrs_of "is_recommendation" self ≫= lookup "data-ng-init")
       = Some (VStr "is_rec = true").
Proof.
  destruct (ApplicationLeaderForm_init_returns
              ∅ {[ "is_recommendation" := VBool true ]} tt) as [self Hinit].
  { intros v Hv. apply lookup_singleton_Some in Hv as [_ <-]. reflexivity. }
  exists self. split; [exact Hinit |].
  destruct (ApplicationLeaderForm_init_is_rec _ _ _ _ Hinit)
    as (Hnames & _ & _ & Hunbound).
  split; [exact Hnames |].
  destruct (Hunbound eq_refl) as [Htrue _]. rewrite (Htrue eq_refl). reflexivity.
Defined.

(** ** DuesForm *)

Lemma DuesForm_init_participant_witness :
  exists self,
    DuesForm_init (Some Sample.tim) ∅ ∅ = Return self
    /\ initial <$> get_field "merchantDefinedData3" (fields self)
       = Some (VStr "tim@mit.edu")
    /\ (attrs_of "amount" self ≫= lookup "data-ng-init") = Some (VStr "amount = '15'").
Proof.
  destruct (DuesForm_init_invariant (Some Sample.tim) ∅ ∅) as (self & Hinit & _).
  exists self. split; [exact Hinit |].
  destruct (DuesForm_init_participant _ _ _ _ Hinit)
    as (Hemail & _ & _ & _ & _ & _ & Hamount).
  split; [exact Hemail |]. apply Hamount. reflexivity.
Defined.

Lemma DuesForm_init_anonymous_witness :
  exists self,
    DuesForm_init None ∅ ∅ = Return self
    /\ initial <$> get_field "amount" (fields self) = Some (VStr "")
    /\ attrs_of "amount" self = Some {[ "data-ng-model" := VStr "amount" ]}.
Proof.
  destruct (DuesForm_init_invariant None ∅ ∅) as (self & Hinit & _).
  exists self. split; [exact Hinit |].
  destruct (DuesForm_init_anonymous _ _ _ Hinit) as (Hamount & _ & _ & _ & _ & Hattrs).
  split; [exact Hamount |]. apply Hattrs. reflexivity.
Defined.

(** ** LeaderApplicationForm *)


(** The mentor activities, a many-to-many field, are a field of the
    climbing application; the automatic primary key is none. *)
Lemma LeaderApplicationForm_fields_witness :
  ("id" ∉ field_names
            (fields (activity_form (LeaderApplicationForm Sample.climbing_activity ∅ ∅ tt))))
  /\ exists f,
       get_field "mentor_activities"
         (fields (activity_form (LeaderApplicationForm Sample.climbing_activity ∅ ∅ tt)))
       = Some f
       /\ required f = true
       /\ widget_class (widget f) = "TextInput"
       /\ attrs (widget f) !! "required" = Some (VBool true).
Proof.
  destruct (LeaderApplicationForm_fields Sample.climbing_activity ∅ ∅ tt)
    as [Hnames Hfields].
  { apply (bool_decide_unpack _). vm_compute. exact I. }
  split.
  - intros Hid. apply Hnames in Hid as (mf & Hin & Hname & _ & _ & Hsome).
    assert (mf_formfield mf = None) as Hnone; [| rewrite Hnone in Hsome; by destruct Hsome].
    destruct Hin as [Hin | [Hin | Hin]]; simpl in Hin.
    + unfold Sample.application_fields in Hin.
      repeat (apply elem_of_cons in Hin as [-> | Hin]; [done || discriminate |]).
      by apply elem_of_nil in Hin.
    + by apply elem_of_nil in Hin.
    + apply list_elem_of_singleton in Hin as ->. discriminate.
  - destruct (Hfields (Sample.model_field "mentor_activities" false 6)
                (Sample.text_field "mentor_activities"))
      as (f & Hf & Hrequired & Hclass & _ & Hattr & _).
    + right. right. simpl. in_list.
    + reflexivity.
    + rewrite !not_elem_of_cons. repeat split; try discriminate. apply not_elem_of_nil.
    + reflexivity.
    + exists f. split; [exact Hf |]. split; [exact Hrequired |]. split; [exact Hclass |].
      apply Hattr. in_list.
Defined.
